(** * AmpliPi preamp communication layer: a shallow embedding

    Two Python modules are embedded here:
    - [amplipi/rt.py]: the runtimes ([_Preamps], [Mock], [Rpi]) that turn
      zone-indexed commands into preamp register writes;
    - [amplipi/hw.py]: the board handle [Preamp] and the chain manager
      [Preamps] (reset, enumeration, flashing).

    Python integers are [Z]; a Python list is a [list] indexed the Python
    way (negative indices count from the end, anything else out of range
    raises [IndexError]); a [dict] is an association list kept in insertion
    order, because [for p in self._bus.preamps.keys()] visits the boards in
    that order.  Every method is a state transformer that may raise; what the
    program does to the outside world (GPIO, UART, I2C, sleeps, the flashing
    tool) is appended to a trace of events, and what the outside world
    answers is read from an environment that may depend on everything that
    happened before.  [print] calls are not modelled. *)

From Stdlib Require Import String ZArith List Bool Lia.
From coqutil Require Import Z.bitblast.
Import ListNotations.
Local Open Scope Z_scope.

(** ** Exceptions, events and the environment *)

Inductive exn : Type :=
| AssertionError
| IndexError
| KeyError
| TypeError
| ValueError
| OSError
| CalledProcessError.

Inductive result (A : Type) : Type :=
| Ok (a : A)
| Raise (e : exn).
Arguments Ok {A} a.
Arguments Raise {A} e.

(** Sleeps are recorded in milliseconds. *)
Inductive event : Type :=
| GPIO_setmode_BCM
| GPIO_setup_OUT (pin : Z)
| GPIO_output (pin : Z) (level : bool)
| GPIO_cleanup
| Sleep (ms : Z)
| Serial_write (baudrate : Z) (data : list Z)
| SMBus_open
| SMBus_write_byte_data (addr reg data : Z) (ack : bool)
| SMBus_read_byte_data (addr reg : Z) (value : option Z)
| Stm32flash (baud : Z) (filepath : string) (ok : bool).

(** The hardware's side of the conversation.  [ack t a r d] tells whether the
    I2C write of [d] to register [r] of device [a], attempted after the
    history [t], is acknowledged (otherwise smbus2 raises [OSError]);
    [peek t a r] is the byte a read returns ([None]: the read raises);
    [stm32flash t baud path] is whether the flashing tool exits with 0. *)
Record Env : Type := {
  ack : list event -> Z -> Z -> Z -> bool;
  peek : list event -> Z -> Z -> option Z;
  stm32flash : list event -> Z -> string -> bool
}.

(** ** Python values that reach the runtime from the controller *)

Inductive pyval : Type :=
| PNone
| PBool (b : bool)
| PInt (n : Z)
| PStr (s : string).

(** [type(v) == bool], [type(v) == int] and [isinstance(v, int)]:
    [bool] is a subclass of [int]. *)
Definition type_is_bool (v : pyval) : bool :=
  match v with PBool _ => true | _ => false end.

Definition type_is_int (v : pyval) : bool :=
  match v with PInt _ => true | _ => false end.

Definition isinstance_int (v : pyval) : bool :=
  match v with PInt _ | PBool _ => true | _ => false end.

Definition isinstance_bool (v : pyval) : bool :=
  match v with PBool _ => true | _ => false end.

Definition is_None (v : pyval) : bool :=
  match v with PNone => true | _ => false end.

(** Truth value of [v] in [if v:]. *)
Definition truthy (v : pyval) : bool :=
  match v with
  | PNone => false
  | PBool b => b
  | PInt n => negb (n =? 0)
  | PStr s => negb (String.eqb s EmptyString)
  end.

(** [v == False]: [False] equals the integer [0]. *)
Definition eq_False (v : pyval) : bool :=
  match v with
  | PBool b => negb b
  | PInt n => n =? 0
  | _ => false
  end.

(** [False in l]. *)
Definition False_in (l : list pyval) : bool := existsb eq_False l.

(** ** Python sequences and dictionaries *)

Definition len {A} (l : list A) : Z := Z.of_nat (length l).

(** Position in a sequence of length [n] that the index [i] denotes. *)
Definition py_pos (n : nat) (i : Z) : option nat :=
  if (0 <=? i) && (i <? Z.of_nat n) then Some (Z.to_nat i)
  else if (- Z.of_nat n <=? i) && (i <? 0) then Some (Z.to_nat (i + Z.of_nat n))
  else None.

Definition getitem {A} (l : list A) (i : Z) : option A :=
  match py_pos (length l) i with
  | Some k => nth_error l k
  | None => None
  end.

Fixpoint replace_nth {A} (k : nat) (x : A) (l : list A) : list A :=
  match l, k with
  | [], _ => []
  | _ :: r, O => x :: r
  | y :: r, S k' => y :: replace_nth k' x r
  end.

Definition setitem {A} (l : list A) (i : Z) (x : A) : option (list A) :=
  match py_pos (length l) i with
  | Some k => Some (replace_nth k x l)
  | None => None
  end.

(** [range(n)]. *)
Definition range (n : Z) : list Z := map Z.of_nat (seq 0 (Z.to_nat n)).

Definition Z_in (x : Z) (l : list Z) : bool := existsb (Z.eqb x) l.

Section Dict.
Context {V : Type}.

Fixpoint dict_get (k : Z) (d : list (Z * V)) : option V :=
  match d with
  | [] => None
  | (k', v) :: r => if k =? k' then Some v else dict_get k r
  end.

Definition dict_mem (k : Z) (d : list (Z * V)) : bool :=
  match dict_get k d with Some _ => true | None => false end.

(** [d[k] = v]: an existing key keeps its place, a new one goes last. *)
Fixpoint dict_set (k : Z) (v : V) (d : list (Z * V)) : list (Z * V) :=
  match d with
  | [] => [(k, v)]
  | (k', v') :: r =>
      if k =? k' then (k, v) :: r else (k', v') :: dict_set k v r
  end.

Definition dict_keys (d : list (Z * V)) : list Z := map fst d.
End Dict.

(** ** The monad: an object, the trace so far, and a possible exception.
    A raised exception keeps the state reached so far, as in Python. *)

Record st (O : Type) : Type := mkst { obj : O; trace : list event }.
Arguments mkst {O} obj trace.
Arguments obj {O} s.
Arguments trace {O} s.

Definition M (O A : Type) : Type := st O -> result A * st O.

Definition ret {O A} (a : A) : M O A := fun s => (Ok a, s).

Definition raise {O A} (e : exn) : M O A := fun s => (Raise e, s).

Definition bind {O A B} (m : M O A) (k : A -> M O B) : M O B :=
  fun s =>
    match m s with
    | (Ok a, s') => k a s'
    | (Raise e, s') => (Raise e, s')
    end.

Declare Scope py_scope.
Delimit Scope py_scope with py.
Notation "x <- m ;; k" := (bind m (fun x => k))
  (at level 100, m at next level, right associativity) : py_scope.
Notation "m ;; k" := (bind m (fun _ => k))
  (at level 100, right associativity) : py_scope.
Local Open Scope py_scope.

Definition get {O} : M O O := fun s => (Ok (obj s), s).

Definition put {O} (o : O) : M O unit := fun s => (Ok tt, mkst o (trace s)).

Definition emit {O} (ev : event) : M O unit :=
  fun s => (Ok tt, mkst (obj s) (trace s ++ [ev])).

(** [assert b]. *)
Definition assert_ {O} (b : bool) : M O unit :=
  if b then ret tt else raise AssertionError.

(** [try: m  except Exception: h]. *)
Definition try_except {O A} (m : M O A) (h : M O A) : M O A :=
  fun s =>
    match m s with
    | (Ok a, s') => (Ok a, s')
    | (Raise _, s') => h s'
    end.

(** A value that must be there, else the given exception. *)
Definition must {O A} (o : option A) (e : exn) : M O A :=
  match o with Some a => ret a | None => raise e end.

(** [for x in l: body(x)]. *)
Fixpoint foreach {O X} (l : list X) (body : X -> M O unit) : M O unit :=
  match l with
  | [] => ret tt
  | x :: r => body x ;; foreach r body
  end.

(** A [for] loop that carries an accumulator. *)
Fixpoint for_acc {O X Acc} (l : list X) (acc : Acc)
    (body : X -> Acc -> M O Acc) : M O Acc :=
  match l with
  | [] => ret acc
  | x :: r => acc' <- body x acc ;; for_acc r acc' body
  end.

(** [time.sleep]: a negative duration raises [ValueError]. *)
Definition sleep {O} (ms : Z) : M O unit :=
  if ms <? 0 then raise ValueError else emit (Sleep ms).

Section WithEnv.
Variable E : Env.

(** [SMBus.write_byte_data]: raises [OSError] unless acknowledged. *)
Definition smbus_write {O} (a r d : Z) : M O unit :=
  fun s =>
    let ok := ack E (trace s) a r d in
    let s' := mkst (obj s) (trace s ++ [SMBus_write_byte_data a r d ok]) in
    if ok then (Ok tt, s') else (Raise OSError, s').

(** [SMBus.read_byte_data]. *)
Definition smbus_read {O} (a r : Z) : M O Z :=
  fun s =>
    let v := peek E (trace s) a r in
    let s' := mkst (obj s) (trace s ++ [SMBus_read_byte_data a r v]) in
    match v with
    | Some x => (Ok x, s')
    | None => (Raise OSError, s')
    end.

(** [subprocess.run(['stm32flash ...'], shell=True, check=True)]. *)
Definition run_stm32flash {O} (baud : Z) (filepath : string) : M O unit :=
  fun s =>
    let ok := stm32flash E (trace s) baud filepath in
    let s' := mkst (obj s) (trace s ++ [Stm32flash baud filepath ok]) in
    if ok then (Ok tt, s') else (Raise CalledProcessError, s').
End WithEnv.

Existing Class Env.

(** * amplipi/rt.py *)

Module rt.

(** Preamp register addresses ([_REG_ADDRS]). *)
Module REG.
Definition SRC_AD : Z := 0x00.
Definition CH123_SRC : Z := 0x01.
Definition CH456_SRC : Z := 0x02.
Definition MUTE : Z := 0x03.
Definition STANDBY : Z := 0x04.
Definition CH1_ATTEN : Z := 0x05.
Definition CH2_ATTEN : Z := 0x06.
Definition CH3_ATTEN : Z := 0x07.
Definition CH4_ATTEN : Z := 0x08.
Definition CH5_ATTEN : Z := 0x09.
Definition CH6_ATTEN : Z := 0x0A.
End REG.

Definition _DEV_ADDRS : list Z :=
  [0x08; 0x10; 0x18; 0x20; 0x28; 0x30; 0x38; 0x40;
   0x48; 0x50; 0x58; 0x60; 0x68; 0x70; 0x78].

(** [_SRC_TYPES]. *)
Definition _SRC_TYPES : list (Z * string) :=
  [(1, "Digital"%string); (0, "Analog"%string)].

(** ** class _Preamps *)
Module _Preamps.

(** [preamps]: device address -> shadow copy of its registers;
    [bus]: [false] stands for [self.bus is None] (no hardware). *)
Record t : Type := mk { preamps : list (Z * list Z); bus : bool }.

(** The register values [new_preamp] stores. *)
Definition fresh_regs : list Z :=
  [0x0F; 0x00; 0x00; 0x3F; 0x00; 0x4F; 0x4F; 0x4F; 0x4F; 0x4F; 0x4F].

Definition new_preamp (index : Z) : M t unit :=
  self <- get ;;
  put (mk (dict_set index fresh_regs (preamps self)) (bus self)).

(** [reset_preamps]: reset pulse on GPIO4, then the address frame at
    9600 baud. *)
Definition reset_preamps : M t unit :=
  emit GPIO_setmode_BCM ;;
  emit (GPIO_setup_OUT 4) ;;
  emit (GPIO_output 4 false) ;;
  sleep 1 ;;
  emit (GPIO_output 4 true) ;;
  emit GPIO_cleanup ;;
  sleep 100 ;;
  emit (Serial_write 9600 [0x41; 0x10; 0x0D; 0x0A]) ;;
  sleep 100.

(** [print_zone_state]: the values it computes and formats, in the order
    of the format string: [src], [src_type], the channel [zone], [vol] and
    the flag [muted].  The line it prints last is put on the output where
    the output is modelled, in [print] below; [extras.vol_string], which
    only renders [vol], is not modelled. *)
Definition print_zone_state (zone : Z)
    : M t (Z * string * Z * Z * bool) :=
  assert_ (0 <=? zone) ;;
  let preamp := (zone ÷ 6 + 1) * 8 in
  let zone := zone mod 6 in
  self <- get ;;
  regs <- must (dict_get preamp (preamps self)) KeyError ;;
  master <- must (dict_get 0x08 (preamps self)) KeyError ;;
  src_types <- must (getitem master REG.SRC_AD) IndexError ;;
  r456 <- must (getitem regs REG.CH456_SRC) IndexError ;;
  r123 <- must (getitem regs REG.CH123_SRC) IndexError ;;
  let src := Z.land (Z.lor (Z.shiftl r456 8) (Z.shiftr r123 (2 * zone))) 3 in
  src_type <- must (dict_get (Z.land (Z.shiftr src_types src) 1) _SRC_TYPES)
                TypeError ;;
  atten <- must (getitem regs (REG.CH1_ATTEN + zone)) IndexError ;;
  let vol := - atten in
  mute <- must (getitem regs REG.MUTE) IndexError ;;
  let muted := 0 <? Z.land mute (Z.shiftl 1 zone) in
  ret (src, src_type, zone, vol, muted).

(** What [print] writes on the standard output, line by line: the header
    of a board, the names of its four source types, and the state of a
    zone.  ['{}'.format(None)] is ["None"]. *)
Inductive line : Type :=
| Preamp_line (preamp : Z)
| Sources_line (src_cfg : list string)
| Zone_line (state : Z * string * Z * Z * bool).

(** [print(...)]: one more line on the standard output.  The output is
    kept beside the object, so that what was printed before an exception
    stays printed. *)
Definition print_line (l : line) : M (t * list line) unit :=
  fun s => (Ok tt, mkst (fst (obj s), snd (obj s) ++ [l]) (trace s)).

(** A method that prints nothing until it returns. *)
Definition quiet {A} (m : M t A) : M (t * list line) A :=
  fun s =>
    let '(r, s') := m (mkst (fst (obj s)) (trace s)) in
    (r, mkst (obj s', snd (obj s)) (trace s')).

(** [print].  [print_zone_state] prints its one line last, after
    everything in it that can raise. *)
Definition print : M (t * list line) unit :=
  self <- get ;;
  foreach (dict_keys (preamps (fst self))) (fun preamp_addr =>
    let preamp := preamp_addr ÷ 8 in
    print_line (Preamp_line preamp) ;;
    self <- get ;;
    master <- must (dict_get 0x08 (preamps (fst self))) KeyError ;;
    src_types <- must (getitem master REG.SRC_AD) IndexError ;;
    let src_cfg :=
      map (fun src =>
             match dict_get (Z.land (Z.shiftr src_types src) 1) _SRC_TYPES
             with
             | Some src_type => src_type
             | None => "None"%string
             end) (range 4) in
    print_line (Sources_line src_cfg) ;;
    foreach (range 6) (fun zone =>
      state <- quiet (print_zone_state (6 * (preamp - 1) + zone)) ;;
      print_line (Zone_line state))).

Section WithEnv.
Context {E : Env}.

Definition probe_preamp (index : Z) : M t bool :=
  try_except (smbus_write E index REG.SRC_AD 0x0F ;; ret true) (ret false).

(** The discovery loop of [__init__]: stops at the first address that
    does not answer. *)
Fixpoint discover (addrs : list Z) : M t unit :=
  match addrs with
  | [] => ret tt
  | p :: rest =>
      found <- probe_preamp p ;;
      if found then new_preamp p ;; discover rest else ret tt
  end.

(** [__init__]; [amplipi] is what [is_amplipi()] returns. *)
Definition __init__ (amplipi : bool) : M t unit :=
  put (mk [] false) ;;
  if negb amplipi then ret tt
  else
    reset_preamps ;;
    emit SMBus_open ;;
    self <- get ;;
    put (mk (preamps self) true) ;;
    discover _DEV_ADDRS.

(** [write_byte_data].  The three [type(...) == int] assertions hold by
    typing: every caller passes integers. *)
Definition write_byte_data (preamp_addr reg data : Z) : M t unit :=
  assert_ (Z_in preamp_addr _DEV_ADDRS) ;;
  self <- get ;;
  if negb (dict_mem preamp_addr (preamps self)) && bus self then
    ret tt (* Preamp is not connected, do nothing *)
  else
    (if negb (dict_mem preamp_addr (preamps self))
     then new_preamp preamp_addr else ret tt) ;;
    self <- get ;;
    regs <- must (dict_get preamp_addr (preamps self)) KeyError ;;
    regs' <- must (setitem regs reg data) IndexError ;;
    put (mk (dict_set preamp_addr regs' (preamps self)) (bus self)) ;;
    if bus self then
      try_except
        (sleep 1 ;; smbus_write E preamp_addr reg data)
        (sleep 1 ;; emit SMBus_open ;; smbus_write E preamp_addr reg data)
    else ret tt.
End WithEnv.
End _Preamps.

(** ** class Mock: validation only, no state and no I/O *)
Module Mock.

Definition assert_ (b : bool) : result unit :=
  if b then Ok tt else Raise AssertionError.

Definition then_ {A B} (r : result A) (k : A -> result B) : result B :=
  match r with Ok a => k a | Raise e => Raise e end.

(** [for x in l: body(x)]. *)
Fixpoint for_ {X} (l : list X) (body : X -> result unit) : result unit :=
  match l with
  | [] => Ok tt
  | x :: r => then_ (body x) (fun _ => for_ r body)
  end.

(** [l[i]]. *)
Definition item {A} (l : list A) (i : Z) : result A :=
  match getitem l i with Some a => Ok a | None => Raise IndexError end.

Definition update_sources (digital : list pyval) : result bool :=
  then_ (assert_ (len digital =? 4)) (fun _ =>
  then_ (for_ digital (fun flag => assert_ (isinstance_bool flag)))
    (fun _ => Ok true)).

(** [int(len(mutes) / 6)] truncates the quotient. *)
Definition update_zone_mutes (zone : Z) (mutes : list pyval) : result bool :=
  then_ (assert_ (6 <=? len mutes)) (fun _ =>
  let num_preamps := len mutes ÷ 6 in
  then_ (assert_ (len mutes =? num_preamps * 6)) (fun _ =>
  then_ (for_ (range num_preamps) (fun preamp =>
           for_ (range 6) (fun zid =>
             then_ (item mutes (preamp * 6 + zid)) (fun m =>
             assert_ (isinstance_bool m)))))
    (fun _ => Ok true))).

Definition update_zone_sources (zone : Z) (sources : list pyval)
    : result bool :=
  then_ (assert_ (6 <=? len sources)) (fun _ =>
  let num_preamps := len sources ÷ 6 in
  then_ (assert_ (len sources =? num_preamps * 6)) (fun _ =>
  then_ (for_ (range num_preamps) (fun preamp =>
           for_ (range 6) (fun zid =>
             then_ (item sources (preamp * 6 + zid)) (fun src =>
             assert_ (isinstance_int src || is_None src)))))
    (fun _ => Ok true))).

Definition update_zone_vol (zone vol : Z) : result bool :=
  let preamp := zone / 6 in
  then_ (assert_ (0 <=? zone)) (fun _ =>
  then_ (assert_ ((0 <=? preamp) && (preamp <=? 15))) (fun _ =>
  then_ (assert_ ((vol <=? 0) && (-79 <=? vol))) (fun _ =>
  Ok true))).

Definition exists_ (zone : Z) : bool := true.
End Mock.

(** ** class Rpi *)
Module Rpi.

Record t : Type := mk { _bus : _Preamps.t; _all_muted : bool }.

(** Run a method of [self._bus]. *)
Definition on_bus {A} (m : M _Preamps.t A) : M t A :=
  fun s =>
    let '(r, s') := m (mkst (_bus (obj s)) (trace s)) in
    (r, mkst (mk (obj s') (_all_muted (obj s))) (trace s')).

Section WithEnv.
Context {E : Env}.

Definition __init__ (amplipi : bool) : M t unit :=
  put (mk (_Preamps.mk [] false) true) ;;
  on_bus (_Preamps.__init__ amplipi).

(** The second half of [update_zone_mutes], from the comment
    "Audio power needs to be on each box when subsequent boxes are
    playing audio" to the assignment of [self._all_muted]. *)
Definition sync_standby (mutes : list pyval) : M t unit :=
  let all_muted := negb (False_in mutes) in
  self <- get ;;
  if negb (Bool.eqb (_all_muted self) all_muted) then
    (if all_muted then
       foreach (dict_keys (_Preamps.preamps (_bus self))) (fun p =>
         on_bus (_Preamps.write_byte_data p REG.STANDBY 0x00)) ;;
       sleep 100
     else
       foreach (dict_keys (_Preamps.preamps (_bus self))) (fun p =>
         on_bus (_Preamps.write_byte_data p REG.STANDBY 0x3F)) ;;
       sleep 300) ;;
    self <- get ;;
    put (mk (_bus self) all_muted)
  else ret tt.

Definition update_zone_mutes (zone : Z) (mutes : list pyval) : M t bool :=
  assert_ (6 <=? len mutes) ;;
  let num_preamps := len mutes ÷ 6 in
  assert_ (len mutes =? num_preamps * 6) ;;
  let preamp := zone / 6 in
  mute_cfg <- for_acc (range 6) 0x00 (fun z mute_cfg =>
    m <- must (getitem mutes (preamp * 6 + z)) IndexError ;;
    assert_ (type_is_bool m) ;;
    ret (if truthy m then Z.lor mute_cfg (Z.shiftl 0x01 z) else mute_cfg)) ;;
  addr <- must (getitem _DEV_ADDRS preamp) IndexError ;;
  on_bus (_Preamps.write_byte_data addr REG.MUTE mute_cfg) ;;
  sync_standby mutes ;;
  ret true.

(** [src << k] is defined on integers only: [None << k] raises
    [TypeError]. *)
Definition lshift (src : pyval) (k : Z) : M t Z :=
  match src with
  | PInt n => ret (Z.shiftl n k)
  | PBool b => ret (Z.shiftl (Z.b2z b) k)
  | _ => raise TypeError
  end.

Definition update_zone_sources (zone : Z) (sources : list pyval)
    : M t bool :=
  assert_ (6 <=? len sources) ;;
  let num_preamps := len sources ÷ 6 in
  assert_ (len sources =? num_preamps * 6) ;;
  let preamp := zone / 6 in
  cfg <- for_acc (range 6) (0x00, 0x00) (fun z cfg =>
    src <- must (getitem sources (preamp * 6 + z)) IndexError ;;
    assert_ (type_is_int src || is_None src) ;;
    if z <? 3 then
      v <- lshift src (z * 2) ;;
      ret (Z.lor (fst cfg) v, snd cfg)
    else
      v <- lshift src ((z - 3) * 2) ;;
      ret (fst cfg, Z.lor (snd cfg) v)) ;;
  let source_cfg123 := fst cfg in
  let source_cfg456 := snd cfg in
  addr <- must (getitem _DEV_ADDRS preamp) IndexError ;;
  on_bus (_Preamps.write_byte_data addr REG.CH123_SRC source_cfg123) ;;
  addr <- must (getitem _DEV_ADDRS preamp) IndexError ;;
  on_bus (_Preamps.write_byte_data addr REG.CH456_SRC source_cfg456) ;;
  ret true.

(** [int(zone / 6)] truncates towards zero; the float quotient is exact
    enough on every zone the three assertions let through. *)
Definition update_zone_vol (zone vol : Z) : M t bool :=
  let preamp := zone ÷ 6 in
  assert_ (0 <=? zone) ;;
  assert_ (preamp <? 15) ;;
  assert_ ((vol <=? 0) && (-79 <=? vol)) ;;
  let chan := zone - preamp * 6 in
  let hvol := Z.abs vol in
  let chan_reg := REG.CH1_ATTEN + chan in
  addr <- must (getitem _DEV_ADDRS preamp) IndexError ;;
  on_bus (_Preamps.write_byte_data addr chan_reg hvol) ;;
  ret true.

Definition update_sources (digital : list pyval) : M t bool :=
  let output := 0x00 in
  assert_ (len digital =? 4) ;;
  foreach digital (fun d => assert_ (type_is_bool d)) ;;
  output <- for_acc (range 4) output (fun i output =>
    d <- must (getitem digital i) IndexError ;;
    ret (if truthy d then Z.lor output (Z.shiftl 0x01 i) else output)) ;;
  addr <- must (getitem _DEV_ADDRS 0) IndexError ;;
  on_bus (_Preamps.write_byte_data addr REG.SRC_AD output) ;;
  ret true.
End WithEnv.

(** [exists]: [self._bus] is an instance of a class that defines neither
    [__bool__] nor [__len__], so [if self._bus] always takes the first
    branch. *)
Definition object_truthy (o : _Preamps.t) : bool := true.

Definition exists_ (zone : Z) (self : t) : bool :=
  if object_truthy (_bus self) then
    let preamp := zone / 6 in
    dict_mem preamp (_Preamps.preamps (_bus self))
  else true.
End Rpi.

End rt.

(** * amplipi/hw.py *)

Module hw.

(** ** class Preamp *)
Module Preamp.

(** Register addresses ([Preamp.Reg]). *)
Module Reg.
Definition SRC_AD : Z := 0x00.
Definition CH123_SRC : Z := 0x01.
Definition CH456_SRC : Z := 0x02.
Definition MUTE : Z := 0x03.
Definition STANDBY : Z := 0x04.
Definition CH1_ATTEN : Z := 0x05.
Definition CH2_ATTEN : Z := 0x06.
Definition CH3_ATTEN : Z := 0x07.
Definition CH4_ATTEN : Z := 0x08.
Definition CH5_ATTEN : Z := 0x09.
Definition CH6_ATTEN : Z := 0x0A.
Definition POWER_GOOD : Z := 0x0B.
Definition FAN_STATUS : Z := 0x0C.
Definition EXTERNAL_GPIO : Z := 0x0D.
Definition LED_OVERRIDE : Z := 0x0E.
Definition EXPANSION : Z := 0x0F.
Definition HV1_VOLTAGE : Z := 0x10.
Definition HV2_VOLTAGE : Z := 0x11.
Definition HV1_TEMP : Z := 0x12.
Definition HV2_TEMP : Z := 0x13.
Definition VERSION_MAJOR : Z := 0xFA.
Definition VERSION_MINOR : Z := 0xFB.
Definition GIT_HASH_27_20 : Z := 0xFC.
Definition GIT_HASH_19_12 : Z := 0xFD.
Definition GIT_HASH_11_04 : Z := 0xFE.
Definition GIT_HASH_STATUS : Z := 0xFF.
End Reg.

(** A board handle; the bus handle it keeps is the one shared bus. *)
Record t : Type := mk { addr : Z }.

Definition __init__ (unit : Z) : t := mk ((unit + 1) * 0x8).

Section WithEnv.
Context {E : Env} {O : Type}.

Definition available (self : t) : M O bool :=
  fun s =>
    match smbus_write E (addr self) Reg.VERSION_MAJOR 0 s with
    | (Ok _, s') => (Ok true, s')
    | (Raise OSError, s') => (Ok false, s')
    | (Raise e, s') => (Raise e, s')
    end.

Definition read_leds (self : t) : M O Z :=
  smbus_read E (addr self) Reg.LED_OVERRIDE.

Definition write_leds (self : t) (leds : Z) : M O unit :=
  assert_ ((0 <=? leds) && (leds <=? 255)) ;;
  smbus_write E (addr self) Reg.LED_OVERRIDE leds.

Definition read_version (self : t) : M O (Z * Z * Z * bool) :=
  major <- smbus_read E (addr self) Reg.VERSION_MAJOR ;;
  minor <- smbus_read E (addr self) Reg.VERSION_MINOR ;;
  r <- smbus_read E (addr self) Reg.GIT_HASH_27_20 ;;
  let git_hash := Z.shiftl r 20 in
  r <- smbus_read E (addr self) Reg.GIT_HASH_19_12 ;;
  let git_hash := Z.lor git_hash (Z.shiftl r 12) in
  r <- smbus_read E (addr self) Reg.GIT_HASH_11_04 ;;
  let git_hash := Z.lor git_hash (Z.shiftl r 4) in
  git_hash4_stat <- smbus_read E (addr self) Reg.GIT_HASH_STATUS ;;
  let git_hash := Z.lor git_hash (Z.shiftr git_hash4_stat 4) in
  let dirty := negb (Z.land git_hash4_stat 0x01 =? 0) in
  ret (major, minor, git_hash, dirty).

Definition reset_expander (self : t) (bootloader : bool) : M O unit :=
  let reg_val := if bootloader then 2 else 0 in
  smbus_write E (addr self) Reg.EXPANSION reg_val ;;
  sleep 10 ;;
  let reg_val := Z.lor reg_val 1 in
  smbus_write E (addr self) Reg.EXPANSION reg_val ;;
  sleep 5.

Definition uart_passthrough (self : t) (passthrough : bool) : M O unit :=
  reg_val <- smbus_read E (addr self) Reg.EXPANSION ;;
  let reg_val :=
    if passthrough then Z.lor reg_val 12 else Z.land reg_val 3 in
  smbus_write E (addr self) Reg.EXPANSION reg_val.
End WithEnv.
End Preamp.

(** ** class Preamps *)
Module Preamps.

Definition MAX_UNITS : Z := 6.

Definition BAUD_RATES : list Z :=
  [  1200;   1800;   2400;   4800;    9600;  19200;
    38400;  57600; 115200; 128000;  230400; 256000;
   460800; 500000; 576000; 921600; 1000000].

Module Pin.
Definition NRST : Z := 4.
Definition BOOT0 : Z := 5.
End Pin.

Record t : Type := mk { preamps : list Preamp.t }.

Definition __len__ (self : t) : Z := len (preamps self).

Definition __getitem__ (key : Z) : M t Preamp.t :=
  self <- get ;;
  must (getitem (preamps self) key) IndexError.

Definition __setitem__ (key : Z) (value : Preamp.t) : M t unit :=
  self <- get ;;
  ps <- must (setitem (preamps self) key value) IndexError ;;
  put (mk ps).

Definition _reset_master (bootloader : bool) : M t unit :=
  emit GPIO_setmode_BCM ;;
  emit (GPIO_setup_OUT Pin.NRST) ;;
  emit (GPIO_output Pin.NRST false) ;;
  emit (GPIO_setup_OUT Pin.BOOT0) ;;
  emit (GPIO_output Pin.BOOT0 bootloader) ;;
  sleep 1 ;;
  emit (GPIO_output Pin.NRST true) ;;
  sleep 5 ;;
  emit GPIO_cleanup.

Section WithEnv.
Context {E : Env}.

(** The loop of [enumerate]: [break] at the first unit that does not
    answer. *)
Fixpoint enumerate_loop (units : list Z) : M t unit :=
  match units with
  | [] => ret tt
  | i :: rest =>
      let p := Preamp.__init__ i in
      a <- Preamp.available p ;;
      if negb a then ret tt
      else
        self <- get ;;
        put (mk (preamps self ++ [p])) ;;
        enumerate_loop rest
  end.

Definition enumerate : M t unit :=
  put (mk []) ;;
  enumerate_loop (range MAX_UNITS).

Definition reset (unit : Z) (bootloader : bool) : M t Datatypes.unit :=
  if unit =? 0 then
    _reset_master bootloader ;;
    if bootloader then sleep 10
    else
      emit (Serial_write 115200 [0x41; 0x10; 0x0D; 0x0A]) ;;
      a <- Preamp.available (Preamp.__init__ 0) ;;
      (if negb a then
         _reset_master false ;;
         emit (Serial_write 9600 [0x41; 0x10; 0x0D; 0x0A])
       else ret tt) ;;
      sleep (10 * (MAX_UNITS - unit)) ;;
      enumerate
  else
    p <- __getitem__ (unit - 1) ;;
    Preamp.reset_expander p bootloader ;;
    sleep (10 * (MAX_UNITS - unit)).

(** The body of the loop of [flash], for one unit. *)
Definition flash_unit (filepath : string) (baud : Z) (unit : Z)
    : M t Datatypes.unit :=
  reset unit true ;;
  foreach (range unit) (fun p =>
    pre <- __getitem__ p ;;
    Preamp.uart_passthrough pre true) ;;
  run_stm32flash E baud filepath ;;
  reset 0 false ;;
  pre <- __getitem__ unit ;;
  v <- Preamp.read_version pre ;;
  ret tt.

Definition flash (filepath : string) (baud : Z) : M t unit :=
  if negb (Z_in baud BAUD_RATES) then raise ValueError
  else
    self <- get ;;
    let num_units := __len__ self in
    let num_units := if num_units =? 0 then 1 else num_units in
    foreach (range num_units) (flash_unit filepath baud).

(** [__init__]. *)
Definition __init__ (reset_ : bool) : M t unit :=
  emit SMBus_open ;;
  put (mk []) ;;
  if reset_ then reset 0 false else enumerate.
End WithEnv.
End Preamps.

End hw.

(** * amplipi/utils.py *)

Module utils.

(** [clamp], on integers. *)
Definition clamp (xval xmin xmax : Z) : Z := Z.max xmin (Z.min xval xmax).

(** [updated_val], on integers: [None] keeps the current value. *)
Definition updated_val (update : option Z) (val : Z) : Z * bool :=
  match update with
  | None => (val, false)
  | Some u => (u, negb (u =? val))
  end.

(** An item is modelled by its [__dict__]. *)
Definition item : Type := list (string * pyval).

Fixpoint attr (key : string) (it : item) : option pyval :=
  match it with
  | [] => None
  | (k, v) :: r => if String.eqb k key then Some v else attr key r
  end.

(** [v == item_id] for an integer [item_id]: [True == 1], [False == 0]. *)
Definition eq_int (v : pyval) (item_id : Z) : bool :=
  match v with
  | PInt n => n =? item_id
  | PBool b => Z.b2z b =? item_id
  | _ => false
  end.

(** The loop of [find], from position [i] on. *)
Fixpoint find_from (i : Z) (items : list item) (item_id : Z) (key : string)
    : result (option (Z * item)) :=
  match items with
  | [] => Ok None
  | it :: rest =>
      match attr key it with
      | None => Raise KeyError
      | Some v =>
          if eq_int v item_id then Ok (Some (i, it))
          else find_from (i + 1) rest item_id key
      end
  end.

(** [find]: [Some (i, item)] stands for the pair [(i, item)], [None] for
    [(None, None)]. *)
Definition find (items : list item) (item_id : Z) (key : string)
    : result (option (Z * item)) :=
  find_from 0 items item_id key.

(** The loop of [next_available_id] over the [id]s of the items ([None]
    for an item without id), carrying [largest_id]. *)
Fixpoint largest (ids : list (option Z)) (largest_id : option Z)
    : option Z :=
  match ids with
  | [] => largest_id
  | None :: rest => largest rest largest_id
  | Some i :: rest =>
      match largest_id with
      | Some l => largest rest (Some (Z.max l i))
      | None => largest rest (Some i)
      end
  end.

Definition next_available_id (ids : list (option Z)) (default : Z) : Z :=
  match largest ids None with
  | Some largest_id => largest_id + 1
  | None => default
  end.

End utils.

(** * Vocabulary of the statements *)

Import rt.

(** A shadow table is well formed when every key is a device address and
    every register file has the eleven registers of [new_preamp]. *)
Definition well_formed (p : _Preamps.t) : bool :=
  forallb (fun kv => Z_in (fst kv) _DEV_ADDRS && (length (snd kv) =? 11)%nat)
          (_Preamps.preamps p).

(** The board at hop [hop] (bus address [(hop + 1) * 8]) is known. *)
Definition board_present (hop : Z) (self : Rpi.t) : bool :=
  dict_mem ((hop + 1) * 8) (_Preamps.preamps (Rpi._bus self)).

Definition chain_length (self : Rpi.t) : Z :=
  len (_Preamps.preamps (Rpi._bus self)).

(** The four setters of the command interface. *)
Inductive call : Type :=
| Update_sources (digital : list pyval)
| Update_zone_mutes (zone : Z) (mutes : list pyval)
| Update_zone_sources (zone : Z) (sources : list pyval)
| Update_zone_vol (zone vol : Z).

Definition run_call {E : Env} (c : call) : M Rpi.t bool :=
  match c with
  | Update_sources digital => Rpi.update_sources digital
  | Update_zone_mutes zone mutes => Rpi.update_zone_mutes zone mutes
  | Update_zone_sources zone sources => Rpi.update_zone_sources zone sources
  | Update_zone_vol zone vol => Rpi.update_zone_vol zone vol
  end.

Definition run_mock (c : call) : result bool :=
  match c with
  | Update_sources digital => Mock.update_sources digital
  | Update_zone_mutes zone mutes => Mock.update_zone_mutes zone mutes
  | Update_zone_sources zone sources => Mock.update_zone_sources zone sources
  | Update_zone_vol zone vol => Mock.update_zone_vol zone vol
  end.

(** The six entries of [l] that belong to the board of [zone]. *)
Definition addressed (l : list pyval) (zone : Z) : list (option pyval) :=
  map (fun z => getitem l (zone / 6 * 6 + z)) (range 6).

Definition some_fails (p : pyval -> bool) (l : list (option pyval)) : bool :=
  existsb (fun o => match o with Some v => negb (p v) | None => false end) l.

(** Malformed input of a setter: a volume outside [-79, 0], a zone array
    whose length is not a multiple of six (for [update_sources], whose array
    is per source and not per zone: a length other than four), a source
    entry of the addressed board that is neither an [int] nor [None]. *)
Definition malformed (c : call) : bool :=
  match c with
  | Update_sources digital => negb (len digital =? 4)
  | Update_zone_mutes zone mutes => negb (len mutes mod 6 =? 0)
  | Update_zone_sources zone sources =>
      negb (len sources mod 6 =? 0)
      || some_fails (fun src => type_is_int src || is_None src)
                    (addressed sources zone)
  | Update_zone_vol zone vol => negb ((-79 <=? vol) && (vol <=? 0))
  end.

(** The same with the range of source ids the interface documents: a source
    entry is malformed unless it is an integer in 0..3 or [None]. *)
Definition source_id_ok (src : pyval) : bool :=
  match src with
  | PInt n => (0 <=? n) && (n <=? 3)
  | PNone => true
  | _ => false
  end.

Definition malformed_as_documented (c : call) : bool :=
  match c with
  | Update_zone_sources zone sources =>
      negb (len sources mod 6 =? 0)
      || some_fails source_id_ok (addressed sources zone)
  | _ => malformed c
  end.

(** Events of a trace that are I2C transfers. *)
Definition is_bus_write (ev : event) : bool :=
  match ev with SMBus_write_byte_data _ _ _ _ => true | _ => false end.

Definition bus_writes (t : list event) : list event := filter is_bus_write t.

(** ** The validation the [Rpi] setters perform, as pure functions *)

(** A loop whose body only computes. *)
Fixpoint fold_pure {X Acc} (f : X -> Acc -> result Acc) (l : list X)
    (acc : Acc) : result Acc :=
  match l with
  | [] => Ok acc
  | x :: r =>
      match f x acc with
      | Ok acc' => fold_pure f r acc'
      | Raise e => Raise e
      end
  end.

(** One round of the loop of [Rpi.update_zone_mutes]. *)
Definition mute_step (mutes : list pyval) (preamp : Z) (z : Z) (mute_cfg : Z)
    : result Z :=
  match getitem mutes (preamp * 6 + z) with
  | None => Raise IndexError
  | Some m =>
      if type_is_bool m
      then Ok (if truthy m then Z.lor mute_cfg (Z.shiftl 0x01 z) else mute_cfg)
      else Raise AssertionError
  end.

(** One round of the loop of [Rpi.update_zone_sources]. *)
Definition source_step (sources : list pyval) (preamp : Z) (z : Z)
    (cfg : Z * Z) : result (Z * Z) :=
  match getitem sources (preamp * 6 + z) with
  | None => Raise IndexError
  | Some src =>
      if type_is_int src || is_None src then
        match src with
        | PInt n =>
            if z <? 3 then Ok (Z.lor (fst cfg) (Z.shiftl n (z * 2)), snd cfg)
            else Ok (fst cfg, Z.lor (snd cfg) (Z.shiftl n ((z - 3) * 2)))
        | PBool b =>
            if z <? 3
            then Ok (Z.lor (fst cfg) (Z.shiftl (Z.b2z b) (z * 2)), snd cfg)
            else Ok (fst cfg, Z.lor (snd cfg) (Z.shiftl (Z.b2z b) ((z - 3) * 2)))
        | _ => Raise TypeError
        end
      else Raise AssertionError
  end.

(** One round of the packing loop of [Rpi.update_sources]. *)
Definition digital_step (digital : list pyval) (i : Z) (output : Z)
    : result Z :=
  match getitem digital i with
  | None => Raise IndexError
  | Some d => Ok (if truthy d then Z.lor output (Z.shiftl 0x01 i) else output)
  end.

Definition all_present (p : pyval -> bool) (l : list (option pyval)) : bool :=
  forallb (fun o => match o with Some v => p v | None => false end) l.

Definition is_Some {A} (o : option A) : bool :=
  match o with Some _ => true | None => false end.

(** Inputs that get past every check of the [Rpi] setter. *)
Definition rpi_validates (c : call) : bool :=
  match c with
  | Update_sources digital =>
      (len digital =? 4) && forallb type_is_bool digital
  | Update_zone_mutes zone mutes =>
      (6 <=? len mutes) && (len mutes =? len mutes ÷ 6 * 6)
      && all_present type_is_bool (addressed mutes zone)
      && is_Some (getitem _DEV_ADDRS (zone / 6))
  | Update_zone_sources zone sources =>
      (6 <=? len sources) && (len sources =? len sources ÷ 6 * 6)
      && all_present type_is_int (addressed sources zone)
      && is_Some (getitem _DEV_ADDRS (zone / 6))
  | Update_zone_vol zone vol =>
      (0 <=? zone) && (zone ÷ 6 <? 15) && ((vol <=? 0) && (-79 <=? vol))
  end.

(** A result other than a rejection of the input: success, or a failure of
    the transport. *)
Definition not_rejected {A} (r : result A) : bool :=
  match r with
  | Ok _ => true
  | Raise OSError => true
  | Raise _ => false
  end.

(** ** Concrete hardware for the examples *)

(** [n] boards answer on the bus, at the addresses [8, 16, ..., 8 * n];
    every register reads as [0]; the flashing tool succeeds. *)
Definition env_boards (n : Z) : Env := {|
  ack := fun _ a _ _ => (8 <=? a) && (a <=? 8 * n) && (a mod 8 =? 0);
  peek := fun _ _ _ => Some 0;
  stm32flash := fun _ _ _ => true
|}.

(** The [Rpi] runtime as its constructor leaves it on AmpliPi hardware. *)
Definition rpi_boot (E : Env) : st Rpi.t :=
  snd (Rpi.__init__ true (mkst (Rpi.mk (_Preamps.mk [] false) true) [])).

(** The same without hardware ([is_amplipi()] is false). *)
Definition rpi_boot_mock (E : Env) : st Rpi.t :=
  snd (Rpi.__init__ false (mkst (Rpi.mk (_Preamps.mk [] false) true) [])).

(** ** Standby *)

(** The aggregate flag of a call of [update_zone_mutes]: all zones muted. *)
Definition aggregate_muted (mutes : list pyval) : bool :=
  negb (False_in mutes).

(** Value written to STANDBY: [0x00] puts a board in standby, [0x3F] takes
    it out. *)
Definition standby_code (all_muted : bool) : Z :=
  if all_muted then 0x00 else 0x3F.

Definition is_standby_write (ev : event) : bool :=
  match ev with
  | SMBus_write_byte_data _ r _ _ => r =? REG.STANDBY
  | _ => false
  end.

(** The transfers of a trace that go to a STANDBY register. *)
Definition standby_writes (t : list event) : list event :=
  filter is_standby_write t.

(** One acknowledged write of [standby_code all_muted] per board. *)
Definition standby_round (keys : list Z) (all_muted : bool) : list event :=
  map (fun p => SMBus_write_byte_data p REG.STANDBY (standby_code all_muted)
                  true) keys.

(** What a sequence of calls should send to the STANDBY registers: a round
    over all boards at each accepted call whose aggregate flag differs from
    the flag of the accepted call before it, nothing else.  A call whose
    input is refused counts for nothing. *)
Fixpoint expected_standby (keys : list Z) (previous : bool)
    (calls : list (Z * list pyval)) : list event :=
  match calls with
  | [] => []
  | (zone, mutes) :: rest =>
      if rpi_validates (Update_zone_mutes zone mutes) then
        (if Bool.eqb previous (aggregate_muted mutes) then []
         else standby_round keys (aggregate_muted mutes))
        ++ expected_standby keys (aggregate_muted mutes) rest
      else expected_standby keys previous rest
  end.

(** The flag remembered after a sequence of calls. *)
Fixpoint last_flag (previous : bool) (calls : list (Z * list pyval))
    : bool :=
  match calls with
  | [] => previous
  | (zone, mutes) :: rest =>
      if rpi_validates (Update_zone_mutes zone mutes)
      then last_flag (aggregate_muted mutes) rest
      else last_flag previous rest
  end.

(** A sequence of calls of [update_zone_mutes] by a caller that catches
    the exception of a refused call and goes on. *)
Definition run_mutes {E : Env} (calls : list (Z * list pyval))
    : M Rpi.t unit :=
  foreach calls (fun c =>
    try_except (Rpi.update_zone_mutes (fst c) (snd c) ;; ret tt) (ret tt)).

(** The boards at the addresses [keys] acknowledge every transfer. *)
Definition responsive (E : Env) (keys : list Z) : Prop :=
  forall t a r d, In a keys -> ack E t a r d = true.

(** ** Comparing the two runtimes *)

(** Inputs that get past every check of the [Mock] setter. *)
Definition mock_validates (c : call) : bool :=
  match c with
  | Update_sources digital =>
      (len digital =? 4) && forallb isinstance_bool digital
  | Update_zone_mutes zone mutes =>
      (6 <=? len mutes) && (len mutes =? len mutes ÷ 6 * 6)
      && forallb isinstance_bool mutes
  | Update_zone_sources zone sources =>
      (6 <=? len sources) && (len sources =? len sources ÷ 6 * 6)
      && forallb (fun src => isinstance_int src || is_None src) sources
  | Update_zone_vol zone vol =>
      (0 <=? zone) && ((0 <=? zone / 6) && (zone / 6 <=? 15))
      && ((vol <=? 0) && (-79 <=? vol))
  end.

(** The length contract of the per-zone arrays: at least six entries, a
    multiple of six. *)
Definition length_ok (l : list pyval) : bool :=
  (6 <=? len l) && (len l =? len l ÷ 6 * 6).

(** [zone] picks six entries of [l] (with Python's indexing, so also from
    the end of the array) that all pass [p], and a device address: what an
    [Rpi] setter needs of its array. *)
Definition selected (p : pyval -> bool) (l : list pyval) (zone : Z) : bool :=
  all_present p (addressed l zone) && is_Some (getitem _DEV_ADDRS (zone / 6)).

(** Calls on which the two runtimes give the same verdict.  For a zone
    array: it breaks the length contract (both refuse it); or every entry
    has a type [Mock] accepts and [zone] picks six entries [Rpi] accepts
    and a device address (both accept it); or some entry has a type [Mock]
    refuses and [zone] picks no six entries that [Rpi] accepts with a
    device address (both refuse it).  For [update_zone_vol]: every call
    but those with a zone in 90..95 and a volume in range. *)
Definition common_ground (c : call) : bool :=
  match c with
  | Update_sources _ => true
  | Update_zone_mutes zone mutes =>
      negb (length_ok mutes)
      || (if forallb type_is_bool mutes
          then selected (fun _ => true) mutes zone
          else negb (selected type_is_bool mutes zone))
  | Update_zone_sources zone sources =>
      negb (length_ok sources)
      || (if forallb (fun src => isinstance_int src || is_None src) sources
          then selected type_is_int sources zone
          else negb (selected type_is_int sources zone))
  | Update_zone_vol zone vol =>
      negb ((90 <=? zone) && (zone <=? 95) && ((vol <=? 0) && (-79 <=? vol)))
  end.

(** Outcome of a step that did not reject its input and left the shadow
    table well formed. *)
Definition sound_step {A} (x : result A * st Rpi.t) : Prop :=
  not_rejected (fst x) = true
  /\ well_formed (Rpi._bus (obj (snd x))) = true.

(** ** The chain manager of [hw.py] *)

Import hw.

(** The availability probe of the board at hop [hop], and its outcome. *)
Definition probe (hop : Z) (answered : bool) : event :=
  SMBus_write_byte_data ((hop + 1) * 8) Preamp.Reg.VERSION_MAJOR 0 answered.

(** Whether the board at hop [hop] acknowledges a probe after history [t]. *)
Definition answers (E : Env) (t : list event) (hop : Z) : bool :=
  ack E t ((hop + 1) * 8) Preamp.Reg.VERSION_MAJOR 0.

(** The hops [k, k+1, ..., k+n-1]. *)
Definition hops (k n : nat) : list Z := map Z.of_nat (seq k n).

(** The chain made of the boards at hops [0 .. L-1], in that order. *)
Definition chain (L : nat) : list Preamp.t := map Preamp.__init__ (hops 0 L).

Definition probes_answered (k n : nat) : list event :=
  map (fun hop => probe hop true) (hops k n).

(** What an enumeration that finds [L] boards puts on the bus. *)
Definition enumerate_events (L : nat) : list event :=
  probes_answered 0 L
  ++ (if (L <? Z.to_nat Preamps.MAX_UNITS)%nat
      then [probe (Z.of_nat L) false] else []).

(** ** Firmware version registers *)

(** The register layout of a build: bits 27..20, 19..12 and 11..4 of the
    28-bit hash in three registers, bits 3..0 in the high nibble of the
    status register, and the dirty flag in bit 0 of the status register.
    This is the decomposition the specification names; the firmware that
    fills the registers is not part of this code. *)
Definition encode_build (h : Z) (d : bool) : Z * Z * Z * Z :=
  (Z.land (Z.shiftr h 20) 0xFF,
   Z.land (Z.shiftr h 12) 0xFF,
   Z.land (Z.shiftr h 4) 0xFF,
   Z.lor (Z.shiftl (Z.land h 0xF) 4) (Z.b2z d)).

(** The version registers of a board running build [(major, minor, h, d)]. *)
Definition version_registers (major minor h : Z) (d : bool) (r : Z)
    : option Z :=
  let '(r27_20, r19_12, r11_04, status) := encode_build h d in
  if r =? Preamp.Reg.VERSION_MAJOR then Some major
  else if r =? Preamp.Reg.VERSION_MINOR then Some minor
  else if r =? Preamp.Reg.GIT_HASH_27_20 then Some r27_20
  else if r =? Preamp.Reg.GIT_HASH_19_12 then Some r19_12
  else if r =? Preamp.Reg.GIT_HASH_11_04 then Some r11_04
  else if r =? Preamp.Reg.GIT_HASH_STATUS then Some status
  else Some 0.

(** The device at address [a] answers every read with [regs]. *)
Definition serves (E : Env) (a : Z) (regs : Z -> option Z) : Prop :=
  forall t r, peek E t a r = regs r.

(** The six reads of [read_version], with the values they return. *)
Definition version_reads (a : Z) (regs : Z -> option Z) : list event :=
  map (fun r => SMBus_read_byte_data a r (regs r))
    [Preamp.Reg.VERSION_MAJOR; Preamp.Reg.VERSION_MINOR;
     Preamp.Reg.GIT_HASH_27_20; Preamp.Reg.GIT_HASH_19_12;
     Preamp.Reg.GIT_HASH_11_04; Preamp.Reg.GIT_HASH_STATUS].

(** Hardware with [n] boards, each running build [(major, minor, h, d)]. *)
Definition env_firmware (n major minor h : Z) (d : bool) : Env := {|
  ack := fun _ a _ _ => (8 <=? a) && (a <=? 8 * n) && (a mod 8 =? 0);
  peek := fun _ _ r => version_registers major minor h d r;
  stm32flash := fun _ _ _ => true
|}.

(** ** Reset sequences *)

Definition address_frame : list Z := [0x41; 0x10; 0x0D; 0x0A].

(** One pulse of the reset line of the master, with BOOT0 set as asked. *)
Definition master_reset_events (bootloader : bool) : list event :=
  [GPIO_setmode_BCM;
   GPIO_setup_OUT Preamps.Pin.NRST; GPIO_output Preamps.Pin.NRST false;
   GPIO_setup_OUT Preamps.Pin.BOOT0; GPIO_output Preamps.Pin.BOOT0 bootloader;
   Sleep 1; GPIO_output Preamps.Pin.NRST true; Sleep 5; GPIO_cleanup].

(** Reset of the master into its application, up to the enumeration:
    pulse, address frame at 115200 baud, probe of the master; if the probe
    was not answered, a second pulse and the frame at 9600 baud; then the
    settle delay. *)
Definition reset_master_events (answered : bool) : list event :=
  master_reset_events false
  ++ [Serial_write 115200 address_frame; probe 0 answered]
  ++ (if answered then []
      else master_reset_events false ++ [Serial_write 9600 address_frame])
  ++ [Sleep 60].

(** Reset of unit [unit] through the EXPANSION register of the board at
    address [a]; [a1] and [a2] tell whether the two writes were
    acknowledged. *)
Definition expander_reset_events (a : Z) (bootloader : bool) (unit : Z)
    (a1 a2 : bool) : list event :=
  let reg_val := if bootloader then 2 else 0 in
  SMBus_write_byte_data a Preamp.Reg.EXPANSION reg_val a1
  :: (if a1 then
        [Sleep 10;
         SMBus_write_byte_data a Preamp.Reg.EXPANSION (Z.lor reg_val 1) a2]
        ++ (if a2 then [Sleep 5; Sleep (10 * (Preamps.MAX_UNITS - unit))]
            else [])
      else []).

Definition is_gpio_or_serial (ev : event) : bool :=
  match ev with
  | GPIO_setmode_BCM | GPIO_setup_OUT _ | GPIO_output _ _ | GPIO_cleanup
  | Serial_write _ _ => true
  | _ => false
  end.

(** ** Shadow registers and bit masks *)

(** The mask whose bit [i] is the [i]-th flag. *)
Fixpoint bitmask (flags : list bool) : Z :=
  match flags with
  | [] => 0
  | b :: rest => Z.b2z b + 2 * bitmask rest
  end.

(** Shadow value of register [r] of the board at address [a]. *)
Definition reg_of (ps : list (Z * list Z)) (a r : Z) : option Z :=
  match dict_get a ps with
  | Some regs => nth_error regs (Z.to_nat r)
  | None => None
  end.

(** The table after register [r] of board [a] is given the value [d]; a
    board that is not in the table stays out of it. *)
Definition set_reg (a r d : Z) (ps : list (Z * list Z)) : list (Z * list Z) :=
  match dict_get a ps with
  | Some regs => dict_set a (replace_nth (Z.to_nat r) d regs) ps
  | None => ps
  end.

(** What an acknowledged write to a board puts on the trace: nothing when
    the board is not in the table. *)
Definition transfer (ps : list (Z * list Z)) (a r d : Z) : list event :=
  if dict_mem a ps then [Sleep 1; SMBus_write_byte_data a r d true] else [].

(** The table after the STANDBY register of every board of [ks] is given
    the value [v]. *)
Definition standby_all (v : Z) (ks : list Z) (ps : list (Z * list Z))
    : list (Z * list Z) :=
  fold_left (fun ps p => set_reg p REG.STANDBY v ps) ks ps.

(** The shadow STANDBY register of every board agrees with the flag. *)
Definition standby_consistent (self : Rpi.t) : Prop :=
  forall a, dict_mem a (_Preamps.preamps (Rpi._bus self)) = true ->
    reg_of (_Preamps.preamps (Rpi._bus self)) a REG.STANDBY
    = Some (standby_code (Rpi._all_muted self)).

(** ** Discovery at construction *)

(** The table of a system whose first [n] addresses answered. *)
Definition discovered (n : nat) : list (Z * list Z) :=
  map (fun a => (a, _Preamps.fresh_regs)) (firstn n _DEV_ADDRS).

(** The probe [probe_preamp] sends, with its outcome. *)
Definition rt_probe (ok : bool) (a : Z) : event :=
  SMBus_write_byte_data a REG.SRC_AD 0x0F ok.

(** What [reset_preamps] and the opening of the bus put on the trace. *)
Definition boot_events : list event :=
  [GPIO_setmode_BCM; GPIO_setup_OUT 4; GPIO_output 4 false; Sleep 1;
   GPIO_output 4 true; GPIO_cleanup; Sleep 100;
   Serial_write 9600 [0x41; 0x10; 0x0D; 0x0A]; Sleep 100; SMBus_open].

(** ** Source selectors *)

(** Three 2-bit selectors in one register, lowest channel in the lowest
    bits. *)
Definition pack3 (a b c : Z) : Z :=
  Z.lor (Z.lor a (Z.shiftl b 2)) (Z.shiftl c 4).

(** The selector of channel [k] (0, 1 or 2) of a packed register. *)
Definition unpack (cfg k : Z) : Z := Z.land (Z.shiftr cfg (2 * k)) 3.

(** ** Sessions *)

(** A caller that issues calls of the four setters one after the other,
    catching the exception of a failed one and going on. *)
Definition run_calls {E : Env} (calls : list call) : M Rpi.t unit :=
  foreach calls (fun c => try_except (run_call c ;; ret tt) (ret tt)).

(** ** A flashing session *)

(** The boards of a chain of [L] units acknowledge every transfer, and no
    other address does. *)
Definition chain_answers (E : Env) (L : nat) : Prop :=
  forall t a r d,
    ack E t a r d = (8 <=? a) && (a <=? 8 * Z.of_nat L) && (a mod 8 =? 0).

(** Every register of every board can be read; [vals a r] is the value of
    register [r] of the board at address [a]. *)
Definition readable (E : Env) (vals : Z -> Z -> Z) : Prop :=
  forall t a r, peek E t a r = Some (vals a r).

(** Switching the passthrough of the board at hop [p] on: the read of its
    EXPANSION register and the write of that value with bits 2 and 3
    set. *)
Definition passthrough_events (vals : Z -> Z -> Z) (p : Z) : list event :=
  let a := (p + 1) * 8 in
  [SMBus_read_byte_data a Preamp.Reg.EXPANSION
     (Some (vals a Preamp.Reg.EXPANSION));
   SMBus_write_byte_data a Preamp.Reg.EXPANSION
     (Z.lor (vals a Preamp.Reg.EXPANSION) 12) true].

(** One round of [flash], for [unit] of a chain of [L] boards that
    cooperate: reset of the unit into its bootloader, passthrough on the
    units before it, the flashing tool, reset of the whole chain with its
    enumeration, and the version readback of the unit. *)
Definition flash_unit_events (vals : Z -> Z -> Z) (filepath : string)
    (baud : Z) (L : nat) (unit : Z) : list event :=
  (if unit =? 0 then master_reset_events true ++ [Sleep 10]
   else expander_reset_events (unit * 8) true unit true true)
  ++ flat_map (passthrough_events vals) (range unit)
  ++ [Stm32flash baud filepath true]
  ++ reset_master_events true ++ enumerate_events L
  ++ version_reads ((unit + 1) * 8) (fun r => Some (vals ((unit + 1) * 8) r)).

(** ** Without hardware *)

Definition is_sleep (ev : event) : bool :=
  match ev with Sleep _ => true | _ => false end.

(** The table after a write when there is no bus: a board that is not in
    the table is created first, with the power-on values. *)
Definition set_reg_mock (a r d : Z) (ps : list (Z * list Z))
    : list (Z * list Z) :=
  match dict_get a ps with
  | Some regs => dict_set a (replace_nth (Z.to_nat r) d regs) ps
  | None => ps ++ [(a, replace_nth (Z.to_nat r) d _Preamps.fresh_regs)]
  end.

(** ** Hardware that changes when it is flashed *)

Definition is_flash (ev : event) : bool :=
  match ev with Stm32flash _ _ _ => true | _ => false end.

(** The flashing tool has run in the history [t]. *)
Definition flashed (t : list event) : bool := existsb is_flash t.

(** A master without working firmware: it answers only once the flashing
    tool has run.  Every register reads as [0]. *)
Definition env_recovery : Env := {|
  ack := fun t a _ _ => flashed t && (a =? 8);
  peek := fun _ _ _ => Some 0;
  stm32flash := fun _ _ _ => true
|}.

(** [n] boards that answer until the flashing tool has run, and no more
    after it. *)
Definition env_bricked (n : Z) : Env := {|
  ack := fun t a _ _ =>
    negb (flashed t) && ((8 <=? a) && (a <=? 8 * n) && (a mod 8 =? 0));
  peek := fun _ _ _ => Some 0;
  stm32flash := fun _ _ _ => true
|}.

(** * Facts about sequences and dictionaries *)

Lemma py_pos_in_range (n : nat) (i : Z) :
  0 <= i < Z.of_nat n -> py_pos n i = Some (Z.to_nat i).
Proof.
  intros H. unfold py_pos.
  destruct (Z.leb_spec 0 i); [|lia].
  destruct (Z.ltb_spec i (Z.of_nat n)); [reflexivity|lia].
Qed.

Lemma py_pos_bound (n : nat) (i : Z) (k : nat) :
  py_pos n i = Some k -> (k < n)%nat.
Proof.
  unfold py_pos.
  destruct (Z.leb_spec 0 i); destruct (Z.ltb_spec i (Z.of_nat n)); simpl;
    try (intros [= <-]; lia);
    destruct (Z.leb_spec (- Z.of_nat n) i); destruct (Z.ltb_spec i 0); simpl;
    try discriminate; intros [= <-]; lia.
Qed.

Lemma length_replace_nth {A} (k : nat) (x : A) (l : list A) :
  length (replace_nth k x l) = length l.
Proof.
  revert k; induction l as [|y l IH]; intros [|k]; simpl; auto.
Qed.

Lemma nth_error_replace_nth {A} (k : nat) (x : A) (l : list A) :
  (k < length l)%nat -> nth_error (replace_nth k x l) k = Some x.
Proof.
  revert k; induction l as [|y l IH]; intros [|k]; simpl; intros H;
    try lia; auto.
  apply IH; lia.
Qed.

Lemma getitem_DEV_ADDRS (hop : Z) :
  0 <= hop < 15 -> getitem _DEV_ADDRS hop = Some ((hop + 1) * 8).
Proof.
  intros H.
  assert (Hc : hop = 0 \/ hop = 1 \/ hop = 2 \/ hop = 3 \/ hop = 4 \/ hop = 5
               \/ hop = 6 \/ hop = 7 \/ hop = 8 \/ hop = 9 \/ hop = 10
               \/ hop = 11 \/ hop = 12 \/ hop = 13 \/ hop = 14) by lia.
  repeat (destruct Hc as [-> | Hc]; [reflexivity|]).
  subst; reflexivity.
Qed.

Lemma Z_in_spec (x : Z) (l : list Z) : Z_in x l = true <-> In x l.
Proof.
  unfold Z_in. rewrite existsb_exists. split.
  - intros (y & Hy & Heq). apply Z.eqb_eq in Heq. now subst.
  - intros H. exists x. split; [assumption | apply Z.eqb_refl].
Qed.

Lemma DEV_ADDRS_member (hop : Z) :
  0 <= hop < 15 -> Z_in ((hop + 1) * 8) _DEV_ADDRS = true.
Proof.
  intros H.
  assert (Hc : hop = 0 \/ hop = 1 \/ hop = 2 \/ hop = 3 \/ hop = 4 \/ hop = 5
               \/ hop = 6 \/ hop = 7 \/ hop = 8 \/ hop = 9 \/ hop = 10
               \/ hop = 11 \/ hop = 12 \/ hop = 13 \/ hop = 14) by lia.
  repeat (destruct Hc as [-> | Hc]; [reflexivity|]).
  subst; reflexivity.
Qed.

Section DictFacts.
Context {V : Type}.
Implicit Types (d : list (Z * V)) (k : Z) (v : V).

Lemma dict_mem_keys k d : dict_mem k d = true <-> In k (dict_keys d).
Proof.
  unfold dict_mem. induction d as [|[k' v'] d IH]; simpl.
  - split; [discriminate | tauto].
  - destruct (Z.eqb_spec k k') as [->|Hne].
    + split; auto.
    + rewrite IH. split; [auto | intros [H|H]; [congruence | assumption]].
Qed.

Lemma dict_mem_get k d :
  dict_mem k d = true -> exists v, dict_get k d = Some v.
Proof.
  unfold dict_mem. destruct (dict_get k d) as [v|]; [eauto | discriminate].
Qed.

Lemma dict_get_set_same k v d : dict_get k (dict_set k v d) = Some v.
Proof.
  induction d as [|[k' v'] d IH]; simpl.
  - now rewrite Z.eqb_refl.
  - destruct (Z.eqb_spec k k') as [->|Hne]; simpl.
    + now rewrite Z.eqb_refl.
    + destruct (Z.eqb_spec k k'); [contradiction | assumption].
Qed.

Lemma dict_get_set_other k k' v d :
  k <> k' -> dict_get k' (dict_set k v d) = dict_get k' d.
Proof.
  intros Hne. induction d as [|[k0 v0] d IH]; simpl.
  - destruct (Z.eqb_spec k' k); [congruence | reflexivity].
  - destruct (Z.eqb_spec k k0) as [->|Hk]; simpl.
    + destruct (Z.eqb_spec k' k0); [congruence | reflexivity].
    + destruct (Z.eqb_spec k' k0); [reflexivity | assumption].
Qed.

(** Assigning to a key that is there leaves the order of keys alone. *)
Lemma dict_keys_set_known k v d :
  dict_mem k d = true -> dict_keys (dict_set k v d) = dict_keys d.
Proof.
  unfold dict_mem. induction d as [|[k' v'] d IH]; simpl.
  - discriminate.
  - destruct (Z.eqb_spec k k') as [->|Hne]; simpl; [reflexivity|].
    intros H. now rewrite IH.
Qed.

Lemma dict_set_new k v d :
  dict_mem k d = false -> dict_set k v d = d ++ [(k, v)].
Proof.
  unfold dict_mem. induction d as [|[k' v'] d IH]; simpl; [reflexivity|].
  destruct (Z.eqb_spec k k') as [->|Hne]; [discriminate|].
  intros H. now rewrite IH.
Qed.

Lemma dict_set_set k v v' d :
  dict_set k v' (dict_set k v d) = dict_set k v' d.
Proof.
  induction d as [|[k0 v0] d IH]; simpl.
  - now rewrite Z.eqb_refl.
  - destruct (Z.eqb_spec k k0) as [->|Hne]; simpl.
    + now rewrite Z.eqb_refl.
    + destruct (Z.eqb_spec k k0); [contradiction | now rewrite IH].
Qed.

Lemma forallb_dict_set (P : Z * V -> bool) k v d :
  forallb P d = true -> P (k, v) = true -> forallb P (dict_set k v d) = true.
Proof.
  intros Hd Hk. induction d as [|[k0 v0] d IH]; simpl in *.
  - now rewrite Hk.
  - apply andb_prop in Hd as [H0 Hd].
    destruct (Z.eqb_spec k k0); simpl.
    + now rewrite Hk, Hd.
    + now rewrite H0, IH.
Qed.

Lemma forallb_dict_get (P : Z * V -> bool) k v d :
  forallb P d = true -> dict_get k d = Some v -> P (k, v) = true.
Proof.
  induction d as [|[k0 v0] d IH]; simpl; [discriminate|].
  intros Hd. apply andb_prop in Hd as [H0 Hd].
  destruct (Z.eqb_spec k k0) as [->|Hne].
  - now intros [= <-].
  - now apply IH.
Qed.
End DictFacts.

(** * The bus wrapper [_Preamps.write_byte_data] *)

#[local] Arguments Z_in : simpl never.
#[local] Arguments py_pos : simpl never.

Section WriteByteData.
Context {E : Env}.

(** Hardware mode, board unknown: nothing happens at all. *)
Lemma write_unknown_hw (ps : list (Z * list Z)) (t : list event)
    (a r d : Z) :
  Z_in a _DEV_ADDRS = true ->
  dict_mem a ps = false ->
  _Preamps.write_byte_data a r d (mkst (_Preamps.mk ps true) t)
  = (Ok tt, mkst (_Preamps.mk ps true) t).
Proof.
  intros Ha Hm. unfold _Preamps.write_byte_data, bind, assert_, get, ret.
  rewrite Ha. cbn. now rewrite Hm.
Qed.

(** Hardware mode, board known, transfer acknowledged at once: the shadow
    register is updated and one transfer goes out. *)
Lemma write_known_hw (ps : list (Z * list Z)) (t : list event)
    (a r d : Z) (regs : list Z) (k : nat) :
  Z_in a _DEV_ADDRS = true ->
  dict_get a ps = Some regs ->
  py_pos (length regs) r = Some k ->
  ack E (t ++ [Sleep 1]) a r d = true ->
  _Preamps.write_byte_data a r d (mkst (_Preamps.mk ps true) t)
  = (Ok tt,
     mkst (_Preamps.mk (dict_set a (replace_nth k d regs) ps) true)
          (t ++ [Sleep 1; SMBus_write_byte_data a r d true])).
Proof.
  intros Ha Hg Hk Hack.
  unfold _Preamps.write_byte_data, bind, assert_, get, ret, must, put,
    try_except, setitem, dict_mem, sleep, emit, smbus_write.
  repeat (progress (rewrite ?Ha, ?Hg, ?Hk, ?Hack; cbn)).
  now rewrite <- app_assoc.
Qed.

(** Hardware mode, board known, first transfer refused: the bus is
    reopened and the transfer repeated once; a second refusal raises. *)
Lemma write_known_hw_retry (ps : list (Z * list Z)) (t : list event)
    (a r d : Z) (regs : list Z) (k : nat) :
  Z_in a _DEV_ADDRS = true ->
  dict_get a ps = Some regs ->
  py_pos (length regs) r = Some k ->
  ack E (t ++ [Sleep 1]) a r d = false ->
  let t' := t ++ [Sleep 1; SMBus_write_byte_data a r d false;
                  Sleep 1; SMBus_open] in
  let again := ack E t' a r d in
  _Preamps.write_byte_data a r d (mkst (_Preamps.mk ps true) t)
  = (if again then Ok tt else Raise OSError,
     mkst (_Preamps.mk (dict_set a (replace_nth k d regs) ps) true)
          (t' ++ [SMBus_write_byte_data a r d again])).
Proof.
  intros Ha Hg Hk Hack.
  unfold _Preamps.write_byte_data, bind, assert_, get, ret, must, put,
    try_except, setitem, dict_mem, sleep, emit, smbus_write.
  repeat (progress (rewrite ?Ha, ?Hg, ?Hk, ?Hack; cbn)).
  repeat rewrite <- app_assoc. cbn.
  match goal with
  | |- context [ack E ?h a r d] => destruct (ack E h a r d)
  end; reflexivity.
Qed.

(** Mock mode, board unknown: a fresh register file is created and the
    write recorded in it; nothing goes out. *)
Lemma write_unknown_mock (ps : list (Z * list Z)) (t : list event)
    (a r d : Z) (k : nat) :
  Z_in a _DEV_ADDRS = true ->
  dict_mem a ps = false ->
  py_pos 11 r = Some k ->
  _Preamps.write_byte_data a r d (mkst (_Preamps.mk ps false) t)
  = (Ok tt,
     mkst (_Preamps.mk
             (ps ++ [(a, replace_nth k d _Preamps.fresh_regs)]) false) t).
Proof.
  intros Ha Hm Hk.
  unfold _Preamps.write_byte_data, _Preamps.new_preamp, bind, assert_, get,
    ret, must, put, setitem.
  repeat (progress (rewrite ?Ha, ?Hm, ?dict_get_set_same, ?Hk; cbn)).
  now rewrite dict_set_set, dict_set_new.
Qed.

(** Mock mode, board known. *)
Lemma write_known_mock (ps : list (Z * list Z)) (t : list event)
    (a r d : Z) (regs : list Z) (k : nat) :
  Z_in a _DEV_ADDRS = true ->
  dict_get a ps = Some regs ->
  py_pos (length regs) r = Some k ->
  _Preamps.write_byte_data a r d (mkst (_Preamps.mk ps false) t)
  = (Ok tt,
     mkst (_Preamps.mk (dict_set a (replace_nth k d regs) ps) false) t).
Proof.
  intros Ha Hg Hk.
  unfold _Preamps.write_byte_data, bind, assert_, get, ret, must, put,
    setitem, dict_mem.
  repeat (progress (rewrite ?Ha, ?Hg, ?Hk; cbn)). reflexivity.
Qed.

(** An address outside [_DEV_ADDRS] trips the first assertion. *)
Lemma write_bad_address (s : st _Preamps.t) (a r d : Z) :
  Z_in a _DEV_ADDRS = false ->
  _Preamps.write_byte_data a r d s = (Raise AssertionError, s).
Proof.
  intros Ha. unfold _Preamps.write_byte_data, bind, assert_, raise.
  now rewrite Ha.
Qed.
End WriteByteData.

(** * Stepping through the monad *)

Lemma bind_ok {O A B} (m : M O A) (k : A -> M O B) (s s' : st O) (a : A) :
  m s = (Ok a, s') -> bind m k s = k a s'.
Proof. intros H. unfold bind. now rewrite H. Qed.

Lemma bind_raise {O A B} (m : M O A) (k : A -> M O B) (s s' : st O)
    (e : exn) :
  m s = (Raise e, s') -> bind m k s = (Raise e, s').
Proof. intros H. unfold bind. now rewrite H. Qed.

Lemma bind_ext {O A B} (m : M O A) (k k' : A -> M O B) (s : st O) :
  (forall a s', k a s' = k' a s') -> bind m k s = bind m k' s.
Proof.
  intros H. unfold bind. destruct (m s) as [[a|e] s']; [apply H | reflexivity].
Qed.

Lemma try_except_ok {O A} (m h : M O A) (s s' : st O) (a : A) :
  m s = (Ok a, s') -> try_except m h s = (Ok a, s').
Proof. intros H. unfold try_except. now rewrite H. Qed.

Lemma try_except_raise {O A} (m h : M O A) (s s' : st O) (e : exn) :
  m s = (Raise e, s') -> try_except m h s = h s'.
Proof. intros H. unfold try_except. now rewrite H. Qed.

Lemma assert_true {O} (b : bool) (s : st O) :
  b = true -> assert_ b s = (Ok tt, s).
Proof. now intros ->. Qed.

Lemma assert_false {O} (b : bool) (s : st O) :
  b = false -> assert_ b s = (Raise AssertionError, s).
Proof. now intros ->. Qed.

Lemma foreach_nil {O X} (body : X -> M O unit) (s : st O) :
  foreach [] body s = (Ok tt, s).
Proof. reflexivity. Qed.

Lemma foreach_cons {O X} (x : X) (l : list X) (body : X -> M O unit) :
  foreach (x :: l) body = bind (body x) (fun _ => foreach l body).
Proof. reflexivity. Qed.

Lemma for_acc_pure {O X Acc} (f : X -> Acc -> result Acc)
    (body : X -> Acc -> M O Acc) (l : list X) :
  (forall x acc s, body x acc s = (f x acc, s)) ->
  forall acc s, for_acc l acc body s = (fold_pure f l acc, s).
Proof.
  intros Hb. induction l as [|x l IH]; intros acc s; simpl; [reflexivity|].
  unfold bind. rewrite Hb. destruct (f x acc); [apply IH | reflexivity].
Qed.

Lemma fold_pure_ok {X Acc} (f : X -> Acc -> result Acc) (ok : X -> bool)
    (l : list X) :
  (forall x acc, ok x = true -> exists acc', f x acc = Ok acc') ->
  forallb ok l = true ->
  forall acc, exists r, fold_pure f l acc = Ok r.
Proof.
  intros Hok. induction l as [|x l IH]; simpl; intros Hl acc; [eauto|].
  apply andb_prop in Hl as [Hx Hl].
  destruct (Hok x acc Hx) as [acc' ->]. now apply IH.
Qed.

Lemma fold_pure_raise {X Acc} (f : X -> Acc -> result Acc) (ok : X -> bool)
    (l : list X) :
  (forall x acc, ok x = false -> exists e, e <> OSError /\ f x acc = Raise e) ->
  (forall x acc e, f x acc = Raise e -> e <> OSError) ->
  forallb ok l = false ->
  forall acc, exists e, e <> OSError /\ fold_pure f l acc = Raise e.
Proof.
  intros Hbad Hno. induction l as [|x l IH]; simpl; intros Hl acc;
    [discriminate|].
  destruct (f x acc) as [acc'|e] eqn:Hf.
  - destruct (ok x) eqn:Hx; simpl in Hl.
    + now apply IH.
    + destruct (Hbad x acc Hx) as (e & _ & He). congruence.
  - exists e. split; [eapply Hno; eassumption | reflexivity].
Qed.

Lemma on_bus_run {A} (m : M _Preamps.t A) (b b' : _Preamps.t)
    (t t' : list event) (am : bool) (r : result A) :
  m (mkst b t) = (r, mkst b' t') ->
  Rpi.on_bus m (mkst (Rpi.mk b am) t) = (r, mkst (Rpi.mk b' am) t').
Proof. intros H. unfold Rpi.on_bus. cbn. now rewrite H. Qed.

(** * The setters of [Rpi]: validation first *)

#[local] Arguments range : simpl never.
#[local] Arguments for_acc : simpl never.
#[local] Arguments foreach : simpl never.
#[local] Arguments getitem : simpl never.
#[local] Arguments Rpi.on_bus : simpl never.
#[local] Arguments _Preamps.write_byte_data : simpl never.
#[local] Arguments Rpi.sync_standby : simpl never.

Lemma all_present_addressed (p : pyval -> bool) (l : list pyval) (zone : Z) :
  all_present p (addressed l zone)
  = forallb (fun z => match getitem l (zone / 6 * 6 + z) with
                      | Some v => p v
                      | None => false
                      end) (range 6).
Proof.
  unfold all_present, addressed. induction (range 6) as [|z r IH]; simpl;
    [reflexivity | now rewrite IH].
Qed.

Section Validation.
Context {E : Env}.

Lemma mutes_loop (zone : Z) (mutes : list pyval) (s : st Rpi.t) :
  for_acc (range 6) 0x00 (fun z mute_cfg =>
    m <- must (getitem mutes (zone / 6 * 6 + z)) IndexError ;;
    assert_ (type_is_bool m) ;;
    ret (if truthy m then Z.lor mute_cfg (Z.shiftl 0x01 z) else mute_cfg)) s
  = (fold_pure (mute_step mutes (zone / 6)) (range 6) 0, s).
Proof.
  apply for_acc_pure. intros z acc s'. unfold mute_step, bind, must.
  destruct (getitem mutes (zone / 6 * 6 + z)) as [m|]; [|reflexivity].
  cbn. destruct (type_is_bool m); reflexivity.
Qed.

Lemma sources_loop (zone : Z) (sources : list pyval) (s : st Rpi.t) :
  for_acc (range 6) (0x00, 0x00) (fun z cfg =>
    src <- must (getitem sources (zone / 6 * 6 + z)) IndexError ;;
    assert_ (type_is_int src || is_None src) ;;
    if z <? 3 then
      v <- Rpi.lshift src (z * 2) ;;
      ret (Z.lor (fst cfg) v, snd cfg)
    else
      v <- Rpi.lshift src ((z - 3) * 2) ;;
      ret (fst cfg, Z.lor (snd cfg) v)) s
  = (fold_pure (source_step sources (zone / 6)) (range 6) (0, 0), s).
Proof.
  apply for_acc_pure. intros z acc s'. unfold source_step, bind, must.
  destruct (getitem sources (zone / 6 * 6 + z)) as [src|]; [|reflexivity].
  cbn. destruct src; cbn; try reflexivity; destruct (z <? 3); reflexivity.
Qed.

Lemma digital_loop (digital : list pyval) (s : st Rpi.t) :
  for_acc (range 4) 0x00 (fun i output =>
    d <- must (getitem digital i) IndexError ;;
    ret (if truthy d then Z.lor output (Z.shiftl 0x01 i) else output)) s
  = (fold_pure (digital_step digital) (range 4) 0, s).
Proof.
  apply for_acc_pure. intros z acc s'. unfold digital_step, bind, must.
  destruct (getitem digital z); reflexivity.
Qed.

Lemma digital_check (digital : list pyval) (s : st Rpi.t) :
  foreach digital (fun d => assert_ (type_is_bool d)) s
  = (if forallb type_is_bool digital then Ok tt else Raise AssertionError, s).
Proof.
  induction digital as [|d l IH]; [reflexivity|].
  rewrite foreach_cons. unfold bind, assert_. cbn [forallb].
  destruct (type_is_bool d); cbn; [apply IH | reflexivity].
Qed.
End Validation.

Ltac run_ok H := rewrite (bind_ok _ _ _ _ _ H).
Ltac run_raise H := rewrite (bind_raise _ _ _ _ _ H).

Lemma must_some {O A} (o : option A) (e : exn) (a : A) (s : st O) :
  o = Some a -> must o e s = (Ok a, s).
Proof. now intros ->. Qed.

Lemma must_none {O A} (o : option A) (e : exn) (s : st O) :
  o = None -> must (A := A) o e s = (Raise e, s).
Proof. now intros ->. Qed.

Lemma mute_step_ok (mutes : list pyval) (zone z acc : Z) :
  match getitem mutes (zone / 6 * 6 + z) with
  | Some v => type_is_bool v
  | None => false
  end = true ->
  exists acc', mute_step mutes (zone / 6) z acc = Ok acc'.
Proof.
  unfold mute_step. destruct (getitem mutes (zone / 6 * 6 + z)) as [m|];
    [|discriminate].
  intros ->. eauto.
Qed.

Lemma mute_step_raise (mutes : list pyval) (zone z acc : Z) (e : exn) :
  mute_step mutes (zone / 6) z acc = Raise e -> e <> OSError.
Proof.
  unfold mute_step. destruct (getitem mutes (zone / 6 * 6 + z)) as [m|].
  - destruct (type_is_bool m); [discriminate | now intros [= <-]].
  - now intros [= <-].
Qed.

Lemma mute_step_bad (mutes : list pyval) (zone z acc : Z) :
  match getitem mutes (zone / 6 * 6 + z) with
  | Some v => type_is_bool v
  | None => false
  end = false ->
  exists e, e <> OSError /\ mute_step mutes (zone / 6) z acc = Raise e.
Proof.
  unfold mute_step. destruct (getitem mutes (zone / 6 * 6 + z)) as [m|].
  - intros ->. eexists; split; [|reflexivity]; discriminate.
  - intros _. eexists; split; [|reflexivity]; discriminate.
Qed.

Lemma source_step_ok (sources : list pyval) (zone z : Z) (acc : Z * Z) :
  match getitem sources (zone / 6 * 6 + z) with
  | Some v => type_is_int v
  | None => false
  end = true ->
  exists acc', source_step sources (zone / 6) z acc = Ok acc'.
Proof.
  unfold source_step. destruct (getitem sources (zone / 6 * 6 + z)) as [m|];
    [|discriminate].
  destruct m; try discriminate. intros _. cbn. destruct (z <? 3); eauto.
Qed.

Lemma source_step_raise (sources : list pyval) (zone z : Z) (acc : Z * Z)
    (e : exn) :
  source_step sources (zone / 6) z acc = Raise e -> e <> OSError.
Proof.
  unfold source_step. destruct (getitem sources (zone / 6 * 6 + z)) as [m|].
  - destruct m; cbn; try (now intros [= <-]); destruct (z <? 3); discriminate.
  - now intros [= <-].
Qed.

Lemma source_step_bad (sources : list pyval) (zone z : Z) (acc : Z * Z) :
  match getitem sources (zone / 6 * 6 + z) with
  | Some v => type_is_int v
  | None => false
  end = false ->
  exists e, e <> OSError /\ source_step sources (zone / 6) z acc = Raise e.
Proof.
  unfold source_step. destruct (getitem sources (zone / 6 * 6 + z)) as [m|].
  - destruct m; cbn; try discriminate; intros _;
      eexists; (split; [|reflexivity]); discriminate.
  - intros _. eexists; split; [|reflexivity]; discriminate.
Qed.

Section Setters.
Context {E : Env}.

(** What [update_zone_vol] does once its input is accepted. *)
Lemma update_zone_vol_accepted (zone vol : Z) (s : st Rpi.t) :
  rpi_validates (Update_zone_vol zone vol) = true ->
  Rpi.update_zone_vol zone vol s
  = (Rpi.on_bus (_Preamps.write_byte_data ((zone / 6 + 1) * 8)
                   (REG.CH1_ATTEN + zone mod 6) (Z.abs vol)) ;;
     ret true) s.
Proof.
  cbn [rpi_validates]. intros H.
  apply andb_prop in H as [H Hv]. apply andb_prop in H as [Hz Hp].
  unfold Rpi.update_zone_vol.
  run_ok (assert_true (O := Rpi.t) _ s Hz).
  run_ok (assert_true (O := Rpi.t) _ s Hp).
  run_ok (assert_true (O := Rpi.t) _ s Hv).
  apply Z.leb_le in Hz. apply Z.ltb_lt in Hp.
  rewrite Z.quot_div_nonneg in * by lia.
  assert (Hh : 0 <= zone / 6 < 15)
    by (split; [apply Z.div_pos; lia | assumption]).
  run_ok (must_some (O := Rpi.t) _ IndexError _ s (getitem_DEV_ADDRS _ Hh)).
  replace (zone - zone / 6 * 6) with (zone mod 6)
    by (rewrite Z.mod_eq by lia; ring).
  reflexivity.
Qed.

Lemma update_zone_sources_accepted (zone : Z) (sources : list pyval)
    (s : st Rpi.t) :
  rpi_validates (Update_zone_sources zone sources) = true ->
  exists addr cfg,
    getitem _DEV_ADDRS (zone / 6) = Some addr /\
    fold_pure (source_step sources (zone / 6)) (range 6) (0, 0) = Ok cfg /\
    Rpi.update_zone_sources zone sources s
    = (Rpi.on_bus (_Preamps.write_byte_data addr REG.CH123_SRC (fst cfg)) ;;
       Rpi.on_bus (_Preamps.write_byte_data addr REG.CH456_SRC (snd cfg)) ;;
       ret true) s.
Proof.
  cbn [rpi_validates]. intros H.
  apply andb_prop in H as [H Ha]. apply andb_prop in H as [H Hall].
  apply andb_prop in H as [Hlen Hmul].
  destruct (getitem _DEV_ADDRS (zone / 6)) as [addr|] eqn:Haddr;
    [|discriminate].
  rewrite all_present_addressed in Hall.
  destruct (fold_pure_ok (source_step sources (zone / 6)) _ (range 6)
              (fun z acc => source_step_ok sources zone z acc) Hall (0, 0))
    as [cfg Hcfg].
  exists addr, cfg. repeat split; try assumption.
  unfold Rpi.update_zone_sources.
  run_ok (assert_true (O := Rpi.t) _ s Hlen).
  run_ok (assert_true (O := Rpi.t) _ s Hmul).
  rewrite (bind_ok _ _ s s cfg)
    by (rewrite sources_loop; now rewrite Hcfg).
  run_ok (must_some (O := Rpi.t) _ IndexError _ s Haddr).
  apply bind_ext. intros _ s1.
  now rewrite (bind_ok _ _ s1 s1 addr (must_some _ IndexError _ s1 Haddr)).
Qed.

Lemma update_zone_mutes_accepted (zone : Z) (mutes : list pyval)
    (s : st Rpi.t) :
  rpi_validates (Update_zone_mutes zone mutes) = true ->
  exists addr mute_cfg,
    getitem _DEV_ADDRS (zone / 6) = Some addr /\
    fold_pure (mute_step mutes (zone / 6)) (range 6) 0 = Ok mute_cfg /\
    Rpi.update_zone_mutes zone mutes s
    = (Rpi.on_bus (_Preamps.write_byte_data addr REG.MUTE mute_cfg) ;;
       Rpi.sync_standby mutes ;;
       ret true) s.
Proof.
  cbn [rpi_validates]. intros H.
  apply andb_prop in H as [H Ha]. apply andb_prop in H as [H Hall].
  apply andb_prop in H as [Hlen Hmul].
  destruct (getitem _DEV_ADDRS (zone / 6)) as [addr|] eqn:Haddr;
    [|discriminate].
  rewrite all_present_addressed in Hall.
  destruct (fold_pure_ok (mute_step mutes (zone / 6)) _ (range 6)
              (fun z acc => mute_step_ok mutes zone z acc) Hall 0)
    as [cfg Hcfg].
  exists addr, cfg. repeat split; try assumption.
  unfold Rpi.update_zone_mutes.
  run_ok (assert_true (O := Rpi.t) _ s Hlen).
  run_ok (assert_true (O := Rpi.t) _ s Hmul).
  rewrite (bind_ok _ _ s s cfg)
    by (rewrite mutes_loop; now rewrite Hcfg).
  now run_ok (must_some (O := Rpi.t) _ IndexError _ s Haddr).
Qed.

Lemma update_sources_accepted (digital : list pyval) (s : st Rpi.t) :
  rpi_validates (Update_sources digital) = true ->
  exists output,
    fold_pure (digital_step digital) (range 4) 0 = Ok output /\
    Rpi.update_sources digital s
    = (Rpi.on_bus (_Preamps.write_byte_data 8 REG.SRC_AD output) ;;
       ret true) s.
Proof.
  cbn [rpi_validates]. intros H. apply andb_prop in H as [Hlen Hall].
  assert (Hok : forallb (fun i => is_Some (getitem digital i)) (range 4)
                = true).
  { apply Z.eqb_eq in Hlen. unfold len in Hlen.
    destruct digital as [|a [|b [|c [|d [|? ?]]]]]; simpl in Hlen;
      try lia. reflexivity. }
  destruct (fold_pure_ok (digital_step digital) _ (range 4)
              (fun i acc (Hi : is_Some (getitem digital i) = true) =>
                 ltac:(unfold digital_step;
                       destruct (getitem digital i);
                       [eauto | discriminate])) Hok 0) as [output Hout].
  exists output. split; [assumption|].
  unfold Rpi.update_sources.
  run_ok (assert_true (O := Rpi.t) _ s Hlen).
  rewrite (bind_ok _ _ s s tt) by (rewrite digital_check; now rewrite Hall).
  rewrite (bind_ok _ _ s s output)
    by (rewrite digital_loop; now rewrite Hout).
  reflexivity.
Qed.
End Setters.

Section Rejection.
Context {E : Env}.

Ltac rejected_with e :=
  exists e; split; [discriminate | reflexivity].

(** An input that fails a check leaves the runtime exactly as it was:
    no shadow register, no flag and no bus transfer is touched. *)
Lemma rejected_untouched (c : call) (s : st Rpi.t) :
  rpi_validates c = false ->
  exists e, e <> OSError /\ run_call c s = (Raise e, s).
Proof.
  destruct c as [digital | zone mutes | zone sources | zone vol];
    cbn [rpi_validates run_call]; intros H.
  - unfold Rpi.update_sources. cbv zeta.
    destruct (len digital =? 4) eqn:Hlen.
    2:{ run_raise (assert_false (O := Rpi.t) false s eq_refl).
        rejected_with AssertionError. }
    run_ok (assert_true (O := Rpi.t) true s eq_refl).
    cbn [andb] in H.
    rewrite (bind_raise _ _ s s AssertionError)
      by (rewrite digital_check; now rewrite H).
    rejected_with AssertionError.
  - unfold Rpi.update_zone_mutes.
    destruct (6 <=? len mutes) eqn:Hlen.
    2:{ run_raise (assert_false (O := Rpi.t) false s eq_refl).
        rejected_with AssertionError. }
    run_ok (assert_true (O := Rpi.t) true s eq_refl).
    destruct (len mutes =? len mutes ÷ 6 * 6) eqn:Hmul.
    2:{ run_raise (assert_false (O := Rpi.t) false s eq_refl).
        rejected_with AssertionError. }
    run_ok (assert_true (O := Rpi.t) true s eq_refl).
    rewrite all_present_addressed in H. cbn [andb] in H.
    destruct (forallb _ (range 6)) eqn:Hall.
    + destruct (fold_pure_ok (mute_step mutes (zone / 6)) _ (range 6)
                  (fun z acc => mute_step_ok mutes zone z acc) Hall 0)
        as [cfg Hcfg].
      rewrite (bind_ok _ _ s s cfg)
        by (rewrite mutes_loop; now rewrite Hcfg).
      destruct (getitem _DEV_ADDRS (zone / 6)) eqn:Ha; [discriminate H|].
      run_raise (must_none (O := Rpi.t) (A := Z) None IndexError s eq_refl).
      rejected_with IndexError.
    + destruct (fold_pure_raise (mute_step mutes (zone / 6)) _ (range 6)
                  (fun z acc => mute_step_bad mutes zone z acc)
                  (fun z acc e => mute_step_raise mutes zone z acc e)
                  Hall 0) as (e & Hne & He).
      rewrite (bind_raise _ _ s s e)
        by (rewrite mutes_loop; now rewrite He).
      exists e. split; [assumption | reflexivity].
  - unfold Rpi.update_zone_sources.
    destruct (6 <=? len sources) eqn:Hlen.
    2:{ run_raise (assert_false (O := Rpi.t) false s eq_refl).
        rejected_with AssertionError. }
    run_ok (assert_true (O := Rpi.t) true s eq_refl).
    destruct (len sources =? len sources ÷ 6 * 6) eqn:Hmul.
    2:{ run_raise (assert_false (O := Rpi.t) false s eq_refl).
        rejected_with AssertionError. }
    run_ok (assert_true (O := Rpi.t) true s eq_refl).
    rewrite all_present_addressed in H. cbn [andb] in H.
    destruct (forallb _ (range 6)) eqn:Hall.
    + destruct (fold_pure_ok (source_step sources (zone / 6)) _ (range 6)
                  (fun z acc => source_step_ok sources zone z acc) Hall
                  (0, 0)) as [cfg Hcfg].
      rewrite (bind_ok _ _ s s cfg)
        by (rewrite sources_loop; now rewrite Hcfg).
      destruct (getitem _DEV_ADDRS (zone / 6)) eqn:Ha; [discriminate H|].
      run_raise (must_none (O := Rpi.t) (A := Z) None IndexError s eq_refl).
      rejected_with IndexError.
    + destruct (fold_pure_raise (source_step sources (zone / 6)) _ (range 6)
                  (fun z acc => source_step_bad sources zone z acc)
                  (fun z acc e => source_step_raise sources zone z acc e)
                  Hall (0, 0)) as (e & Hne & He).
      rewrite (bind_raise _ _ s s e)
        by (rewrite sources_loop; now rewrite He).
      exists e. split; [assumption | reflexivity].
  - unfold Rpi.update_zone_vol.
    destruct (0 <=? zone) eqn:Hz.
    2:{ run_raise (assert_false (O := Rpi.t) false s eq_refl).
        rejected_with AssertionError. }
    run_ok (assert_true (O := Rpi.t) true s eq_refl).
    destruct (zone ÷ 6 <? 15) eqn:Hp.
    2:{ run_raise (assert_false (O := Rpi.t) false s eq_refl).
        rejected_with AssertionError. }
    run_ok (assert_true (O := Rpi.t) true s eq_refl).
    cbn [andb] in H.
    run_raise (assert_false (O := Rpi.t) _ s H).
    rejected_with AssertionError.
Qed.
End Rejection.

(** * C2: malformed input is rejected before any write *)

Lemma some_fails_all_present (p q : pyval -> bool) (l : list (option pyval)) :
  (forall v, q v = true -> p v = true) ->
  some_fails p l = true -> all_present q l = false.
Proof.
  intros Hpq. unfold some_fails, all_present.
  induction l as [|o r IH]; simpl; [discriminate|].
  destruct o as [v|]; simpl; [|reflexivity].
  destruct (q v) eqn:Hq; simpl; [|reflexivity].
  rewrite (Hpq v Hq). simpl. exact IH.
Qed.

Lemma not_multiple_of_six (n : Z) :
  0 <= n -> (n mod 6 =? 0) = false -> (n =? n ÷ 6 * 6) = false.
Proof.
  intros Hn H. apply Z.eqb_neq in H. apply Z.eqb_neq.
  rewrite Z.quot_div_nonneg by lia.
  pose proof (Z.div_mod n 6 ltac:(lia)). lia.
Qed.

Lemma malformed_not_valid (c : call) :
  malformed c = true -> rpi_validates c = false.
Proof.
  destruct c as [digital | zone mutes | zone sources | zone vol];
    cbn [malformed rpi_validates]; intros H.
  - apply negb_true_iff in H. now rewrite H.
  - apply negb_true_iff in H.
    rewrite (not_multiple_of_six (len mutes)) by (unfold len; lia || exact H).
    now rewrite andb_false_r.
  - apply orb_prop in H as [H|H].
    + apply negb_true_iff in H.
      rewrite (not_multiple_of_six (len sources))
        by (unfold len; lia || exact H).
      now rewrite andb_false_r.
    + rewrite (some_fails_all_present
                 (fun src => type_is_int src || is_None src) type_is_int _
                 ltac:(intros v Hv; cbv beta; now rewrite Hv) H).
      now rewrite andb_false_r.
  - apply negb_true_iff in H. rewrite andb_comm in H. rewrite H.
    now rewrite !andb_false_r.
Qed.

(** C2 (as amended): a setter called with a volume outside [-79, 0], with a
    zone array whose length is not a multiple of six, or with a source entry
    of the addressed board that is neither an integer nor [None], raises,
    and leaves the runtime and the trace exactly as they were: no shadow
    register is changed and no bus transfer is made. *)
Theorem malformed_call_rejected_without_write {E : Env} (c : call)
    (s : st Rpi.t) :
  malformed c = true ->
  exists e, run_call c s = (Raise e, s).
Proof.
  intros H. apply malformed_not_valid in H.
  destruct (rejected_untouched c s H) as (e & _ & He). now exists e.
Qed.

Lemma malformed_call_rejected_without_write_witness :
  malformed (Update_zone_vol 3 (-80)) = true /\
  exists e,
    run_call (E := env_boards 1) (Update_zone_vol 3 (-80))
      (rpi_boot (env_boards 1))
    = (Raise e, rpi_boot (env_boards 1)).
Proof.
  split; [reflexivity|].
  apply (malformed_call_rejected_without_write (E := env_boards 1)).
  reflexivity.
Defined.

(** C2 as stated fails: a source id outside 0..3 is malformed by the
    interface's own domain, yet [update_zone_sources] packs it and writes
    both source registers. *)
Lemma source_id_out_of_range_is_written :
  let c := Update_zone_sources 0
             [PInt 7; PInt 0; PInt 0; PInt 0; PInt 0; PInt 0] in
  let s := rpi_boot (env_boards 1) in
  malformed_as_documented c = true /\
  fst (run_call (E := env_boards 1) c s) = Ok true /\
  trace (snd (run_call (E := env_boards 1) c s))
  = trace s ++ [Sleep 1; SMBus_write_byte_data 8 REG.CH123_SRC 7 true;
                Sleep 1; SMBus_write_byte_data 8 REG.CH456_SRC 0 true].
Proof. vm_compute. repeat split. Qed.

(** * C10: writes addressed to a board that was not discovered *)

Section AbsentBoard.
Context {E : Env}.

(** The standby block does nothing when the aggregate flag is the one
    remembered from the previous call. *)
Lemma sync_standby_unchanged (mutes : list pyval) (s : st Rpi.t) :
  Rpi._all_muted (obj s) = negb (False_in mutes) ->
  Rpi.sync_standby mutes s = (Ok tt, s).
Proof.
  intros H. unfold Rpi.sync_standby, bind, get. cbn.
  rewrite H. now rewrite eqb_reflx.
Qed.

Lemma on_bus_write_unknown_hw (ps : list (Z * list Z)) (t : list event)
    (am : bool) (a r d : Z) :
  Z_in a _DEV_ADDRS = true ->
  dict_mem a ps = false ->
  Rpi.on_bus (_Preamps.write_byte_data a r d)
    (mkst (Rpi.mk (_Preamps.mk ps true) am) t)
  = (Ok tt, mkst (Rpi.mk (_Preamps.mk ps true) am) t).
Proof.
  intros Ha Hm. apply on_bus_run. now apply write_unknown_hw.
Qed.

Lemma getitem_DEV_ADDRS_member (i a : Z) :
  getitem _DEV_ADDRS i = Some a -> Z_in a _DEV_ADDRS = true.
Proof.
  unfold getitem. destruct (py_pos _ i) as [k|]; [|discriminate].
  intros H. apply nth_error_In in H. now apply Z_in_spec.
Qed.

(** C10 (as amended): with a bus, a write to a device address that is not
    in the table of discovered preamps returns normally and changes
    nothing, neither a shadow register nor the trace; so [update_zone_vol]
    and [update_zone_sources] aimed at such a board return [True] having
    written nothing, and so does [update_zone_mutes] when the aggregate
    mute flag is unchanged; whatever that flag, [update_zone_mutes] aimed
    at such a board does what its standby block alone does, whose writes
    go to the boards of the table.  Without a bus the same write appends a
    fresh register file for that address, with the written register
    replaced. *)
Theorem write_to_undiscovered_preamp (ps : list (Z * list Z))
    (t : list event) (a r d : Z) :
  Z_in a _DEV_ADDRS = true ->
  dict_mem a ps = false ->
  _Preamps.write_byte_data a r d (mkst (_Preamps.mk ps true) t)
  = (Ok tt, mkst (_Preamps.mk ps true) t)
  /\ (forall zone vol am,
        rpi_validates (Update_zone_vol zone vol) = true ->
        (zone / 6 + 1) * 8 = a ->
        let s := mkst (Rpi.mk (_Preamps.mk ps true) am) t in
        Rpi.update_zone_vol zone vol s = (Ok true, s))
  /\ (forall zone sources am,
        rpi_validates (Update_zone_sources zone sources) = true ->
        getitem _DEV_ADDRS (zone / 6) = Some a ->
        let s := mkst (Rpi.mk (_Preamps.mk ps true) am) t in
        Rpi.update_zone_sources zone sources s = (Ok true, s))
  /\ (forall zone mutes,
        rpi_validates (Update_zone_mutes zone mutes) = true ->
        getitem _DEV_ADDRS (zone / 6) = Some a ->
        let s := mkst (Rpi.mk (_Preamps.mk ps true)
                         (negb (False_in mutes))) t in
        Rpi.update_zone_mutes zone mutes s = (Ok true, s))
  /\ (forall zone mutes am,
        rpi_validates (Update_zone_mutes zone mutes) = true ->
        getitem _DEV_ADDRS (zone / 6) = Some a ->
        let s := mkst (Rpi.mk (_Preamps.mk ps true) am) t in
        Rpi.update_zone_mutes zone mutes s
        = (_ <- Rpi.sync_standby mutes ;; ret true) s)
  /\ (0 <= r < 11 ->
      _Preamps.write_byte_data a r d (mkst (_Preamps.mk ps false) t)
      = (Ok tt,
         mkst (_Preamps.mk
                 (ps ++ [(a, replace_nth (Z.to_nat r) d
                               _Preamps.fresh_regs)]) false) t)).
Proof.
  intros Ha Hm. split; [now apply write_unknown_hw|].
  split; [|split; [|split; [|split]]].
  - intros zone vol am Hv <- s. subst s.
    rewrite update_zone_vol_accepted by assumption.
    now run_ok (on_bus_write_unknown_hw ps t am _
                  (REG.CH1_ATTEN + zone mod 6) (Z.abs vol) Ha Hm).
  - intros zone sources am Hv Hz s. subst s.
    destruct (update_zone_sources_accepted zone sources
                (mkst (Rpi.mk (_Preamps.mk ps true) am) t) Hv)
      as (addr & cfg & Haddr & _ & ->).
    assert (addr = a) by congruence. subst addr.
    run_ok (on_bus_write_unknown_hw ps t am a
              REG.CH123_SRC (fst cfg) Ha Hm).
    now run_ok (on_bus_write_unknown_hw ps t am a
                  REG.CH456_SRC (snd cfg) Ha Hm).
  - intros zone mutes Hv Hz s. subst s.
    destruct (update_zone_mutes_accepted zone mutes
                (mkst (Rpi.mk (_Preamps.mk ps true)
                         (negb (False_in mutes))) t) Hv)
      as (addr & cfg & Haddr & _ & ->).
    assert (addr = a) by congruence. subst addr.
    run_ok (on_bus_write_unknown_hw ps t (negb (False_in mutes)) a
              REG.MUTE cfg Ha Hm).
    now rewrite (bind_ok _ _ _ _ tt
                   (sync_standby_unchanged mutes
                      (mkst (Rpi.mk (_Preamps.mk ps true)
                               (negb (False_in mutes))) t) eq_refl)).
  - intros zone mutes am Hv Hz s. subst s.
    destruct (update_zone_mutes_accepted zone mutes
                (mkst (Rpi.mk (_Preamps.mk ps true) am) t) Hv)
      as (addr & cfg & Haddr & _ & ->).
    assert (addr = a) by congruence. subst addr.
    now run_ok (on_bus_write_unknown_hw ps t am a REG.MUTE cfg Ha Hm).
  - intros Hr. apply write_unknown_mock; try assumption.
    apply (py_pos_in_range 11). lia.
Qed.

End AbsentBoard.

Lemma write_to_undiscovered_preamp_witness :
  let ps := [(8, _Preamps.fresh_regs)] in
  Z_in 16 _DEV_ADDRS = true /\ dict_mem 16 ps = false /\
  _Preamps.write_byte_data (E := env_boards 1) 16 REG.CH2_ATTEN 40
    (mkst (_Preamps.mk ps true) [])
  = (Ok tt, mkst (_Preamps.mk ps true) []).
Proof.
  intros ps. split; [reflexivity|]. split; [reflexivity|].
  apply (write_to_undiscovered_preamp (E := env_boards 1)
           ps [] 16 REG.CH2_ATTEN 40); reflexivity.
Defined.

(** C10 as stated fails for [update_zone_mutes]: aimed at a board that was
    not discovered, a call that changes the aggregate mute flag returns
    [True] and writes nothing to that board, but the standby block still
    writes the STANDBY register of every board that was discovered. *)
Lemma update_zone_mutes_absent_board_writes_standby :
  let s := rpi_boot (env_boards 1) in
  let mutes := map PBool [true; true; true; true; true; true;
                          false; false; false; false; false; false] in
  _Preamps.preamps (Rpi._bus (obj s)) = [(8, _Preamps.fresh_regs)]
  /\ Rpi._all_muted (obj s) = true
  /\ getitem _DEV_ADDRS (6 / 6) = Some 16
  /\ Rpi.update_zone_mutes (E := env_boards 1) 6 mutes s
     = (Ok true,
        mkst (Rpi.mk (_Preamps.mk
                        [(8, [0x0F; 0x00; 0x00; 0x3F; 0x3F;
                              0x4F; 0x4F; 0x4F; 0x4F; 0x4F; 0x4F])] true)
                false)
             (trace s ++ [Sleep 1;
                          SMBus_write_byte_data 8 REG.STANDBY 0x3F true;
                          Sleep 300])).
Proof. vm_compute. repeat split. Qed.

(** * C5: [update_zone_vol] *)

Section ZoneVolume.
Context {E : Env}.

Lemma on_bus_write_known_hw (ps : list (Z * list Z)) (t : list event)
    (am : bool) (a r d : Z) (regs : list Z) (k : nat) :
  Z_in a _DEV_ADDRS = true ->
  dict_get a ps = Some regs ->
  py_pos (length regs) r = Some k ->
  ack E (t ++ [Sleep 1]) a r d = true ->
  Rpi.on_bus (_Preamps.write_byte_data a r d)
    (mkst (Rpi.mk (_Preamps.mk ps true) am) t)
  = (Ok tt,
     mkst (Rpi.mk (_Preamps.mk (dict_set a (replace_nth k d regs) ps) true)
             am)
          (t ++ [Sleep 1; SMBus_write_byte_data a r d true])).
Proof.
  intros Ha Hg Hk Hack. apply on_bus_run. now apply write_known_hw.
Qed.

(** C5 (as amended): for a zone in 0..89 and a volume in [-79, 0], when the
    board of the zone (hop [zone / 6], address [(zone / 6 + 1) * 8]) is in
    the table of discovered preamps and acknowledges the transfer,
    [update_zone_vol] returns [True], stores [|vol|] in the shadow of
    register [CH1_ATTEN + zone mod 6] of that board and sends exactly that
    one transfer. *)
Theorem update_zone_vol_writes_attenuation (ps : list (Z * list Z))
    (t : list event) (am : bool) (zone vol : Z) (regs : list Z) :
  0 <= zone < 90 ->
  -79 <= vol <= 0 ->
  let a := (zone / 6 + 1) * 8 in
  let r := REG.CH1_ATTEN + zone mod 6 in
  dict_get a ps = Some regs ->
  length regs = 11%nat ->
  ack E (t ++ [Sleep 1]) a r (Z.abs vol) = true ->
  Rpi.update_zone_vol zone vol (mkst (Rpi.mk (_Preamps.mk ps true) am) t)
  = (Ok true,
     mkst (Rpi.mk (_Preamps.mk
                     (dict_set a (replace_nth (Z.to_nat r) (Z.abs vol) regs)
                        ps) true) am)
          (t ++ [Sleep 1; SMBus_write_byte_data a r (Z.abs vol) true])).
Proof.
  intros Hz Hv a r Hg Hlen Hack.
  assert (Hh : 0 <= zone / 6 < 15).
  { split; [apply Z.div_pos; lia | apply Z.div_lt_upper_bound; lia]. }
  assert (Hr : 0 <= zone mod 6 < 6) by (apply Z.mod_pos_bound; lia).
  rewrite update_zone_vol_accepted.
  2:{ cbn [rpi_validates]. rewrite Z.quot_div_nonneg by lia.
      repeat (apply andb_true_intro; split); lia. }
  fold a r.
  run_ok (on_bus_write_known_hw ps t am a r (Z.abs vol) regs (Z.to_nat r)
            (DEV_ADDRS_member _ Hh) Hg
            ltac:(apply py_pos_in_range; unfold r, REG.CH1_ATTEN; lia)
            Hack).
  reflexivity.
Qed.
End ZoneVolume.

Lemma update_zone_vol_writes_attenuation_witness :
  let ps := [(8, _Preamps.fresh_regs); (16, _Preamps.fresh_regs)] in
  Rpi.update_zone_vol (E := env_boards 2) 7 (-40)
    (mkst (Rpi.mk (_Preamps.mk ps true) true) [])
  = (Ok true,
     mkst (Rpi.mk (_Preamps.mk
                     [(8, _Preamps.fresh_regs);
                      (16, [0x0F; 0x00; 0x00; 0x3F; 0x00;
                            0x4F; 40; 0x4F; 0x4F; 0x4F; 0x4F])] true) true)
          [Sleep 1; SMBus_write_byte_data 16 REG.CH2_ATTEN 40 true]).
Proof.
  intros ps.
  apply (update_zone_vol_writes_attenuation (E := env_boards 2) ps [] true
           7 (-40) _Preamps.fresh_regs); try reflexivity; lia.
Defined.

(** C5 as stated fails on two counts: zone 90 (hop 15) is refused by the
    assertion [preamp < 15], and a zone whose board was not discovered gets
    [True] back although nothing is written. *)
Lemma update_zone_vol_not_for_every_zone :
  let s := rpi_boot (env_boards 1) in
  Rpi.update_zone_vol (E := env_boards 1) 90 (-40) s
  = (Raise AssertionError, s)
  /\ Rpi.update_zone_vol (E := env_boards 1) 7 (-40) s = (Ok true, s).
Proof. vm_compute. split; reflexivity. Qed.

(** * C1: [exists] *)

(** [exists] looks the hop index up among the keys of the preamp table. *)
Lemma exists_is_key_lookup (zone : Z) (self : Rpi.t) :
  Rpi.exists_ zone self
  = dict_mem (zone / 6) (_Preamps.preamps (Rpi._bus self)).
Proof. reflexivity. Qed.

(** The keys are bus addresses, all of them multiples of eight from 8 up, so
    no zone of the first eight boards is ever reported. *)
Lemma exists_false_below_48 (zone : Z) (self : Rpi.t) :
  well_formed (Rpi._bus self) = true ->
  0 <= zone < 48 ->
  Rpi.exists_ zone self = false.
Proof.
  intros Hwf Hz. rewrite exists_is_key_lookup.
  destruct (dict_mem (zone / 6) _) eqn:Hm; [|reflexivity].
  apply dict_mem_get in Hm as [regs Hg].
  unfold well_formed in Hwf.
  pose proof (forallb_dict_get _ _ _ _ Hwf Hg) as Hk. cbn in Hk.
  apply andb_prop in Hk as [Hk _]. apply Z_in_spec in Hk.
  assert (0 <= zone / 6 < 8).
  { split; [apply Z.div_pos; lia | apply Z.div_lt_upper_bound; lia]. }
  cbn in Hk. lia.
Qed.

(** C1 at the failing input: on a system where only the master board was
    discovered, the board of zone 0 is present but [exists(0)] is [False],
    and [exists(48)] is [True] although hop 8 lies beyond the chain. *)
Theorem exists_confuses_hop_and_address :
  let self := obj (rpi_boot (env_boards 1)) in
  chain_length self = 1 /\
  board_present 0 self = true /\ Rpi.exists_ 0 self = false /\
  board_present 8 self = false /\ Rpi.exists_ 48 self = true.
Proof. vm_compute. repeat split. Qed.

(** * C3: global standby follows the aggregate mute flag *)

Section Standby.
Context {E : Env}.

Lemma well_formed_entry (ps : list (Z * list Z)) (b : bool) (a : Z)
    (regs : list Z) :
  well_formed (_Preamps.mk ps b) = true ->
  dict_get a ps = Some regs ->
  Z_in a _DEV_ADDRS = true /\ length regs = 11%nat.
Proof.
  intros Hwf Hg. unfold well_formed in Hwf. cbn in Hwf.
  pose proof (forallb_dict_get _ _ _ _ Hwf Hg) as H. cbn in H.
  apply andb_prop in H as [H1 H2]. now apply Nat.eqb_eq in H2.
Qed.

Lemma well_formed_set (ps : list (Z * list Z)) (b b' : bool) (a : Z)
    (regs : list Z) :
  well_formed (_Preamps.mk ps b) = true ->
  Z_in a _DEV_ADDRS = true ->
  length regs = 11%nat ->
  well_formed (_Preamps.mk (dict_set a regs ps) b') = true.
Proof.
  intros Hwf Ha Hl. unfold well_formed in *. cbn in *.
  apply forallb_dict_set; [assumption|]. cbn.
  rewrite Ha, Hl. reflexivity.
Qed.

(** A write to a known board of a well-formed table that answers. *)
Lemma write_register_hw (ps : list (Z * list Z)) (t : list event)
    (am : bool) (a r d : Z) :
  well_formed (_Preamps.mk ps true) = true ->
  responsive E (dict_keys ps) ->
  dict_mem a ps = true ->
  0 <= r < 11 ->
  exists ps',
    Rpi.on_bus (_Preamps.write_byte_data a r d)
      (mkst (Rpi.mk (_Preamps.mk ps true) am) t)
    = (Ok tt, mkst (Rpi.mk (_Preamps.mk ps' true) am)
                   (t ++ [Sleep 1; SMBus_write_byte_data a r d true]))
    /\ dict_keys ps' = dict_keys ps
    /\ well_formed (_Preamps.mk ps' true) = true
    /\ (exists regs, dict_get a ps' = Some regs
                     /\ nth_error regs (Z.to_nat r) = Some d).
Proof.
  intros Hwf Hresp Hm Hr.
  destruct (dict_mem_get _ _ Hm) as [regs Hg].
  destruct (well_formed_entry _ _ _ _ Hwf Hg) as [Ha Hl].
  exists (dict_set a (replace_nth (Z.to_nat r) d regs) ps).
  split; [|split; [|split]].
  - apply on_bus_write_known_hw; try assumption.
    + rewrite Hl. apply (py_pos_in_range 11). lia.
    + apply Hresp. now apply dict_mem_keys.
  - now apply dict_keys_set_known.
  - eapply well_formed_set; try eassumption.
    now rewrite length_replace_nth.
  - exists (replace_nth (Z.to_nat r) d regs). split.
    + apply dict_get_set_same.
    + apply nth_error_replace_nth. lia.
Qed.

(** The loop over [self._bus.preamps.keys()]. *)
Lemma standby_loop (v : Z) (am : bool) (ks : list Z) :
  forall (ps : list (Z * list Z)) (t : list event),
    well_formed (_Preamps.mk ps true) = true ->
    responsive E (dict_keys ps) ->
    incl ks (dict_keys ps) ->
    exists ps',
      foreach ks (fun p =>
        Rpi.on_bus (_Preamps.write_byte_data p REG.STANDBY v))
        (mkst (Rpi.mk (_Preamps.mk ps true) am) t)
      = (Ok tt,
         mkst (Rpi.mk (_Preamps.mk ps' true) am)
              (t ++ flat_map (fun p =>
                      [Sleep 1; SMBus_write_byte_data p REG.STANDBY v true])
                    ks))
      /\ dict_keys ps' = dict_keys ps
      /\ well_formed (_Preamps.mk ps' true) = true.
Proof.
  induction ks as [|k ks IH]; intros ps t Hwf Hresp Hin.
  - exists ps. rewrite foreach_nil. cbn. now rewrite app_nil_r.
  - assert (Hk : dict_mem k ps = true).
    { apply dict_mem_keys. apply Hin. now left. }
    destruct (write_register_hw ps t am k REG.STANDBY v Hwf Hresp Hk
                ltac:(unfold REG.STANDBY; lia))
      as (ps1 & Hrun & Hkeys & Hwf1 & _).
    destruct (IH ps1 (t ++ [Sleep 1;
                            SMBus_write_byte_data k REG.STANDBY v true])
                Hwf1) as (ps' & Hrun' & Hkeys' & Hwf').
    { now rewrite Hkeys. }
    { rewrite Hkeys. intros x Hx. apply Hin. now right. }
    exists ps'. split; [|split; [congruence | assumption]].
    rewrite foreach_cons. run_ok Hrun. rewrite Hrun'.
    cbn [flat_map]. now rewrite <- app_assoc.
Qed.

(** The standby block when the aggregate flag differs from the remembered
    one: one round over every board, the settle delay, the new flag. *)
Lemma sync_standby_changed (mutes : list pyval) (ps : list (Z * list Z))
    (t : list event) (am : bool) :
  well_formed (_Preamps.mk ps true) = true ->
  responsive E (dict_keys ps) ->
  am <> aggregate_muted mutes ->
  exists ps',
    Rpi.sync_standby mutes (mkst (Rpi.mk (_Preamps.mk ps true) am) t)
    = (Ok tt,
       mkst (Rpi.mk (_Preamps.mk ps' true) (aggregate_muted mutes))
            (t ++ flat_map (fun p =>
                    [Sleep 1;
                     SMBus_write_byte_data p REG.STANDBY
                       (standby_code (aggregate_muted mutes)) true])
                  (dict_keys ps)
               ++ [Sleep (if aggregate_muted mutes then 100 else 300)]))
    /\ dict_keys ps' = dict_keys ps
    /\ well_formed (_Preamps.mk ps' true) = true.
Proof.
  intros Hwf Hresp Hne.
  destruct (standby_loop (standby_code (aggregate_muted mutes)) am
              (dict_keys ps) ps t Hwf Hresp (incl_refl _))
    as (ps' & Hrun & Hkeys & Hwf').
  exists ps'. split; [|split; assumption].
  unfold Rpi.sync_standby. cbv zeta. unfold bind at 1. cbn [get obj Rpi._all_muted].
  fold (aggregate_muted mutes).
  replace (Bool.eqb am (aggregate_muted mutes)) with false
    by (symmetry; now apply eqb_false_iff).
  cbn [negb Rpi._bus _Preamps.preamps].
  unfold standby_code in Hrun.
  destruct (aggregate_muted mutes).
  - unfold bind at 1. unfold bind at 1. rewrite Hrun. cbn.
    now rewrite <- app_assoc.
  - unfold bind at 1. unfold bind at 1. rewrite Hrun. cbn.
    now rewrite <- app_assoc.
Qed.
End Standby.

Lemma standby_writes_app (t1 t2 : list event) :
  standby_writes (t1 ++ t2) = standby_writes t1 ++ standby_writes t2.
Proof. apply filter_app. Qed.

Lemma standby_writes_round (v : Z) (ks : list Z) :
  standby_writes
    (flat_map (fun p => [Sleep 1; SMBus_write_byte_data p REG.STANDBY v true])
       ks)
  = map (fun p => SMBus_write_byte_data p REG.STANDBY v true) ks.
Proof.
  induction ks as [|k ks IH]; [reflexivity|].
  cbn [flat_map map]. rewrite standby_writes_app, IH. reflexivity.
Qed.

Section StandbySequence.
Context {E : Env}.

(** One call on a well-formed table whose boards answer. *)
Lemma update_zone_mutes_standby (zone : Z) (mutes : list pyval)
    (ps : list (Z * list Z)) (t : list event) (am : bool) :
  well_formed (_Preamps.mk ps true) = true ->
  responsive E (dict_keys ps) ->
  rpi_validates (Update_zone_mutes zone mutes) = true ->
  exists ps' t',
    Rpi.update_zone_mutes zone mutes
      (mkst (Rpi.mk (_Preamps.mk ps true) am) t)
    = (Ok true,
       mkst (Rpi.mk (_Preamps.mk ps' true) (aggregate_muted mutes))
            (t ++ t'))
    /\ dict_keys ps' = dict_keys ps
    /\ well_formed (_Preamps.mk ps' true) = true
    /\ standby_writes t'
       = if Bool.eqb am (aggregate_muted mutes) then []
         else standby_round (dict_keys ps) (aggregate_muted mutes).
Proof.
  intros Hwf Hresp Hv.
  destruct (update_zone_mutes_accepted zone mutes
              (mkst (Rpi.mk (_Preamps.mk ps true) am) t) Hv)
    as (addr & cfg & Haddr & _ & ->).
  pose proof (getitem_DEV_ADDRS_member _ _ Haddr) as Ha.
  (* the mute register *)
  assert (Hmute : exists ps1 t1,
    Rpi.on_bus (_Preamps.write_byte_data addr REG.MUTE cfg)
      (mkst (Rpi.mk (_Preamps.mk ps true) am) t)
    = (Ok tt, mkst (Rpi.mk (_Preamps.mk ps1 true) am) (t ++ t1))
    /\ dict_keys ps1 = dict_keys ps
    /\ well_formed (_Preamps.mk ps1 true) = true
    /\ standby_writes t1 = []).
  { destruct (dict_mem addr ps) eqn:Hm.
    - destruct (write_register_hw ps t am addr REG.MUTE cfg Hwf Hresp Hm
                  ltac:(unfold REG.MUTE; lia))
        as (ps1 & Hrun & Hkeys & Hwf1 & _).
      exists ps1, [Sleep 1; SMBus_write_byte_data addr REG.MUTE cfg true].
      repeat split; assumption || reflexivity.
    - exists ps, []. rewrite app_nil_r.
      repeat split; try assumption; try reflexivity.
      now apply on_bus_write_unknown_hw. }
  destruct Hmute as (ps1 & t1 & Hrun1 & Hkeys1 & Hwf1 & Hsb1).
  run_ok Hrun1.
  destruct (Bool.eqb am (aggregate_muted mutes)) eqn:Hflag.
  - apply eqb_prop in Hflag. subst am.
    exists ps1, t1.
    rewrite (bind_ok _ _ _ _ tt
               (sync_standby_unchanged mutes
                  (mkst (Rpi.mk (_Preamps.mk ps1 true)
                           (aggregate_muted mutes)) (t ++ t1)) eq_refl)).
    repeat split; assumption.
  - apply eqb_false_iff in Hflag.
    destruct (sync_standby_changed mutes ps1 (t ++ t1) am Hwf1
                ltac:(now rewrite Hkeys1) Hflag)
      as (ps' & Hrun & Hkeys & Hwf').
    run_ok Hrun. rewrite Hkeys1 in *.
    eexists ps', _. split; [|split; [congruence|split; [assumption|]]].
    + unfold ret. rewrite <- !app_assoc. reflexivity.
    + rewrite !standby_writes_app, Hsb1, standby_writes_round.
      cbn. now rewrite app_nil_r.
Qed.

(** C3: along any sequence of calls of [update_zone_mutes], on a table of
    discovered boards that all answer, the transfers sent to STANDBY
    registers are exactly these: at each accepted call whose aggregate
    all-muted flag differs from the one of the accepted call before (from
    the initial flag for the first), one write to every board of the chain,
    of [0x00] when all zones have become muted and of [0x3F] otherwise; a
    call that keeps the flag, or whose input is refused, sends none. *)
Theorem standby_written_exactly_on_flag_change
    (calls : list (Z * list pyval)) :
  forall (ps : list (Z * list Z)) (t : list event) (am : bool),
    well_formed (_Preamps.mk ps true) = true ->
    responsive E (dict_keys ps) ->
    exists ps' t',
      run_mutes calls (mkst (Rpi.mk (_Preamps.mk ps true) am) t)
      = (Ok tt,
         mkst (Rpi.mk (_Preamps.mk ps' true) (last_flag am calls))
              (t ++ t'))
      /\ dict_keys ps' = dict_keys ps
      /\ standby_writes t' = expected_standby (dict_keys ps) am calls.
Proof.
  unfold run_mutes.
  induction calls as [|[zone mutes] calls IH]; intros ps t am Hwf Hresp.
  - exists ps, []. rewrite foreach_nil, app_nil_r. now repeat split.
  - rewrite foreach_cons. cbn [fst snd expected_standby last_flag].
    destruct (rpi_validates (Update_zone_mutes zone mutes)) eqn:Hv.
    + destruct (update_zone_mutes_standby zone mutes ps t am Hwf Hresp Hv)
        as (ps1 & t1 & Hrun1 & Hkeys1 & Hwf1 & Hsb1).
      destruct (IH ps1 (t ++ t1) (aggregate_muted mutes) Hwf1
                  ltac:(now rewrite Hkeys1))
        as (ps' & t' & Hrun & Hkeys & Hsb).
      exists ps', (t1 ++ t'). split; [|split].
      * cbv beta. cbn [fst snd].
        run_ok (try_except_ok _ (ret tt) _ _ tt
                  (bind_ok _ (fun _ => ret tt) _ _ true Hrun1)).
        rewrite Hrun. now rewrite <- app_assoc.
      * congruence.
      * rewrite standby_writes_app, Hsb1, Hsb, Hkeys1. reflexivity.
    + destruct (rejected_untouched (Update_zone_mutes zone mutes)
                  (mkst (Rpi.mk (_Preamps.mk ps true) am) t) Hv)
        as (e & _ & He).
      cbn [run_call] in He.
      destruct (IH ps t am Hwf Hresp) as (ps' & t' & Hrun & Hkeys & Hsb).
      exists ps', t'. split; [|split; assumption].
      cbv beta. cbn [fst snd].
      rewrite (bind_ok _ _ _ _ tt
                 (try_except_raise _ (ret tt) _ _ e
                    (bind_raise _ (fun _ => ret tt) _ _ e He))).
      exact Hrun.
Qed.
End StandbySequence.

Lemma env_boards_responsive :
  responsive (env_boards 2) [8; 16].
Proof.
  intros t a r d [<- | [<- | []]]; reflexivity.
Qed.

Lemma standby_written_exactly_on_flag_change_witness :
  let ps := [(8, _Preamps.fresh_regs); (16, _Preamps.fresh_regs)] in
  let m b0 b1 :=
    [PBool b0; PBool b1; PBool true; PBool true; PBool true; PBool true;
     PBool true; PBool true; PBool true; PBool true; PBool true; PBool true] in
  let calls := [(0, m false true); (1, m false false);
                (0, [PBool true]); (7, m false false); (0, m true true)] in
  well_formed (_Preamps.mk ps true) = true /\
  exists ps' t',
    run_mutes (E := env_boards 2) calls
      (mkst (Rpi.mk (_Preamps.mk ps true) true) [])
    = (Ok tt, mkst (Rpi.mk (_Preamps.mk ps' true) true) ([] ++ t'))
    /\ dict_keys ps' = [8; 16]
    /\ standby_writes t'
       = [SMBus_write_byte_data 8 REG.STANDBY 0x3F true;
          SMBus_write_byte_data 16 REG.STANDBY 0x3F true;
          SMBus_write_byte_data 8 REG.STANDBY 0x00 true;
          SMBus_write_byte_data 16 REG.STANDBY 0x00 true].
Proof.
  intros ps m calls. split; [reflexivity|].
  apply (standby_written_exactly_on_flag_change (E := env_boards 2)
           calls ps [] true).
  - reflexivity.
  - exact env_boards_responsive.
Defined.

(** * Accepted input: only the transport can fail *)

Lemma well_formed_app (ps : list (Z * list Z)) (b : bool) (a : Z)
    (regs : list Z) :
  well_formed (_Preamps.mk ps b) = true ->
  Z_in a _DEV_ADDRS = true ->
  length regs = 11%nat ->
  well_formed (_Preamps.mk (ps ++ [(a, regs)]) b) = true.
Proof.
  intros Hwf Ha Hl. unfold well_formed in *. cbn in *.
  rewrite forallb_app, Hwf. cbn. now rewrite Ha, Hl.
Qed.

Section Totality.
Context {E : Env}.

Lemma write_sound (b : bool) (ps : list (Z * list Z)) (t : list event)
    (a r d : Z) :
  well_formed (_Preamps.mk ps b) = true ->
  Z_in a _DEV_ADDRS = true ->
  0 <= r < 11 ->
  exists res ps' t',
    _Preamps.write_byte_data a r d (mkst (_Preamps.mk ps b) t)
    = (res, mkst (_Preamps.mk ps' b) t')
    /\ not_rejected res = true
    /\ well_formed (_Preamps.mk ps' b) = true
    /\ incl (dict_keys ps) (dict_keys ps').
Proof.
  intros Hwf Ha Hr.
  assert (Hpos : forall regs : list Z, length regs = 11%nat ->
                   py_pos (length regs) r = Some (Z.to_nat r)).
  { intros regs ->. apply (py_pos_in_range 11). lia. }
  destruct (dict_mem a ps) eqn:Hm.
  - destruct (dict_mem_get _ _ Hm) as [regs Hg].
    destruct (well_formed_entry _ _ _ _ Hwf Hg) as [_ Hl].
    assert (Hwf' : forall b', well_formed
              (_Preamps.mk (dict_set a (replace_nth (Z.to_nat r) d regs) ps)
                 b') = true).
    { intros b'. eapply well_formed_set; try eassumption.
      now rewrite length_replace_nth. }
    assert (Hk : incl (dict_keys ps)
              (dict_keys (dict_set a (replace_nth (Z.to_nat r) d regs) ps))).
    { rewrite dict_keys_set_known by assumption. apply incl_refl. }
    destruct b.
    + destruct (ack E (t ++ [Sleep 1]) a r d) eqn:Hack.
      * rewrite (write_known_hw ps t a r d regs _ Ha Hg (Hpos _ Hl) Hack).
        do 3 eexists. split; [reflexivity|]. repeat split; auto.
      * rewrite (write_known_hw_retry ps t a r d regs _ Ha Hg (Hpos _ Hl)
                   Hack).
        do 3 eexists. split; [reflexivity|].
        split; [|split; auto].
        match goal with
        | |- context [ack E ?h a r d] => now destruct (ack E h a r d)
        end.
    + rewrite (write_known_mock ps t a r d regs _ Ha Hg (Hpos _ Hl)).
      do 3 eexists. split; [reflexivity|]. repeat split; auto.
  - destruct b.
    + rewrite (write_unknown_hw ps t a r d Ha Hm).
      do 3 eexists. split; [reflexivity|]. repeat split; auto.
      apply incl_refl.
    + rewrite (write_unknown_mock ps t a r d (Z.to_nat r) Ha Hm
                 ltac:(apply (py_pos_in_range 11); lia)).
      do 3 eexists. split; [reflexivity|]. repeat split; auto.
      * apply well_formed_app; try assumption.
        now rewrite length_replace_nth.
      * unfold dict_keys. rewrite map_app. now apply incl_appl, incl_refl.
Qed.

Lemma on_bus_write_sound (s : st Rpi.t) (a r d : Z) :
  well_formed (Rpi._bus (obj s)) = true ->
  Z_in a _DEV_ADDRS = true ->
  0 <= r < 11 ->
  exists res s',
    Rpi.on_bus (_Preamps.write_byte_data a r d) s = (res, s')
    /\ sound_step (res, s')
    /\ Rpi._all_muted (obj s') = Rpi._all_muted (obj s)
    /\ incl (dict_keys (_Preamps.preamps (Rpi._bus (obj s))))
            (dict_keys (_Preamps.preamps (Rpi._bus (obj s')))).
Proof.
  destruct s as [[[ps b] am] t]. cbn. intros Hwf Ha Hr.
  destruct (write_sound b ps t a r d Hwf Ha Hr)
    as (res & ps' & t' & Hrun & Hres & Hwf' & Hk).
  exists res, (mkst (Rpi.mk (_Preamps.mk ps' b) am) t').
  split; [now apply on_bus_run|]. repeat split; assumption.
Qed.

Lemma standby_loop_sound (v : Z) (ks : list Z) :
  forall s : st Rpi.t,
    well_formed (Rpi._bus (obj s)) = true ->
    incl ks (dict_keys (_Preamps.preamps (Rpi._bus (obj s)))) ->
    exists res s',
      foreach ks (fun p =>
        Rpi.on_bus (_Preamps.write_byte_data p REG.STANDBY v)) s
      = (res, s')
      /\ sound_step (res, s').
Proof.
  induction ks as [|k ks IH]; intros s Hwf Hin.
  - exists (Ok tt), s. rewrite foreach_nil. now repeat split.
  - assert (Ha : Z_in k _DEV_ADDRS = true).
    { assert (Hk : dict_mem k (_Preamps.preamps (Rpi._bus (obj s))) = true)
        by (apply dict_mem_keys, Hin; now left).
      destruct (dict_mem_get _ _ Hk) as [regs Hg].
      destruct s as [[[ps b] am] t].
      change (well_formed (_Preamps.mk ps b) = true) in Hwf.
      change (dict_get k ps = Some regs) in Hg.
      now destruct (well_formed_entry _ _ _ _ Hwf Hg). }
    destruct (on_bus_write_sound s k REG.STANDBY v Hwf Ha
                ltac:(unfold REG.STANDBY; lia))
      as (res & s1 & Hrun & [Hres Hwf1] & _ & Hk1).
    rewrite foreach_cons. cbn in Hres, Hwf1.
    destruct res as [[]|e].
    + run_ok Hrun. apply IH; [assumption|].
      intros x Hx. apply Hk1, Hin. now right.
    + run_raise Hrun. exists (Raise e), s1. now repeat split.
Qed.

Lemma sync_standby_sound (mutes : list pyval) (s : st Rpi.t) :
  well_formed (Rpi._bus (obj s)) = true ->
  exists res s',
    Rpi.sync_standby mutes s = (res, s') /\ sound_step (res, s').
Proof.
  intros Hwf. unfold Rpi.sync_standby. cbv zeta.
  unfold bind at 1. cbn [get].
  destruct (negb (Bool.eqb _ _)).
  2:{ exists (Ok tt), s. now repeat split. }
  set (ks := dict_keys (_Preamps.preamps (Rpi._bus (obj s)))).
  assert (Hloop : forall v ms, 0 <= ms -> exists res s',
    (foreach ks (fun p =>
       Rpi.on_bus (_Preamps.write_byte_data p REG.STANDBY v)) ;;
     sleep ms) s = (res, s') /\ sound_step (res, s')).
  { intros v ms Hms.
    destruct (standby_loop_sound v ks s Hwf (incl_refl _))
      as (res & s1 & Hrun & [Hres Hwf1]).
    cbn in Hres, Hwf1. destruct res as [[]|e].
    - run_ok Hrun. unfold sleep, raise, emit.
      destruct (Z.ltb_spec ms 0); [lia|].
      do 2 eexists; (split; [reflexivity|]); now repeat split.
    - run_raise Hrun. exists (Raise e), s1. now repeat split. }
  destruct (negb (False_in mutes)).
  - destruct (Hloop 0x00 100 ltac:(lia)) as (res & s1 & Hrun & [Hres Hwf1]).
    cbn in Hres, Hwf1. destruct res as [[]|e].
    + run_ok Hrun. do 2 eexists. split; [reflexivity|]. now repeat split.
    + run_raise Hrun. exists (Raise e), s1. now repeat split.
  - destruct (Hloop 0x3F 300 ltac:(lia)) as (res & s1 & Hrun & [Hres Hwf1]).
    cbn in Hres, Hwf1. destruct res as [[]|e].
    + run_ok Hrun. do 2 eexists. split; [reflexivity|]. now repeat split.
    + run_raise Hrun. exists (Raise e), s1. now repeat split.
Qed.
End Totality.

Section AcceptedSound.
Context {E : Env}.

Lemma then_ret_sound {A} (m : M Rpi.t unit) (a : A) (s : st Rpi.t) :
  (exists res s', m s = (res, s') /\ sound_step (res, s')) ->
  exists res s', (m ;; ret a) s = (res, s') /\ sound_step (res, s').
Proof.
  intros (res & s' & Hrun & [Hres Hwf]). cbn in Hres, Hwf.
  destruct res as [[]|e].
  - run_ok Hrun. exists (Ok a), s'. now repeat split.
  - run_raise Hrun. exists (Raise e), s'. now repeat split.
Qed.

Lemma seq_sound {A} (m1 : M Rpi.t unit) (m2 : M Rpi.t A) (s : st Rpi.t) :
  (exists res s', m1 s = (res, s') /\ sound_step (res, s')) ->
  (forall s', well_formed (Rpi._bus (obj s')) = true ->
     exists res s'', m2 s' = (res, s'') /\ sound_step (res, s'')) ->
  exists res s', (m1 ;; m2) s = (res, s') /\ sound_step (res, s').
Proof.
  intros (res & s' & Hrun & [Hres Hwf]) H2. cbn in Hres, Hwf.
  destruct res as [[]|e].
  - run_ok Hrun. now apply H2.
  - run_raise Hrun. exists (Raise e), s'. now repeat split.
Qed.

Lemma write_step_sound (s : st Rpi.t) (a r d : Z) :
  well_formed (Rpi._bus (obj s)) = true ->
  Z_in a _DEV_ADDRS = true ->
  0 <= r < 11 ->
  exists res s',
    Rpi.on_bus (_Preamps.write_byte_data a r d) s = (res, s')
    /\ sound_step (res, s').
Proof.
  intros Hwf Ha Hr.
  destruct (on_bus_write_sound s a r d Hwf Ha Hr)
    as (res & s' & Hrun & Hs & _). eauto.
Qed.

(** Once the input is accepted, a setter on a well-formed table either
    returns or fails with the transport's [OSError], and the table stays
    well formed. *)
Lemma accepted_sound (c : call) (s : st Rpi.t) :
  well_formed (Rpi._bus (obj s)) = true ->
  rpi_validates c = true ->
  exists res s', run_call c s = (res, s') /\ sound_step (res, s').
Proof.
  intros Hwf Hv.
  destruct c as [digital | zone mutes | zone sources | zone vol];
    cbn [run_call].
  - destruct (update_sources_accepted digital s Hv) as (output & _ & ->).
    apply then_ret_sound, write_step_sound; try assumption;
      [reflexivity | unfold REG.SRC_AD; lia].
  - destruct (update_zone_mutes_accepted zone mutes s Hv)
      as (addr & cfg & Haddr & _ & ->).
    apply seq_sound.
    + apply write_step_sound; try assumption;
        [eapply getitem_DEV_ADDRS_member; eassumption
        | unfold REG.MUTE; lia].
    + intros s' Hwf'. apply then_ret_sound.
      now apply sync_standby_sound.
  - destruct (update_zone_sources_accepted zone sources s Hv)
      as (addr & cfg & Haddr & _ & ->).
    pose proof (getitem_DEV_ADDRS_member _ _ Haddr) as Ha.
    apply seq_sound.
    + apply write_step_sound; try assumption. unfold REG.CH123_SRC; lia.
    + intros s' Hwf'. apply then_ret_sound.
      apply write_step_sound; try assumption. unfold REG.CH456_SRC; lia.
  - rewrite update_zone_vol_accepted by assumption.
    cbn [rpi_validates] in Hv.
    apply andb_prop in Hv as [Hv _]. apply andb_prop in Hv as [Hz Hp].
    apply Z.leb_le in Hz. apply Z.ltb_lt in Hp.
    rewrite Z.quot_div_nonneg in Hp by lia.
    assert (Hh : 0 <= zone / 6 < 15)
      by (split; [apply Z.div_pos; lia | assumption]).
    pose proof (Z.mod_pos_bound zone 6 ltac:(lia)).
    apply then_ret_sound, write_step_sound; try assumption;
      [now apply DEV_ADDRS_member | unfold REG.CH1_ATTEN; lia].
Qed.

(** The checks of a setter are exactly [rpi_validates]. *)
Lemma rpi_validates_iff (c : call) (s : st Rpi.t) :
  well_formed (Rpi._bus (obj s)) = true ->
  rpi_validates c = true <-> not_rejected (fst (run_call c s)) = true.
Proof.
  intros Hwf. split.
  - intros Hv.
    destruct (accepted_sound c s Hwf Hv) as (res & s' & -> & [Hres _]).
    exact Hres.
  - intros Hr. destruct (rpi_validates c) eqn:Hv; [reflexivity|].
    destruct (rejected_untouched c s Hv) as (e & Hne & He).
    rewrite He in Hr. cbn in Hr. destruct e; congruence.
Qed.
End AcceptedSound.

(** * C9: the checks of [Mock] against the checks of [Rpi] *)

Lemma In_range (n x : Z) : In x (range n) <-> 0 <= x < n.
Proof.
  unfold range. rewrite in_map_iff. split.
  - intros (k & <- & Hk). apply in_seq in Hk. lia.
  - intros H. exists (Z.to_nat x). split; [lia|]. apply in_seq. lia.
Qed.

Lemma getitem_in_range {A} (l : list A) (i : Z) :
  0 <= i < len l -> exists v, getitem l i = Some v /\ In v l.
Proof.
  intros H. unfold getitem, len in *. rewrite py_pos_in_range by assumption.
  destruct (nth_error l (Z.to_nat i)) as [v|] eqn:Hn.
  - exists v. split; [reflexivity|]. eapply nth_error_In; eassumption.
  - apply nth_error_None in Hn. lia.
Qed.

Lemma forallb_getitem {A} (p : A -> bool) (l : list A) :
  forallb p l = true <->
  (forall i, 0 <= i < len l -> exists v, getitem l i = Some v /\ p v = true).
Proof.
  rewrite forallb_forall. split.
  - intros H i Hi. destruct (getitem_in_range l i Hi) as (v & Hv & Hin).
    exists v. auto.
  - intros H x Hx. apply In_nth_error in Hx as [n Hn].
    assert (Hlt : (n < length l)%nat) by (apply nth_error_Some; congruence).
    destruct (H (Z.of_nat n) ltac:(unfold len; lia)) as (v & Hv & Hp).
    unfold getitem in Hv. rewrite py_pos_in_range in Hv by lia.
    rewrite Nat2Z.id in Hv. congruence.
Qed.

Lemma for_ok_iff {X} (l : list X) (body : X -> result unit) :
  Mock.for_ l body = Ok tt <-> (forall x, In x l -> body x = Ok tt).
Proof.
  induction l as [|x l IH]; simpl.
  - split; [intros _ y [] | reflexivity].
  - unfold Mock.then_. split.
    + destruct (body x) as [[]|e] eqn:Hx; [|discriminate].
      intros H y [<- | Hy]; [assumption | now apply IH].
    + intros H. rewrite (H x (or_introl eq_refl)). apply IH.
      intros y Hy. apply H. now right.
Qed.

Lemma for_assert_forallb {X} (p : X -> bool) (l : list X) :
  Mock.for_ l (fun x => Mock.assert_ (p x)) = Ok tt <-> forallb p l = true.
Proof.
  rewrite for_ok_iff, forallb_forall. unfold Mock.assert_.
  split; intros H x Hx; specialize (H x Hx); destruct (p x); congruence.
Qed.

(** The double loop of [Mock.update_zone_mutes] and
    [Mock.update_zone_sources] visits every entry of the array. *)
Lemma mock_double_loop (p : pyval -> bool) (l : list pyval) (n : Z) :
  len l = n * 6 ->
  Mock.for_ (range n) (fun preamp =>
    Mock.for_ (range 6) (fun zid =>
      Mock.then_ (Mock.item l (preamp * 6 + zid)) (fun m =>
      Mock.assert_ (p m)))) = Ok tt
  <-> forallb p l = true.
Proof.
  intros Hlen. rewrite for_ok_iff, forallb_getitem. split.
  - intros H i Hi.
    assert (Hq : 0 <= i / 6 < n).
    { split; [apply Z.div_pos; lia | apply Z.div_lt_upper_bound; lia]. }
    pose proof (Z.mod_pos_bound i 6 ltac:(lia)) as Hm.
    specialize (H (i / 6) (proj2 (In_range _ _) Hq)).
    rewrite for_ok_iff in H.
    specialize (H (i mod 6) (proj2 (In_range _ _) Hm)).
    replace (i / 6 * 6 + i mod 6) with i in H
      by (rewrite (Z.div_mod i 6) at 1 by lia; ring).
    unfold Mock.then_, Mock.item, Mock.assert_ in H.
    destruct (getitem l i) as [v|]; [|discriminate].
    exists v. split; [reflexivity|]. destruct (p v); congruence.
  - intros H preamp Hp. apply In_range in Hp.
    apply for_ok_iff. intros zid Hz. apply In_range in Hz.
    destruct (H (preamp * 6 + zid) ltac:(lia)) as (v & Hv & Hpv).
    unfold Mock.then_, Mock.item, Mock.assert_. now rewrite Hv, Hpv.
Qed.

Lemma for_result_unit {X} (l : list X) (body : X -> result unit) :
  Mock.for_ l body = Ok tt \/ exists e, Mock.for_ l body = Raise e.
Proof.
  destruct (Mock.for_ l body) as [[]|e]; eauto.
Qed.

(** The checks of a [Mock] setter are exactly [mock_validates]. *)
Lemma mock_validates_iff (c : call) :
  run_mock c = Ok true <-> mock_validates c = true.
Proof.
  destruct c as [digital | zone mutes | zone sources | zone vol];
    cbn [run_mock mock_validates].
  - unfold Mock.update_sources.
    destruct (len digital =? 4); cbn; [|split; discriminate].
    rewrite <- for_assert_forallb.
    destruct (for_result_unit digital
                (fun flag => Mock.assert_ (isinstance_bool flag)))
      as [-> | [e ->]]; cbn; split; congruence.
  - unfold Mock.update_zone_mutes.
    destruct (6 <=? len mutes); cbn; [|split; discriminate].
    destruct (Z.eqb_spec (len mutes) (len mutes ÷ 6 * 6)) as [Heq|];
      cbn; [|split; discriminate].
    rewrite <- (mock_double_loop isinstance_bool mutes _ Heq).
    match goal with
    | |- context [Mock.for_ ?l ?b] =>
        destruct (for_result_unit l b) as [-> | [e ->]]
    end; cbn; split; congruence.
  - unfold Mock.update_zone_sources.
    destruct (6 <=? len sources); cbn; [|split; discriminate].
    destruct (Z.eqb_spec (len sources) (len sources ÷ 6 * 6)) as [Heq|];
      cbn; [|split; discriminate].
    rewrite <- (mock_double_loop
                  (fun src => isinstance_int src || is_None src)
                  sources _ Heq).
    match goal with
    | |- context [Mock.for_ ?l ?b] =>
        destruct (for_result_unit l b) as [-> | [e ->]]
    end; cbn; split; congruence.
  - unfold Mock.update_zone_vol.
    destruct (0 <=? zone); cbn; [|split; discriminate].
    destruct ((0 <=? zone / 6) && (zone / 6 <=? 15)); cbn;
      [|split; discriminate].
    destruct ((vol <=? 0) && (-79 <=? vol)); cbn; split; congruence.
Qed.

(** Whatever [Mock] returns is [True]. *)
Lemma mock_returns_True (c : call) (b : bool) :
  run_mock c = Ok b -> b = true.
Proof.
  destruct c as [digital | zone mutes | zone sources | zone vol];
    cbn [run_mock];
    unfold Mock.update_sources, Mock.update_zone_mutes,
      Mock.update_zone_sources, Mock.update_zone_vol, Mock.then_;
    repeat match goal with
           | |- context [match ?x with Ok _ => _ | Raise _ => _ end] =>
               destruct x; try discriminate
           end;
    congruence.
Qed.

Lemma getitem_In {A} (l : list A) (i : Z) (v : A) :
  getitem l i = Some v -> In v l.
Proof.
  unfold getitem. destruct (py_pos (length l) i) as [k|]; [|discriminate].
  apply nth_error_In.
Qed.

(** When every entry of the array passes [p], so does every entry a zone
    picks. *)
Lemma all_present_of_forallb (p : pyval -> bool) (l : list pyval) (zone : Z) :
  forallb p l = true ->
  all_present p (addressed l zone)
  = all_present (fun _ => true) (addressed l zone).
Proof.
  intros Hall. rewrite !all_present_addressed.
  induction (range 6) as [|z r IH]; [reflexivity|].
  cbn [forallb]. rewrite IH. f_equal.
  destruct (getitem l (zone / 6 * 6 + z)) as [v|] eqn:Hv; [|reflexivity].
  exact (proj1 (forallb_forall p l) Hall v (getitem_In _ _ _ Hv)).
Qed.

(** The two zone checks of [update_zone_vol] differ in zones 90..95
    alone. *)
Lemma vol_checks (zone : Z) :
  let mock := (0 <=? zone) && ((0 <=? zone / 6) && (zone / 6 <=? 15)) in
  let rpi := (0 <=? zone) && (zone ÷ 6 <? 15) in
  if (90 <=? zone) && (zone <=? 95) then mock = true /\ rpi = false
  else mock = rpi.
Proof.
  cbv zeta. destruct (Z.leb_spec 0 zone) as [Hz|Hz].
  - rewrite Z.quot_div_nonneg by lia.
    pose proof (Z.div_pos zone 6 Hz ltac:(lia)) as Hq.
    pose proof (Z.mod_pos_bound zone 6 ltac:(lia)).
    pose proof (Z.div_mod zone 6 ltac:(lia)).
    destruct (Z.leb_spec 0 (zone / 6)); [|lia].
    destruct (Z.leb_spec 90 zone); destruct (Z.leb_spec zone 95);
      destruct (Z.leb_spec (zone / 6) 15);
      destruct (Z.ltb_spec (zone / 6) 15); cbn;
      try split; try reflexivity; lia.
  - destruct (Z.leb_spec 90 zone); [lia | reflexivity].
Qed.

(** The common ground is where the checks of the two runtimes come to the
    same verdict, and nowhere else. *)
Lemma common_ground_spec (c : call) :
  common_ground c = Bool.eqb (mock_validates c) (rpi_validates c).
Proof.
  destruct c as [digital | zone mutes | zone sources | zone vol];
    cbn [common_ground mock_validates rpi_validates].
  - change (forallb isinstance_bool digital)
      with (forallb type_is_bool digital).
    now rewrite eqb_reflx.
  - change (forallb isinstance_bool mutes) with (forallb type_is_bool mutes).
    unfold length_ok, selected.
    destruct ((6 <=? len mutes) && (len mutes =? len mutes ÷ 6 * 6));
      [|reflexivity].
    cbn [negb orb andb].
    destruct (forallb type_is_bool mutes) eqn:Hall.
    + rewrite (all_present_of_forallb _ _ zone Hall).
      now destruct (all_present (fun _ => true) (addressed mutes zone)
                    && is_Some (getitem _DEV_ADDRS (zone / 6))).
    + now destruct (all_present type_is_bool (addressed mutes zone)
                    && is_Some (getitem _DEV_ADDRS (zone / 6))).
  - unfold length_ok, selected.
    destruct ((6 <=? len sources) && (len sources =? len sources ÷ 6 * 6));
      [|reflexivity].
    cbn [negb orb andb].
    destruct (forallb (fun src => isinstance_int src || is_None src)
                sources);
      now destruct (all_present type_is_int (addressed sources zone)
                    && is_Some (getitem _DEV_ADDRS (zone / 6))).
  - pose proof (vol_checks zone) as H. cbv zeta in H.
    destruct ((90 <=? zone) && (zone <=? 95)).
    + destruct H as [-> ->].
      now destruct ((vol <=? 0) && (-79 <=? vol)).
    + rewrite H. now rewrite eqb_reflx.
Qed.

(** On the common ground the two sets of checks accept the same inputs. *)
Lemma common_ground_same_checks (c : call) :
  common_ground c = true -> mock_validates c = rpi_validates c.
Proof. rewrite common_ground_spec. apply eqb_prop. Qed.

(** C9 (as amended): [Mock] returns [True] exactly when [Rpi] does not
    reject the input, and exactly when the input meets the contract that
    [Mock] checks (length, type of every entry, ranges), on every
    [update_sources] call; on every [update_zone_vol] call but those with
    a zone in 90..95 and a volume in range; and on an [update_zone_mutes]
    or [update_zone_sources] call when the array breaks the length
    contract, or when every entry has a type [Mock] accepts and the zone
    picks six entries that [Rpi] accepts and a device address, or when
    some entry has a type [Mock] refuses and the zone picks no six
    entries that [Rpi] accepts with a device address.  [Mock] never
    returns anything but [True]. *)
Theorem mock_agrees_with_rpi_on_common_ground {E : Env} (c : call)
    (s : st Rpi.t) :
  well_formed (Rpi._bus (obj s)) = true ->
  common_ground c = true ->
  (run_mock c = Ok true <-> not_rejected (fst (run_call c s)) = true)
  /\ (run_mock c = Ok true <-> mock_validates c = true)
  /\ (forall b, run_mock c = Ok b -> b = true).
Proof.
  intros Hwf Hc.
  split; [|split; [apply mock_validates_iff | apply mock_returns_True]].
  rewrite mock_validates_iff, (common_ground_same_checks c Hc).
  now apply rpi_validates_iff.
Qed.

Lemma mock_agrees_with_rpi_on_common_ground_witness :
  let mutes :=
    [PBool true; PBool true; PBool true; PBool true; PBool true; PBool true;
     PBool true; PBool false; PBool true; PBool true; PBool true; PBool true]
  in
  let c := Update_zone_mutes 7 mutes in
  let s := rpi_boot (env_boards 2) in
  (run_mock c = Ok true <->
   not_rejected (fst (run_call (E := env_boards 2) c s)) = true)
  /\ (run_mock c = Ok true <-> mock_validates c = true)
  /\ (forall b, run_mock c = Ok b -> b = true).
Proof.
  intros mutes c s.
  apply (mock_agrees_with_rpi_on_common_ground (E := env_boards 2) c s);
    reflexivity.
Defined.

(** Off the common ground the two runtimes do give different verdicts:
    nothing on which they agree is left out of it. *)
Lemma checks_differ_off_common_ground {E : Env} (c : call) (s : st Rpi.t) :
  well_formed (Rpi._bus (obj s)) = true ->
  common_ground c = false ->
  ~ (run_mock c = Ok true <-> not_rejected (fst (run_call c s)) = true).
Proof.
  intros Hwf Hc. rewrite mock_validates_iff, <- (rpi_validates_iff c s Hwf).
  rewrite common_ground_spec in Hc.
  destruct (mock_validates c), (rpi_validates c); try discriminate;
    intros [H1 H2]; [specialize (H1 eq_refl) | specialize (H2 eq_refl)];
    discriminate.
Qed.

(** On the common ground types are checked: a [None] among the six flags
    the zone picks is refused by both runtimes. *)
Example both_refuse_wrong_flag :
  let s := rpi_boot (env_boards 1) in
  let c := Update_zone_mutes 0 [PNone; PBool true; PBool true; PBool true;
                                PBool true; PBool true] in
  common_ground c = true
  /\ run_mock c = Raise AssertionError
  /\ run_call (E := env_boards 1) c s = (Raise AssertionError, s).
Proof. vm_compute. repeat split. Qed.

(** A negative zone counts from the end of the array and of the address
    table: zone -1 picks the six flags of a six-zone array and the last
    device address, so both runtimes accept the call. *)
Example both_accept_zone_from_the_end :
  let s := rpi_boot (env_boards 1) in
  let c := Update_zone_mutes (-1) [PBool true; PBool true; PBool true;
                                   PBool true; PBool true; PBool true] in
  common_ground c = true
  /\ run_mock c = Ok true
  /\ fst (run_call (E := env_boards 1) c s) = Ok true.
Proof. vm_compute. repeat split. Qed.

(** C9 as stated fails in both directions: [Rpi] checks only the six flags
    of the addressed board and so accepts (and writes) an array that [Mock]
    refuses; [Mock] ignores the zone and so accepts a call whose zone lies
    outside the array, which [Rpi] refuses with [IndexError]. *)
Lemma mock_and_rpi_checks_differ :
  let s := rpi_boot (env_boards 1) in
  let half :=
    [PBool true; PBool false; PBool true; PBool true; PBool true; PBool true;
     PNone; PNone; PNone; PNone; PNone; PNone] in
  let six :=
    [PBool true; PBool true; PBool true; PBool true; PBool true; PBool true]
  in
  (run_mock (Update_zone_mutes 0 half) = Raise AssertionError /\
   fst (run_call (E := env_boards 1) (Update_zone_mutes 0 half) s) = Ok true)
  /\
  (run_mock (Update_zone_mutes 6 six) = Ok true /\
   run_call (E := env_boards 1) (Update_zone_mutes 6 six) s
   = (Raise IndexError, s)).
Proof. vm_compute. repeat split. Qed.

(** * C4: enumeration builds a chain without gaps *)

#[local] Arguments Preamps.enumerate_loop : simpl never.

Section Enumerate.
Context {E : Env}.

Lemma available_run {O} (p : Preamp.t) (s : st O) :
  Preamp.available p s
  = (Ok (ack E (trace s) (Preamp.addr p) Preamp.Reg.VERSION_MAJOR 0),
     mkst (obj s)
          (trace s ++ [SMBus_write_byte_data (Preamp.addr p)
                         Preamp.Reg.VERSION_MAJOR 0
                         (ack E (trace s) (Preamp.addr p)
                            Preamp.Reg.VERSION_MAJOR 0)])).
Proof.
  unfold Preamp.available, smbus_write.
  destruct (ack E (trace s) (Preamp.addr p) Preamp.Reg.VERSION_MAJOR 0);
    reflexivity.
Qed.

Lemma probes_answered_snoc (k n : nat) :
  probes_answered k (S n)
  = probe (Z.of_nat k) true :: probes_answered (S k) n.
Proof. reflexivity. Qed.

(** The loop started at hop [k] with [n] hops left to try. *)
Lemma enumerate_loop_run (n : nat) :
  forall (k : nat) (ps : list Preamp.t) (t : list event),
  exists j : nat,
    (j <= n)%nat
    /\ Preamps.enumerate_loop (hops k n) (mkst (Preamps.mk ps) t)
       = (Ok tt,
          mkst (Preamps.mk (ps ++ map Preamp.__init__ (hops k j)))
               (t ++ probes_answered k j
                  ++ (if (j <? n)%nat
                      then [probe (Z.of_nat (k + j)) false] else [])))
    /\ (forall i, (i < j)%nat ->
          answers E (t ++ probes_answered k i) (Z.of_nat (k + i)) = true)
    /\ ((j < n)%nat ->
          answers E (t ++ probes_answered k j) (Z.of_nat (k + j)) = false).
Proof.
  induction n as [|n IH]; intros k ps t.
  - exists 0%nat. cbn. rewrite !app_nil_r.
    repeat split; intros; lia.
  - change (hops k (S n)) with (Z.of_nat k :: hops (S k) n).
    unfold Preamps.enumerate_loop; fold (@Preamps.enumerate_loop E).
    cbv zeta. unfold bind at 1. rewrite available_run.
    cbn [obj trace Preamp.addr Preamp.__init__].
    change (ack E t ((Z.of_nat k + 1) * 8) Preamp.Reg.VERSION_MAJOR 0)
      with (answers E t (Z.of_nat k)).
    destruct (answers E t (Z.of_nat k)) eqn:Hans; cbn [negb].
    + destruct (IH (S k) (ps ++ [Preamp.__init__ (Z.of_nat k)])
                  (t ++ [probe (Z.of_nat k) true]))
        as (j & Hj & Hrun & Hyes & Hno).
      exists (S j). split; [lia|]. split; [|split].
      * unfold bind, get, put. cbn [obj trace Preamps.preamps].
        fold (probe (Z.of_nat k) true). rewrite Hrun.
        change (hops k (S j)) with (Z.of_nat k :: hops (S k) j).
        rewrite probes_answered_snoc. cbn [map].
        rewrite <- !app_assoc. cbn [app].
        replace (S k + j)%nat with (k + S j)%nat by lia.
        reflexivity.
      * intros [|i] Hi.
        -- cbn. rewrite app_nil_r, Nat.add_0_r. exact Hans.
        -- rewrite probes_answered_snoc.
           replace (k + S i)%nat with (S k + i)%nat by lia.
           specialize (Hyes i ltac:(lia)).
           now rewrite <- app_assoc in Hyes.
      * intros Hlt. rewrite probes_answered_snoc.
        replace (k + S j)%nat with (S k + j)%nat by lia.
        specialize (Hno ltac:(lia)). now rewrite <- app_assoc in Hno.
    + exists 0%nat. split; [lia|]. split; [|split].
      * cbn. rewrite app_nil_r, Nat.add_0_r. reflexivity.
      * intros i Hi; lia.
      * intros _. cbn. rewrite app_nil_r, Nat.add_0_r. exact Hans.
Qed.

Lemma range_hops (n : nat) : range (Z.of_nat n) = hops 0 n.
Proof. unfold range, hops. now rewrite Nat2Z.id. Qed.

(** [enumerate] on any state. *)
Lemma enumerate_run (s : st Preamps.t) :
  exists L : nat,
    (L <= Z.to_nat Preamps.MAX_UNITS)%nat
    /\ Preamps.enumerate s
       = (Ok tt, mkst (Preamps.mk (chain L)) (trace s ++ enumerate_events L))
    /\ (forall i, (i < L)%nat ->
          answers E (trace s ++ probes_answered 0 i) (Z.of_nat i) = true)
    /\ ((L < Z.to_nat Preamps.MAX_UNITS)%nat ->
          answers E (trace s ++ probes_answered 0 L) (Z.of_nat L) = false).
Proof.
  destruct (enumerate_loop_run (Z.to_nat Preamps.MAX_UNITS) 0 [] (trace s))
    as (L & HL & Hrun & Hyes & Hno).
  exists L. split; [assumption|]. split; [|split; assumption].
  unfold Preamps.enumerate, bind, put.
  change (range Preamps.MAX_UNITS)
    with (range (Z.of_nat (Z.to_nat Preamps.MAX_UNITS))).
  rewrite range_hops. cbn [obj trace]. rewrite Hrun. reflexivity.
Qed.

Lemma chain_addresses (L : nat) :
  map Preamp.addr (chain L) = map (fun hop => (hop + 1) * 8) (hops 0 L).
Proof. unfold chain. rewrite map_map. reflexivity. Qed.

(** C4: whatever chain was known before, [enumerate] returns with the
    chain made exactly of the boards at hops [0 .. L-1], in increasing
    order and at the addresses [(hop + 1) * 8], for some [L <= 6]; every
    hop below [L] answered its probe, and hop [L] did not unless [L] is
    the maximum of six units.  Nothing else went over the bus. *)
Theorem enumerate_contiguous_chain (s : st Preamps.t) :
  exists L : nat,
    (L <= Z.to_nat Preamps.MAX_UNITS)%nat
    /\ Preamps.enumerate s
       = (Ok tt,
          mkst (Preamps.mk (chain L)) (trace s ++ enumerate_events L))
    /\ map Preamp.addr (chain L)
       = map (fun hop => (hop + 1) * 8) (hops 0 L)
    /\ (forall i, (i < L)%nat ->
          answers E (trace s ++ probes_answered 0 i) (Z.of_nat i) = true)
    /\ ((L < Z.to_nat Preamps.MAX_UNITS)%nat ->
          answers E (trace s ++ probes_answered 0 L) (Z.of_nat L) = false).
Proof.
  destruct (enumerate_run s) as (L & HL & Hrun & Hyes & Hno).
  exists L. split; [assumption|]. split; [assumption|].
  split; [apply chain_addresses|]. split; assumption.
Qed.
End Enumerate.

Lemma enumerate_contiguous_chain_witness :
  exists L : nat,
    (L <= 6)%nat
    /\ Preamps.enumerate (E := env_boards 3)
         (mkst (Preamps.mk [Preamp.mk 8; Preamp.mk 16; Preamp.mk 24;
                            Preamp.mk 32]) [])
       = (Ok tt, mkst (Preamps.mk (chain L)) ([] ++ enumerate_events L))
    /\ map Preamp.addr (chain L) = map (fun hop => (hop + 1) * 8) (hops 0 L)
    /\ (forall i, (i < L)%nat ->
          answers (env_boards 3) ([] ++ probes_answered 0 i) (Z.of_nat i)
          = true)
    /\ ((L < 6)%nat ->
          answers (env_boards 3) ([] ++ probes_answered 0 L) (Z.of_nat L)
          = false).
Proof.
  exact (enumerate_contiguous_chain (E := env_boards 3)
           (mkst (Preamps.mk [Preamp.mk 8; Preamp.mk 16; Preamp.mk 24;
                              Preamp.mk 32]) [])).
Defined.

(** On hardware with three boards the chain found has length three, and a
    fourth board known from before is gone. *)
Example enumerate_three_boards :
  Preamps.enumerate (E := env_boards 3)
    (mkst (Preamps.mk [Preamp.mk 8; Preamp.mk 16; Preamp.mk 24; Preamp.mk 32])
       [])
  = (Ok tt,
     mkst (Preamps.mk [Preamp.mk 8; Preamp.mk 16; Preamp.mk 24])
          [probe 0 true; probe 1 true; probe 2 true; probe 3 false]).
Proof. reflexivity. Qed.

(** * C6: the build hash read back by [read_version] *)

(** The four registers assembled as [read_version] does give the hash
    back. *)
Lemma git_hash_roundtrip (h : Z) (d : bool) :
  0 <= h < 2 ^ 28 ->
  let '(r27_20, r19_12, r11_04, status) := encode_build h d in
  Z.lor (Z.lor (Z.lor (Z.shiftl r27_20 20) (Z.shiftl r19_12 12))
           (Z.shiftl r11_04 4)) (Z.shiftr status 4) = h.
Proof.
  intros H. cbn [encode_build].
  rewrite <- (Z.mod_small h (2 ^ 28)) at 5 by lia.
  rewrite <- (Z.land_ones h 28) by lia.
  change 0xFF with (Z.ones 8). change 0xF with (Z.ones 4).
  destruct d; cbn [Z.b2z].
  - change 1 with (Z.ones 1). Z.bitblast.
  - rewrite Z.lor_0_r. Z.bitblast.
Qed.

Lemma dirty_bit_roundtrip (h : Z) (d : bool) :
  let '(_, _, _, status) := encode_build h d in
  negb (Z.land status 0x01 =? 0) = d.
Proof.
  cbn [encode_build].
  assert (H : Z.land (Z.lor (Z.shiftl (Z.land h 15) 4) (Z.b2z d)) 1
              = Z.b2z d).
  { change 15 with (Z.ones 4).
    destruct d; cbn [Z.b2z].
    - change 1 with (Z.ones 1). Z.bitblast.
    - rewrite Z.lor_0_r. change 1 with (Z.ones 1). Z.bitblast. }
  rewrite H. now destruct d.
Qed.

Section ReadVersion.
Context {E : Env} {O : Type}.

Lemma smbus_read_served (a r : Z) (regs : Z -> option Z) (v : Z) (s : st O) :
  serves E a regs ->
  regs r = Some v ->
  smbus_read E a r s
  = (Ok v, mkst (obj s) (trace s ++ [SMBus_read_byte_data a r (regs r)])).
Proof.
  intros Hs Hr. unfold smbus_read. rewrite (Hs (trace s) r), Hr.
  reflexivity.
Qed.

(** [read_version] on a board whose six version registers can be read. *)
Lemma read_version_run (self : Preamp.t) (s : st O) (regs : Z -> option Z)
    (major minor r27_20 r19_12 r11_04 status : Z) :
  serves E (Preamp.addr self) regs ->
  regs Preamp.Reg.VERSION_MAJOR = Some major ->
  regs Preamp.Reg.VERSION_MINOR = Some minor ->
  regs Preamp.Reg.GIT_HASH_27_20 = Some r27_20 ->
  regs Preamp.Reg.GIT_HASH_19_12 = Some r19_12 ->
  regs Preamp.Reg.GIT_HASH_11_04 = Some r11_04 ->
  regs Preamp.Reg.GIT_HASH_STATUS = Some status ->
  Preamp.read_version self s
  = (Ok (major, minor,
         Z.lor (Z.lor (Z.lor (Z.shiftl r27_20 20) (Z.shiftl r19_12 12))
                  (Z.shiftl r11_04 4)) (Z.shiftr status 4),
         negb (Z.land status 0x01 =? 0)),
     mkst (obj s) (trace s ++ version_reads (Preamp.addr self) regs)).
Proof.
  intros Hs H1 H2 H3 H4 H5 H6. unfold Preamp.read_version.
  repeat (erewrite bind_ok;
          [| eapply smbus_read_served; [exact Hs | eassumption] ]).
  cbn [obj trace]. unfold ret, version_reads. cbn [map].
  repeat rewrite <- app_assoc. reflexivity.
Qed.

(** The registers of [encode_build] are bytes. *)
Lemma encode_build_bytes (h : Z) (d : bool) :
  0 <= h < 2 ^ 28 ->
  let '(r27_20, r19_12, r11_04, status) := encode_build h d in
  0 <= r27_20 < 256 /\ 0 <= r19_12 < 256 /\ 0 <= r11_04 < 256
  /\ 0 <= status < 256.
Proof.
  intros H. cbn [encode_build].
  assert (Hstatus : Z.land (Z.lor (Z.shiftl (Z.land h 0xF) 4) (Z.b2z d))
                      (Z.ones 8)
                    = Z.lor (Z.shiftl (Z.land h 0xF) 4) (Z.b2z d)).
  { change 0xF with (Z.ones 4).
    destruct d; cbn [Z.b2z].
    - change 1 with (Z.ones 1). Z.bitblast.
    - rewrite Z.lor_0_r. Z.bitblast. }
  rewrite <- Hstatus. change 0xFF with (Z.ones 8).
  rewrite !Z.land_ones by lia.
  repeat split; apply Z.mod_pos_bound; lia.
Qed.

(** C6: [read_version] makes six reads and returns the hash
    [(GIT_HASH_27_20 << 20) | (GIT_HASH_19_12 << 12) | (GIT_HASH_11_04 << 4)
    | (GIT_HASH_STATUS >> 4)] with bit 0 of GIT_HASH_STATUS as the dirty
    flag; so on a board whose version registers hold the decomposition of
    a 28-bit hash [h] and a dirty flag [d] by that layout it returns
    [(major, minor, h, d)]. *)
Theorem read_version_roundtrip (self : Preamp.t) (s : st O)
    (major minor h : Z) (d : bool) :
  0 <= h < 2 ^ 28 ->
  serves E (Preamp.addr self) (version_registers major minor h d) ->
  let '(r27_20, r19_12, r11_04, status) := encode_build h d in
  Preamp.read_version self s
  = (Ok (major, minor,
         Z.lor (Z.lor (Z.lor (Z.shiftl r27_20 20) (Z.shiftl r19_12 12))
                  (Z.shiftl r11_04 4)) (Z.shiftr status 4),
         negb (Z.land status 0x01 =? 0)),
     mkst (obj s)
          (trace s ++ version_reads (Preamp.addr self)
                        (version_registers major minor h d)))
  /\ Preamp.read_version self s
     = (Ok (major, minor, h, d),
        mkst (obj s)
             (trace s ++ version_reads (Preamp.addr self)
                           (version_registers major minor h d))).
Proof.
  intros Hh Hs.
  pose proof (git_hash_roundtrip h d Hh) as Hhash.
  pose proof (dirty_bit_roundtrip h d) as Hdirty.
  cbn [encode_build] in *.
  rewrite (read_version_run self s _ major minor _ _ _ _ Hs
             eq_refl eq_refl eq_refl eq_refl eq_refl eq_refl).
  split; [reflexivity|]. now rewrite Hhash, Hdirty.
Qed.
End ReadVersion.

Lemma read_version_roundtrip_witness :
  let E := env_firmware 1 1 2 0xABCDEF1 true in
  0 <= 0xABCDEF1 < 2 ^ 28 /\
  Preamp.read_version (E := E) (Preamp.__init__ 0) (mkst tt [])
  = (Ok (1, 2, 0xABCDEF1, true),
     mkst tt ([] ++ version_reads 8 (version_registers 1 2 0xABCDEF1 true))).
Proof.
  intros E. split; [lia|].
  apply (read_version_roundtrip (E := E) (Preamp.__init__ 0) (mkst tt [])
           1 2 0xABCDEF1 true); [lia|].
  intros t r. reflexivity.
Defined.

(** * C8: the reset protocol *)

Lemma nth_error_hops (k n i : nat) :
  (i < n)%nat -> nth_error (hops k n) i = Some (Z.of_nat (k + i)).
Proof.
  intros H. unfold hops. apply map_nth_error.
  rewrite (nth_error_nth' _ 0%nat) by (now rewrite length_seq).
  now rewrite seq_nth.
Qed.

Lemma length_chain (L : nat) : length (chain L) = L.
Proof. unfold chain, hops. now rewrite !length_map, length_seq. Qed.

Lemma getitem_chain (L : nat) (i : Z) :
  0 <= i < Z.of_nat L -> getitem (chain L) i = Some (Preamp.__init__ i).
Proof.
  intros H. unfold getitem. rewrite length_chain.
  rewrite py_pos_in_range by assumption.
  unfold chain. erewrite map_nth_error; [|apply nth_error_hops; lia].
  cbn. now rewrite Z2Nat.id by lia.
Qed.

Section Reset.
Context {E : Env}.

Lemma _reset_master_run (bootloader : bool) (s : st Preamps.t) :
  Preamps._reset_master bootloader s
  = (Ok tt, mkst (obj s) (trace s ++ master_reset_events bootloader)).
Proof.
  unfold Preamps._reset_master, bind, emit, sleep. cbn.
  now repeat rewrite <- app_assoc.
Qed.

(** [reset(unit=0, bootloader=True)]: the pulse with BOOT0 high and a short
    delay; no address frame and no enumeration. *)
Lemma reset_into_bootloader (s : st Preamps.t) :
  Preamps.reset 0 true s
  = (Ok tt, mkst (obj s) (trace s ++ master_reset_events true ++ [Sleep 10])).
Proof.
  unfold Preamps.reset. cbn [Z.eqb].
  run_ok (_reset_master_run true s).
  unfold sleep, emit. cbn. now rewrite <- app_assoc.
Qed.

(** [reset(unit=0, bootloader=False)] up to the enumeration it ends with. *)
Lemma reset_master_then_enumerate (s : st Preamps.t) :
  let answered :=
    answers E (trace s ++ master_reset_events false
                 ++ [Serial_write 115200 address_frame]) 0 in
  Preamps.reset 0 false s
  = Preamps.enumerate
      (mkst (obj s) (trace s ++ reset_master_events answered)).
Proof.
  intros answered. unfold Preamps.reset. cbn [Z.eqb].
  run_ok (_reset_master_run false s).
  unfold bind at 1. unfold emit at 1. cbn [obj trace].
  unfold bind at 1. rewrite available_run. cbn [obj trace Preamp.addr
    Preamp.__init__].
  rewrite <- !app_assoc.
  change (ack E _ ((0 + 1) * 8) Preamp.Reg.VERSION_MAJOR 0)
    with answered.
  unfold reset_master_events.
  destruct answered; cbn [negb].
  - unfold bind, ret, sleep, emit. cbn.
    now repeat rewrite <- app_assoc.
  - unfold bind at 1. unfold bind at 1. rewrite _reset_master_run.
    unfold bind, ret, sleep, emit. cbn.
    now repeat rewrite <- app_assoc.
Qed.

(** The full reset of the master, with what the enumeration learnt. *)
Lemma reset_master_run (s : st Preamps.t) :
  let answered :=
    answers E (trace s ++ master_reset_events false
                 ++ [Serial_write 115200 address_frame]) 0 in
  exists L : nat,
    (L <= Z.to_nat Preamps.MAX_UNITS)%nat /\
    Preamps.reset 0 false s
    = (Ok tt,
       mkst (Preamps.mk (chain L))
            (trace s ++ reset_master_events answered ++ enumerate_events L))
    /\ ((L < Z.to_nat Preamps.MAX_UNITS)%nat ->
        answers E ((trace s ++ reset_master_events answered)
                     ++ probes_answered 0 L) (Z.of_nat L) = false).
Proof.
  intros answered.
  destruct (enumerate_run
              (mkst (obj s) (trace s ++ reset_master_events answered)))
    as (L & HL & Hrun & _ & Hno).
  exists L. split; [assumption|]. split; [|exact Hno].
  rewrite reset_master_then_enumerate. fold answered. rewrite Hrun.
  cbn [trace]. now rewrite <- app_assoc.
Qed.

(** C8: [reset(unit=0, bootloader=False)] pulses the reset line, sends the
    four bytes [0x41 0x10 0x0D 0x0A] at 115200 baud and probes the master;
    exactly when the probe is not answered it pulses the reset line a second
    time and sends the same frame at 9600 baud; after the settle delay it
    enumerates.  For a unit above 0 of the known chain nothing is done on
    GPIO or UART: the reset goes through two writes to the EXPANSION
    register of the board at hop [unit - 1] (address [unit * 8]). *)
Theorem reset_protocol :
  (forall s : st Preamps.t,
    let answered :=
      answers E (trace s ++ master_reset_events false
                   ++ [Serial_write 115200 address_frame]) 0 in
    exists L : nat,
      (L <= Z.to_nat Preamps.MAX_UNITS)%nat /\
      Preamps.reset 0 false s
      = (Ok tt,
         mkst (Preamps.mk (chain L))
              (trace s ++ reset_master_events answered
                 ++ enumerate_events L)))
  /\
  (forall (s : st Preamps.t) (unit : Z) (bootloader : bool) (L : nat),
    Preamps.preamps (obj s) = chain L ->
    (L <= Z.to_nat Preamps.MAX_UNITS)%nat ->
    0 < unit <= Z.of_nat L ->
    let a := unit * 8 in
    let reg_val := if bootloader then 2 else 0 in
    let a1 := ack E (trace s) a Preamp.Reg.EXPANSION reg_val in
    let a2 :=
      ack E (trace s ++ [SMBus_write_byte_data a Preamp.Reg.EXPANSION
                           reg_val true; Sleep 10])
        a Preamp.Reg.EXPANSION (Z.lor reg_val 1) in
    Preamps.reset unit bootloader s
    = (if a1 && a2 then Ok tt else Raise OSError,
       mkst (obj s)
            (trace s ++ expander_reset_events a bootloader unit a1 a2))
    /\ existsb is_gpio_or_serial
         (expander_reset_events a bootloader unit a1 a2) = false).
Proof.
  split.
  - intros s answered.
    destruct (reset_master_run s) as (L & HL & Hrun & _).
    exists L. split; assumption.
  - intros s unit bootloader L Hchain HL Hunit a reg_val a1 a2.
    split.
    2:{ unfold expander_reset_events. fold reg_val.
        destruct a1, a2; reflexivity. }
    unfold Preamps.reset.
    destruct (Z.eqb_spec unit 0) as [|_]; [lia|].
    assert (Hget : Preamps.__getitem__ (unit - 1) s
                   = (Ok (Preamp.__init__ (unit - 1)), s)).
    { unfold Preamps.__getitem__, bind, get. rewrite Hchain.
      rewrite getitem_chain by lia. reflexivity. }
    run_ok Hget.
    unfold Preamp.reset_expander, Preamp.__init__. cbn [Preamp.addr].
    replace ((unit - 1 + 1) * 8) with a by (unfold a; lia).
    fold reg_val. unfold expander_reset_events. fold reg_val.
    unfold bind at 1. unfold bind at 1. unfold smbus_write at 1.
    fold a1. destruct a1; cbn [andb]; [|reflexivity].
    unfold bind at 1. unfold sleep at 1. cbn [Z.ltb Z.compare].
    unfold emit at 1. cbn [obj trace].
    unfold bind at 1. unfold smbus_write at 1. cbn [obj trace].
    rewrite <- !app_assoc. cbn [app]. fold a2.
    destruct a2; [|reflexivity].
    unfold sleep, emit. cbn [Z.ltb Z.compare obj trace].
    change (Z.to_nat Preamps.MAX_UNITS) with 6%nat in HL.
    destruct (Z.ltb_spec (10 * (Preamps.MAX_UNITS - unit)) 0) as [Hneg|_].
    { unfold Preamps.MAX_UNITS in Hneg. lia. }
    cbn [obj trace]. now repeat rewrite <- app_assoc.
Qed.
End Reset.

Lemma reset_protocol_witness :
  let s := mkst (Preamps.mk (chain 2)) [] in
  Preamps.preamps (obj s) = chain 2 /\ (2 <= 6)%nat /\ 0 < 1 <= 2 /\
  Preamps.reset (E := env_boards 2) 1 false s
  = (Ok tt, mkst (obj s) ([] ++ expander_reset_events 8 false 1 true true)).
Proof.
  intros s. split; [reflexivity|]. split; [lia|]. split; [lia|].
  exact (proj1 (proj2 (reset_protocol (E := env_boards 2)) s 1 false 2%nat
                  eq_refl ltac:(cbn; lia) ltac:(lia))).
Defined.

(** On hardware with one board running firmware that answers at 115200
    baud, a full reset needs no fallback. *)
Example reset_master_one_board :
  Preamps.reset (E := env_boards 1) 0 false (mkst (Preamps.mk []) [])
  = (Ok tt,
     mkst (Preamps.mk [Preamp.mk 8])
          (master_reset_events false
           ++ [Serial_write 115200 [0x41; 0x10; 0x0D; 0x0A]; probe 0 true;
               Sleep 60; probe 0 true; probe 1 false])).
Proof. reflexivity. Qed.

(** With no board answering, the fallback at 9600 baud is made once. *)
Example reset_master_no_board :
  Preamps.reset (E := env_boards 0) 0 false (mkst (Preamps.mk []) [])
  = (Ok tt,
     mkst (Preamps.mk [])
          (master_reset_events false
           ++ [Serial_write 115200 [0x41; 0x10; 0x0D; 0x0A]; probe 0 false]
           ++ master_reset_events false
           ++ [Serial_write 9600 [0x41; 0x10; 0x0D; 0x0A];
               Sleep 60; probe 0 false])).
Proof. reflexivity. Qed.

(** * C7: flashing *)

Section Flash.
Context {E : Env}.

Lemma bind_ret_tt {O} (m : M O unit) (s : st O) : (m ;; ret tt) s = m s.
Proof.
  unfold bind, ret. destruct (m s) as [[[]|e] s']; reflexivity.
Qed.

(** A baud rate outside the list is refused before anything is done. *)
Lemma flash_bad_baud (filepath : string) (baud : Z) (s : st Preamps.t) :
  Z_in baud Preamps.BAUD_RATES = false ->
  Preamps.flash filepath baud s = (Raise ValueError, s).
Proof. intros H. unfold Preamps.flash. now rewrite H. Qed.

(** With no board known the loop of [flash] runs once, for unit 0. *)
Lemma flash_empty_chain (filepath : string) (baud : Z) (s : st Preamps.t) :
  Z_in baud Preamps.BAUD_RATES = true ->
  Preamps.preamps (obj s) = [] ->
  Preamps.flash filepath baud s = Preamps.flash_unit filepath baud 0 s.
Proof.
  intros Hb Hp. unfold Preamps.flash. rewrite Hb. cbn [negb].
  unfold bind at 1. cbn [get]. unfold Preamps.__len__. rewrite Hp.
  cbn [len length Z.of_nat Z.eqb].
  change (range 1) with [0]. rewrite foreach_cons.
  change (foreach [] (Preamps.flash_unit filepath baud))
    with (ret (O := Preamps.t) tt).
  apply bind_ret_tt.
Qed.

(** [read_version] on a board whose registers can be read from the
    history [t0] on. *)
Lemma read_version_after (self : Preamp.t) (s : st Preamps.t)
    (t0 : list event) (vals : Z -> Z) :
  (exists t', trace s = t0 ++ t') ->
  (forall t' r, peek E (t0 ++ t') (Preamp.addr self) r = Some (vals r)) ->
  exists v,
    Preamp.read_version self s
    = (Ok v,
       mkst (obj s)
            (trace s ++ version_reads (Preamp.addr self)
                          (fun r => Some (vals r)))).
Proof.
  intros [t' Ht] Hpeek.
  assert (Hstep : forall (r : Z) (s' : st Preamps.t),
            (exists t'', trace s' = t0 ++ t'') ->
            smbus_read E (Preamp.addr self) r s'
            = (Ok (vals r),
               mkst (obj s')
                    (trace s' ++ [SMBus_read_byte_data (Preamp.addr self) r
                                    (Some (vals r))]))).
  { intros r s' [t'' H]. unfold smbus_read. now rewrite H, Hpeek. }
  unfold Preamp.read_version. eexists.
  repeat (erewrite bind_ok;
          [| apply Hstep; cbn [trace]; rewrite Ht, <- ?app_assoc;
             eexists; reflexivity ]).
  cbn [obj trace]. unfold ret, version_reads. cbn [map].
  repeat rewrite <- app_assoc. reflexivity.
Qed.

(** One cycle for unit 0 on hardware that cooperates from the moment the
    flashing tool runs; what the master did before is left open. *)
Lemma flash_unit_master (filepath : string) (baud : Z) (s : st Preamps.t)
    (vals : Z -> Z) :
  let t1 := trace s ++ master_reset_events true ++ [Sleep 10] in
  let t2 := t1 ++ [Stm32flash baud filepath true] in
  stm32flash E t1 baud filepath = true ->
  (forall t', answers E (t2 ++ t') 0 = true) ->
  (forall t' r, peek E (t2 ++ t') 8 r = Some (vals r)) ->
  exists L : nat,
    (1 <= L <= Z.to_nat Preamps.MAX_UNITS)%nat /\
    Preamps.flash_unit filepath baud 0 s
    = (Ok tt,
       mkst (Preamps.mk (chain L))
            (trace s
             ++ master_reset_events true ++ [Sleep 10]
             ++ [Stm32flash baud filepath true]
             ++ reset_master_events true ++ enumerate_events L
             ++ version_reads 8 (fun r => Some (vals r)))).
Proof.
  intros t1 t2 Hflash Hmaster Hpeek.
  unfold Preamps.flash_unit.
  run_ok (reset_into_bootloader s).
  change (range 0) with (@nil Z).
  unfold bind at 1. rewrite foreach_nil.
  unfold bind at 1. unfold run_stm32flash at 1. cbn [obj trace].
  fold t1. rewrite Hflash. fold t2.
  destruct (reset_master_run (mkst (obj s) t2)) as (L & HL & Hrun & Hno).
  cbn [trace] in Hrun, Hno. rewrite Hmaster in Hrun.
  assert (H1 : (1 <= L)%nat).
  { destruct L as [|L]; [|lia]. exfalso.
    specialize (Hno ltac:(cbn; lia)).
    rewrite <- app_assoc, Hmaster in Hno. discriminate. }
  exists L. split; [lia|].
  run_ok Hrun.
  assert (Hget : forall t,
            Preamps.__getitem__ 0 (mkst (Preamps.mk (chain L)) t)
            = (Ok (Preamp.__init__ 0), mkst (Preamps.mk (chain L)) t)).
  { intros t. unfold Preamps.__getitem__, bind, get. cbn [obj Preamps.preamps].
    rewrite getitem_chain by lia. reflexivity. }
  run_ok (Hget (t2 ++ reset_master_events true ++ enumerate_events L)).
  destruct (read_version_after (Preamp.__init__ 0)
              (mkst (Preamps.mk (chain L))
                 (t2 ++ reset_master_events true ++ enumerate_events L))
              t2 vals ltac:(eexists; reflexivity) Hpeek) as (v & Hread).
  run_ok Hread.
  unfold ret, t2, t1. cbn [obj trace Preamp.addr Preamp.__init__].
  change ((0 + 1) * 8) with 8.
  now repeat rewrite <- app_assoc.
Qed.

(** C7: [flash] with a baud rate outside the list of seventeen raises
    before any reset, bus or UART operation.  Called when no board is
    known, it runs the body of its loop exactly once, for unit 0.  That
    one run, on a master that answers from the moment the flashing tool has
    run (it may have been silent before, which is how no board came to be
    known), with a flashing tool that succeeds and version registers that
    can be read, is: reset of the master into the bootloader, one
    invocation of the flashing tool, one full reset with re-enumeration,
    and the version readback of the board at address 8, without error. *)
Theorem flash_rejects_bad_baud_and_recovers_master :
  (forall (filepath : string) (baud : Z) (s : st Preamps.t),
     Z_in baud Preamps.BAUD_RATES = false ->
     Preamps.flash filepath baud s = (Raise ValueError, s))
  /\
  (forall (filepath : string) (baud : Z) (s : st Preamps.t),
     Z_in baud Preamps.BAUD_RATES = true ->
     Preamps.preamps (obj s) = [] ->
     Preamps.flash filepath baud s = Preamps.flash_unit filepath baud 0 s)
  /\
  (forall (filepath : string) (baud : Z) (s : st Preamps.t)
          (vals : Z -> Z),
     Z_in baud Preamps.BAUD_RATES = true ->
     Preamps.preamps (obj s) = [] ->
     let t1 := trace s ++ master_reset_events true ++ [Sleep 10] in
     let t2 := t1 ++ [Stm32flash baud filepath true] in
     stm32flash E t1 baud filepath = true ->
     (forall t', answers E (t2 ++ t') 0 = true) ->
     (forall t' r, peek E (t2 ++ t') 8 r = Some (vals r)) ->
     exists L : nat,
       (1 <= L <= Z.to_nat Preamps.MAX_UNITS)%nat /\
       Preamps.flash filepath baud s
       = (Ok tt,
          mkst (Preamps.mk (chain L))
               (trace s
                ++ master_reset_events true ++ [Sleep 10]
                ++ [Stm32flash baud filepath true]
                ++ reset_master_events true ++ enumerate_events L
                ++ version_reads 8 (fun r => Some (vals r))))).
Proof.
  split; [exact flash_bad_baud|]. split; [exact flash_empty_chain|].
  intros filepath baud s vals Hb Hp t1 t2 Hf Hm Hs.
  rewrite flash_empty_chain by assumption.
  now apply flash_unit_master.
Qed.
End Flash.

(** The state the constructor leaves on a master that does not answer. *)
Lemma recovery_boot :
  Preamps.__init__ (E := env_recovery) false (mkst (Preamps.mk []) [])
  = (Ok tt, mkst (Preamps.mk []) [SMBus_open; probe 0 false]).
Proof. reflexivity. Qed.

Lemma flash_rejects_bad_baud_and_recovers_master_witness :
  let E := env_recovery in
  let s := snd (Preamps.__init__ (E := E) false (mkst (Preamps.mk []) [])) in
  (Z_in 57601 Preamps.BAUD_RATES = false /\
   Preamps.flash (E := E) "fw.bin" 57601 s = (Raise ValueError, s))
  /\
  (Z_in 115200 Preamps.BAUD_RATES = true /\
   Preamps.preamps (obj s) = [] /\
   answers E (trace s) 0 = false /\
   exists L : nat,
     (1 <= L <= 6)%nat /\
     Preamps.flash (E := E) "fw.bin" 115200 s
     = (Ok tt,
        mkst (Preamps.mk (chain L))
             (trace s ++ master_reset_events true ++ [Sleep 10]
              ++ [Stm32flash 115200 "fw.bin" true]
              ++ reset_master_events true ++ enumerate_events L
              ++ version_reads 8 (fun _ => Some 0)))).
Proof.
  intros E s. split.
  - split; [reflexivity|].
    apply (proj1 (flash_rejects_bad_baud_and_recovers_master (E := E))).
    reflexivity.
  - split; [reflexivity|]. split; [reflexivity|]. split; [reflexivity|].
    apply (proj2 (proj2 (flash_rejects_bad_baud_and_recovers_master (E := E)))
             "fw.bin"%string 115200 s (fun _ => 0)).
    + reflexivity.
    + reflexivity.
    + reflexivity.
    + intros t'. reflexivity.
    + intros t' r. reflexivity.
Defined.

(** The whole run on that hardware, computed. *)
Example flash_one_board :
  Preamps.flash (E := env_firmware 1 1 2 0xABCDEF1 false) "fw.bin" 115200
    (mkst (Preamps.mk []) [])
  = (Ok tt,
     mkst (Preamps.mk [Preamp.mk 8])
          (master_reset_events true
           ++ [Sleep 10; Stm32flash 115200 "fw.bin" true]
           ++ master_reset_events false
           ++ [Serial_write 115200 [0x41; 0x10; 0x0D; 0x0A]; probe 0 true;
               Sleep 60; probe 0 true; probe 1 false]
           ++ version_reads 8 (version_registers 1 2 0xABCDEF1 false))).
Proof. reflexivity. Qed.

(** When the flashing tool fails the call stops there, and when no board
    answers after the full reset the readback raises [IndexError]. *)
Example flash_on_dead_hardware :
  Preamps.flash (E := env_boards 0) "fw.bin" 115200 (mkst (Preamps.mk []) [])
  = (Raise IndexError,
     mkst (Preamps.mk [])
          (master_reset_events true
           ++ [Sleep 10; Stm32flash 115200 "fw.bin" true]
           ++ reset_master_events false ++ [probe 0 false])).
Proof. reflexivity. Qed.

(** * Further properties of [rt.py] *)

(** ** Discovery in [_Preamps.__init__] *)

#[local] Arguments _Preamps.discover : simpl never.

Section Discovery.
Context {E : Env}.

Lemma probe_preamp_run (a : Z) (s : st _Preamps.t) :
  _Preamps.probe_preamp a s
  = (Ok (ack E (trace s) a REG.SRC_AD 0x0F),
     mkst (obj s)
          (trace s ++ [rt_probe (ack E (trace s) a REG.SRC_AD 0x0F) a])).
Proof.
  unfold _Preamps.probe_preamp, try_except, bind, smbus_write, ret, rt_probe.
  destruct (ack E (trace s) a REG.SRC_AD 15); reflexivity.
Qed.

(** The discovery loop over any list of addresses. *)
Lemma discover_run (addrs : list Z) :
  forall (ps : list (Z * list Z)) (b : bool) (t : list event),
  exists j : nat,
    (j <= length addrs)%nat /\
    _Preamps.discover addrs (mkst (_Preamps.mk ps b) t)
    = (Ok tt,
       mkst (_Preamps.mk
               (fold_left (fun d a => dict_set a _Preamps.fresh_regs d)
                  (firstn j addrs) ps) b)
            (t ++ map (rt_probe true) (firstn j addrs)
               ++ match nth_error addrs j with
                  | Some a => [rt_probe false a]
                  | None => []
                  end))
    /\ (forall i a, (i < j)%nat -> nth_error addrs i = Some a ->
          ack E (t ++ map (rt_probe true) (firstn i addrs)) a REG.SRC_AD 0x0F
          = true)
    /\ (forall a, nth_error addrs j = Some a ->
          ack E (t ++ map (rt_probe true) (firstn j addrs)) a REG.SRC_AD 0x0F
          = false).
Proof.
  induction addrs as [|a addrs IH]; intros ps b t.
  - exists 0%nat. cbn. rewrite app_nil_r.
    repeat split; intros; try lia; try discriminate.
  - unfold _Preamps.discover; fold (@_Preamps.discover E).
    unfold bind at 1. rewrite probe_preamp_run. cbn [obj trace].
    destruct (ack E t a REG.SRC_AD 15) eqn:Hack.
    + destruct (IH (dict_set a _Preamps.fresh_regs ps) b
                  (t ++ [rt_probe true a]))
        as (j & Hj & Hrun & Hyes & Hno).
      exists (S j). split; [cbn; lia|]. split; [|split].
      * unfold bind at 1. unfold _Preamps.new_preamp, bind, get, put.
        cbn [obj trace _Preamps.preamps _Preamps.bus]. rewrite Hrun.
        cbn [firstn fold_left map nth_error]. rewrite <- !app_assoc.
        reflexivity.
      * intros [|i] a' Hi Hn; cbn in Hn.
        -- injection Hn as <-. cbn. now rewrite app_nil_r.
        -- cbn [firstn map].
           specialize (Hyes i a' ltac:(lia) Hn).
           now rewrite <- app_assoc in Hyes.
      * intros a' Hn. cbn in Hn. cbn [firstn map].
        specialize (Hno a' Hn). now rewrite <- app_assoc in Hno.
    + exists 0%nat. split; [cbn; lia|]. split; [|split].
      * cbn. reflexivity.
      * intros i a' Hi; lia.
      * intros a' Hn. cbn in Hn. injection Hn as <-.
        cbn. now rewrite app_nil_r.
Qed.

Lemma discovered_fold (n : nat) :
  (n <= 15)%nat ->
  fold_left (fun d a => dict_set a _Preamps.fresh_regs d)
    (firstn n _DEV_ADDRS) []
  = discovered n.
Proof.
  intros H. do 16 (destruct n as [|n]; [reflexivity|]). lia.
Qed.

Lemma In_firstn {A} (n : nat) (l : list A) (x : A) :
  In x (firstn n l) -> In x l.
Proof.
  revert l; induction n as [|n IH]; intros [|y l]; cbn; try tauto.
  intros [H|H]; [now left | right; now apply IH].
Qed.

Lemma discovered_well_formed (n : nat) :
  well_formed (_Preamps.mk (discovered n) true) = true.
Proof.
  unfold well_formed, discovered. cbn [_Preamps.preamps].
  apply forallb_forall. intros [a regs] Hin.
  apply in_map_iff in Hin as (a' & [= <- <-] & Ha).
  apply In_firstn in Ha. cbn [fst snd].
  apply (proj2 (Z_in_spec _ _)) in Ha. now rewrite Ha.
Qed.

Lemma reset_preamps_run (s : st _Preamps.t) :
  _Preamps.reset_preamps s
  = (Ok tt,
     mkst (obj s)
          (trace s ++ [GPIO_setmode_BCM; GPIO_setup_OUT 4; GPIO_output 4 false;
                       Sleep 1; GPIO_output 4 true; GPIO_cleanup; Sleep 100;
                       Serial_write 9600 [0x41; 0x10; 0x0D; 0x0A];
                       Sleep 100])).
Proof.
  unfold _Preamps.reset_preamps, bind, sleep, emit. cbn.
  now repeat rewrite <- app_assoc.
Qed.

Lemma preamps_init_hw (s : st _Preamps.t) :
  _Preamps.__init__ true s
  = _Preamps.discover _DEV_ADDRS
      (mkst (_Preamps.mk [] true) (trace s ++ boot_events)).
Proof.
  unfold _Preamps.__init__. cbn [negb].
  unfold bind at 1. unfold put at 1.
  run_ok (reset_preamps_run (mkst (_Preamps.mk [] false) (trace s))).
  unfold bind, emit, get, put. cbn [obj trace _Preamps.preamps].
  now rewrite <- app_assoc.
Qed.

(** X1. On AmpliPi hardware the constructor of [Rpi] resets the preamps,
    sends the address frame at 9600 baud, and probes the fifteen addresses
    in order until one does not answer: the table it leaves holds exactly the
    first [n] addresses, in order, each with the power-on register values;
    those [n] answered and address number [n] did not (unless [n] is 15);
    the mute flag starts as [True]. *)
Theorem rpi_init_discovers_prefix (s0 : st Rpi.t) :
  exists n : nat,
    (n <= 15)%nat /\
    Rpi.__init__ true s0
    = (Ok tt,
       mkst (Rpi.mk (_Preamps.mk (discovered n) true) true)
            (trace s0 ++ boot_events
               ++ map (rt_probe true) (firstn n _DEV_ADDRS)
               ++ match nth_error _DEV_ADDRS n with
                  | Some a => [rt_probe false a]
                  | None => []
                  end))
    /\ well_formed (_Preamps.mk (discovered n) true) = true
    /\ (forall i a, (i < n)%nat -> nth_error _DEV_ADDRS i = Some a ->
          ack E ((trace s0 ++ boot_events)
                   ++ map (rt_probe true) (firstn i _DEV_ADDRS))
            a REG.SRC_AD 0x0F = true)
    /\ (forall a, nth_error _DEV_ADDRS n = Some a ->
          ack E ((trace s0 ++ boot_events)
                   ++ map (rt_probe true) (firstn n _DEV_ADDRS))
            a REG.SRC_AD 0x0F = false).
Proof.
  destruct (discover_run _DEV_ADDRS [] true (trace s0 ++ boot_events))
    as (n & Hn & Hrun & Hyes & Hno).
  change (length _DEV_ADDRS) with 15%nat in Hn.
  exists n. split; [assumption|].
  split; [|split; [apply discovered_well_formed | split; assumption]].
  unfold Rpi.__init__. unfold bind at 1. unfold put at 1. cbn [obj trace].
  unfold Rpi.on_bus. cbn [obj trace Rpi._bus Rpi._all_muted].
  rewrite preamps_init_hw. cbn [trace]. rewrite Hrun.
  rewrite discovered_fold by assumption.
  cbn [obj trace]. now rewrite <- !app_assoc.
Qed.
End Discovery.

(** Hardware with two boards: two entries, the third address refused. *)
Example rpi_init_two_boards :
  Rpi.__init__ (E := env_boards 2) true
    (mkst (Rpi.mk (_Preamps.mk [] false) false) [])
  = (Ok tt,
     mkst (Rpi.mk (_Preamps.mk (discovered 2) true) true)
          (boot_events ++ [rt_probe true 8; rt_probe true 16;
                           rt_probe false 24])).
Proof. reflexivity. Qed.

(** ** Shadow registers *)

Lemma nth_error_replace_nth_other {A} (k j : nat) (x : A) (l : list A) :
  j <> k -> nth_error (replace_nth k x l) j = nth_error l j.
Proof.
  revert k j; induction l as [|y l IH]; intros [|k] [|j] H; cbn;
    try reflexivity; try contradiction.
  apply IH. lia.
Qed.

Lemma set_reg_keys (a r d : Z) (ps : list (Z * list Z)) :
  dict_keys (set_reg a r d ps) = dict_keys ps.
Proof.
  unfold set_reg. destruct (dict_get a ps) eqn:H; [|reflexivity].
  apply dict_keys_set_known. unfold dict_mem. now rewrite H.
Qed.

Lemma dict_mem_set_reg (a r d a' : Z) (ps : list (Z * list Z)) :
  dict_mem a' (set_reg a r d ps) = dict_mem a' ps.
Proof.
  destruct (dict_mem a' ps) eqn:H.
  - apply dict_mem_keys. rewrite set_reg_keys. now apply dict_mem_keys.
  - destruct (dict_mem a' (set_reg a r d ps)) eqn:H'; [|reflexivity].
    apply dict_mem_keys in H'. rewrite set_reg_keys in H'.
    apply dict_mem_keys in H'. congruence.
Qed.

Lemma set_reg_well_formed (a r d : Z) (ps : list (Z * list Z)) (b : bool) :
  well_formed (_Preamps.mk ps b) = true ->
  well_formed (_Preamps.mk (set_reg a r d ps) b) = true.
Proof.
  intros Hwf. unfold set_reg. destruct (dict_get a ps) as [regs|] eqn:Hg;
    [|assumption].
  destruct (well_formed_entry _ _ _ _ Hwf Hg) as [Ha Hl].
  eapply well_formed_set; try eassumption. now rewrite length_replace_nth.
Qed.

Lemma reg_of_set_reg_same (a r d : Z) (ps : list (Z * list Z)) :
  well_formed (_Preamps.mk ps true) = true ->
  dict_mem a ps = true ->
  0 <= r < 11 ->
  reg_of (set_reg a r d ps) a r = Some d.
Proof.
  intros Hwf Hm Hr. destruct (dict_mem_get _ _ Hm) as [regs Hg].
  destruct (well_formed_entry _ _ _ _ Hwf Hg) as [_ Hl].
  unfold reg_of, set_reg. rewrite Hg, dict_get_set_same.
  apply nth_error_replace_nth. lia.
Qed.

Lemma reg_of_set_reg_other (a r d a' r' : Z) (ps : list (Z * list Z)) :
  a' <> a \/ Z.to_nat r' <> Z.to_nat r ->
  reg_of (set_reg a r d ps) a' r' = reg_of ps a' r'.
Proof.
  intros H. unfold reg_of, set_reg.
  destruct (dict_get a ps) as [regs|] eqn:Hg; [|reflexivity].
  destruct (Z.eq_dec a' a) as [->|Hne].
  - rewrite dict_get_set_same, Hg.
    apply nth_error_replace_nth_other. destruct H; [contradiction|assumption].
  - now rewrite dict_get_set_other by congruence.
Qed.

Lemma standby_all_keys (v : Z) (ks : list Z) :
  forall ps, dict_keys (standby_all v ks ps) = dict_keys ps.
Proof.
  unfold standby_all. induction ks as [|k ks IH]; intros ps; cbn [fold_left];
    [reflexivity|].
  now rewrite IH, set_reg_keys.
Qed.

Lemma standby_all_well_formed (v : Z) (ks : list Z) :
  forall ps b,
    well_formed (_Preamps.mk ps b) = true ->
    well_formed (_Preamps.mk (standby_all v ks ps) b) = true.
Proof.
  unfold standby_all. induction ks as [|k ks IH]; intros ps b H;
    cbn [fold_left]; [assumption|].
  apply IH. now apply set_reg_well_formed.
Qed.

(** A standby round leaves every other register alone. *)
Lemma standby_all_other (v : Z) (ks : list Z) (a r : Z) :
  Z.to_nat r <> Z.to_nat REG.STANDBY ->
  forall ps, reg_of (standby_all v ks ps) a r = reg_of ps a r.
Proof.
  intros Hr. unfold standby_all.
  induction ks as [|k ks IH]; intros ps; cbn [fold_left]; [reflexivity|].
  rewrite IH. apply reg_of_set_reg_other. now right.
Qed.

(** A standby round sets the STANDBY register of each board it visits. *)
Lemma standby_all_sets (v : Z) (ks : list Z) (a : Z) :
  forall ps,
    well_formed (_Preamps.mk ps true) = true ->
    dict_mem a ps = true ->
    In a ks ->
    reg_of (standby_all v ks ps) a REG.STANDBY = Some v.
Proof.
  unfold standby_all.
  induction ks as [|k ks IH]; intros ps Hwf Hm Hin; [destruct Hin|].
  cbn [fold_left].
  destruct (in_dec Z.eq_dec a ks) as [Hin'|Hnot].
  - apply IH; [now apply set_reg_well_formed | | assumption].
    now rewrite dict_mem_set_reg.
  - destruct Hin as [->|Hin]; [|contradiction].
    assert (Hrest : forall ps',
              reg_of (fold_left (fun ps p => set_reg p REG.STANDBY v ps)
                        ks ps') a REG.STANDBY
              = reg_of ps' a REG.STANDBY).
    { clear IH Hwf Hm. induction ks as [|k ks IH]; intros ps';
        cbn [fold_left]; [reflexivity|].
      rewrite IH by (intros H; apply Hnot; now right).
      apply reg_of_set_reg_other. left. intros ->. apply Hnot. now left. }
    rewrite Hrest. apply reg_of_set_reg_same; try assumption.
    unfold REG.STANDBY; lia.
Qed.

Section ExactWrites.
Context {E : Env}.

(** With a bus and boards that answer, a write through the wrapper changes
    the shadow register and sends one transfer when the board is known,
    and does nothing otherwise. *)
Lemma hw_write_exact (ps : list (Z * list Z)) (t : list event) (am : bool)
    (a r d : Z) :
  well_formed (_Preamps.mk ps true) = true ->
  responsive E (dict_keys ps) ->
  Z_in a _DEV_ADDRS = true ->
  0 <= r < 11 ->
  Rpi.on_bus (_Preamps.write_byte_data a r d)
    (mkst (Rpi.mk (_Preamps.mk ps true) am) t)
  = (Ok tt,
     mkst (Rpi.mk (_Preamps.mk (set_reg a r d ps) true) am)
          (t ++ transfer ps a r d)).
Proof.
  intros Hwf Hresp Ha Hr. unfold set_reg, transfer.
  destruct (dict_mem a ps) eqn:Hm.
  - destruct (dict_mem_get _ _ Hm) as [regs Hg]. rewrite Hg.
    destruct (well_formed_entry _ _ _ _ Hwf Hg) as [_ Hl].
    apply on_bus_write_known_hw; try assumption.
    + rewrite Hl. apply (py_pos_in_range 11). lia.
    + apply Hresp. now apply dict_mem_keys.
  - unfold dict_mem in Hm. destruct (dict_get a ps) eqn:Hg; [discriminate|].
    rewrite app_nil_r. apply on_bus_write_unknown_hw; [assumption|].
    unfold dict_mem. now rewrite Hg.
Qed.

Lemma well_formed_key (ps : list (Z * list Z)) (b : bool) (a : Z) :
  well_formed (_Preamps.mk ps b) = true ->
  In a (dict_keys ps) ->
  Z_in a _DEV_ADDRS = true.
Proof.
  intros Hwf Hin. apply dict_mem_keys in Hin.
  destruct (dict_mem_get _ _ Hin) as [regs Hg].
  now destruct (well_formed_entry _ _ _ _ Hwf Hg).
Qed.

Lemma standby_loop_exact (v : Z) (am : bool) (ks : list Z) :
  forall (ps : list (Z * list Z)) (t : list event),
    well_formed (_Preamps.mk ps true) = true ->
    responsive E (dict_keys ps) ->
    incl ks (dict_keys ps) ->
    foreach ks (fun p =>
      Rpi.on_bus (_Preamps.write_byte_data p REG.STANDBY v))
      (mkst (Rpi.mk (_Preamps.mk ps true) am) t)
    = (Ok tt,
       mkst (Rpi.mk (_Preamps.mk (standby_all v ks ps) true) am)
            (t ++ flat_map (fun p =>
                    [Sleep 1; SMBus_write_byte_data p REG.STANDBY v true])
                  ks)).
Proof.
  induction ks as [|k ks IH]; intros ps t Hwf Hresp Hin.
  - rewrite foreach_nil. cbn. now rewrite app_nil_r.
  - assert (Hk : In k (dict_keys ps)) by (apply Hin; now left).
    rewrite foreach_cons.
    run_ok (hw_write_exact ps t am k REG.STANDBY v Hwf Hresp
              (well_formed_key _ _ _ Hwf Hk) ltac:(unfold REG.STANDBY; lia)).
    rewrite IH.
    + unfold transfer. rewrite (proj2 (dict_mem_keys k ps) Hk).
      cbn [flat_map standby_all fold_left]. now rewrite <- app_assoc.
    + now apply set_reg_well_formed.
    + now rewrite set_reg_keys.
    + rewrite set_reg_keys. intros x Hx. apply Hin. now right.
Qed.

(** The standby block of [update_zone_mutes], exactly. *)
Lemma sync_standby_exact (mutes : list pyval) (ps : list (Z * list Z))
    (t : list event) (am : bool) :
  well_formed (_Preamps.mk ps true) = true ->
  responsive E (dict_keys ps) ->
  Rpi.sync_standby mutes (mkst (Rpi.mk (_Preamps.mk ps true) am) t)
  = if Bool.eqb am (aggregate_muted mutes) then
      (Ok tt, mkst (Rpi.mk (_Preamps.mk ps true) am) t)
    else
      (Ok tt,
       mkst (Rpi.mk (_Preamps.mk
                       (standby_all (standby_code (aggregate_muted mutes))
                          (dict_keys ps) ps) true)
               (aggregate_muted mutes))
            (t ++ flat_map (fun p =>
                    [Sleep 1;
                     SMBus_write_byte_data p REG.STANDBY
                       (standby_code (aggregate_muted mutes)) true])
                  (dict_keys ps)
               ++ [Sleep (if aggregate_muted mutes then 100 else 300)])).
Proof.
  intros Hwf Hresp.
  destruct (Bool.eqb am (aggregate_muted mutes)) eqn:Hflag.
  - apply eqb_prop in Hflag. subst am.
    now apply sync_standby_unchanged.
  - unfold Rpi.sync_standby. cbv zeta. unfold bind at 1.
    cbn [get obj Rpi._all_muted]. fold (aggregate_muted mutes).
    rewrite Hflag. cbn [negb Rpi._bus _Preamps.preamps].
    pose proof (standby_loop_exact (standby_code (aggregate_muted mutes)) am
                  (dict_keys ps) ps t Hwf Hresp (incl_refl _)) as Hrun.
    unfold standby_code in *.
    destruct (aggregate_muted mutes).
    + unfold bind at 1. unfold bind at 1. rewrite Hrun. cbn.
      now rewrite <- app_assoc.
    + unfold bind at 1. unfold bind at 1. rewrite Hrun. cbn.
      now rewrite <- app_assoc.
Qed.
End ExactWrites.

(** ** A refused transfer is retried once *)

Section Retry.
Context {E : Env}.

(** X2. When the board refuses the first transfer of [update_zone_vol],
    the bus is reopened and the transfer sent a second time, once: the call
    returns [True] if that one is acknowledged and raises [OSError] if not.
    Either way the shadow register already holds the new attenuation. *)
Theorem update_zone_vol_retries_once (ps : list (Z * list Z))
    (t : list event) (am : bool) (zone vol : Z) (regs : list Z) :
  0 <= zone < 90 ->
  -79 <= vol <= 0 ->
  let a := (zone / 6 + 1) * 8 in
  let r := REG.CH1_ATTEN + zone mod 6 in
  dict_get a ps = Some regs ->
  length regs = 11%nat ->
  ack E (t ++ [Sleep 1]) a r (Z.abs vol) = false ->
  let t' := t ++ [Sleep 1; SMBus_write_byte_data a r (Z.abs vol) false;
                  Sleep 1; SMBus_open] in
  let again := ack E t' a r (Z.abs vol) in
  Rpi.update_zone_vol zone vol (mkst (Rpi.mk (_Preamps.mk ps true) am) t)
  = (if again then Ok true else Raise OSError,
     mkst (Rpi.mk (_Preamps.mk
                     (dict_set a (replace_nth (Z.to_nat r) (Z.abs vol) regs)
                        ps) true) am)
          (t' ++ [SMBus_write_byte_data a r (Z.abs vol) again])).
Proof.
  intros Hz Hv a r Hg Hlen Hack t' again.
  assert (Hh : 0 <= zone / 6 < 15).
  { split; [apply Z.div_pos; lia | apply Z.div_lt_upper_bound; lia]. }
  assert (Hr : 0 <= zone mod 6 < 6) by (apply Z.mod_pos_bound; lia).
  rewrite update_zone_vol_accepted.
  2:{ cbn [rpi_validates]. rewrite Z.quot_div_nonneg by lia.
      repeat (apply andb_true_intro; split); lia. }
  fold a r.
  assert (Hk : py_pos (length regs) r = Some (Z.to_nat r)).
  { rewrite Hlen. apply (py_pos_in_range 11). unfold r, REG.CH1_ATTEN. lia. }
  pose proof (write_known_hw_retry ps t a r (Z.abs vol) regs (Z.to_nat r)
                (DEV_ADDRS_member _ Hh) Hg Hk Hack) as Hrun.
  cbv zeta in Hrun. fold t' in Hrun. fold again in Hrun.
  unfold bind, Rpi.on_bus. cbn [obj trace Rpi._bus Rpi._all_muted].
  rewrite Hrun. now destruct again.
Qed.
End Retry.

Lemma update_zone_vol_retries_once_witness :
  let E := {| ack := fun t _ _ _ => (3 <=? Z.of_nat (length t));
              peek := fun _ _ _ => None;
              stm32flash := fun _ _ _ => false |} in
  let ps := [(8, _Preamps.fresh_regs)] in
  Rpi.update_zone_vol (E := E) 2 (-30)
    (mkst (Rpi.mk (_Preamps.mk ps true) true) [])
  = (Ok true,
     mkst (Rpi.mk (_Preamps.mk
                     [(8, [0x0F; 0x00; 0x00; 0x3F; 0x00;
                           0x4F; 0x4F; 30; 0x4F; 0x4F; 0x4F])] true) true)
          [Sleep 1; SMBus_write_byte_data 8 REG.CH3_ATTEN 30 false;
           Sleep 1; SMBus_open;
           SMBus_write_byte_data 8 REG.CH3_ATTEN 30 true]).
Proof.
  intros E ps.
  apply (update_zone_vol_retries_once (E := E) ps [] true 2 (-30)
           _Preamps.fresh_regs); try reflexivity; lia.
Defined.

(** ** Bit masks *)

Lemma bitmask_bound (flags : list bool) :
  0 <= bitmask flags < 2 ^ Z.of_nat (length flags).
Proof.
  induction flags as [|b flags IH]; [cbn; lia|].
  cbn [bitmask length]. rewrite Nat2Z.inj_succ, Z.pow_succ_r by lia.
  destruct b; cbn [Z.b2z]; lia.
Qed.

(** Bit [i] of the mask is flag number [i]. *)
Lemma testbit_bitmask (flags : list bool) :
  forall i : nat,
    Z.testbit (bitmask flags) (Z.of_nat i) = nth i flags false.
Proof.
  induction flags as [|b flags IH]; intros i.
  - cbn [bitmask nth]. destruct i; apply Z.testbit_0_l.
  - cbn [bitmask nth]. rewrite Z.add_comm. destruct i as [|i].
    + apply Z.testbit_0_r.
    + rewrite Nat2Z.inj_succ, Z.testbit_succ_r by lia. apply IH.
Qed.

(** The flags the loop of [update_sources] packs. *)
Lemma digital_fold_bitmask (flags : list bool) :
  length flags = 4%nat ->
  fold_pure (digital_step (map PBool flags)) (range 4) 0
  = Ok (bitmask flags).
Proof.
  intros H. destruct flags as [|a [|b [|c [|d [|? ?]]]]]; try discriminate.
  destruct a, b, c, d; reflexivity.
Qed.

(** The flags the loop of [update_zone_mutes] packs. *)
Lemma mute_fold_bitmask (mutes : list pyval) (zone : Z) (flags : list bool) :
  addressed mutes zone = map (fun b => Some (PBool b)) flags ->
  fold_pure (mute_step mutes (zone / 6)) (range 6) 0 = Ok (bitmask flags).
Proof.
  unfold addressed. change (range 6) with [0; 1; 2; 3; 4; 5].
  destruct flags as [|f0 [|f1 [|f2 [|f3 [|f4 [|f5 [|? ?]]]]]]];
    cbn [map]; try discriminate.
  intros [= H0 H1 H2 H3 H4 H5].
  cbn [fold_pure]. unfold mute_step.
  rewrite H0, H1, H2, H3, H4, H5.
  destruct f0, f1, f2, f3, f4, f5; reflexivity.
Qed.

(** The selectors the loop of [update_zone_sources] packs. *)
Lemma source_fold_pack (sources : list pyval) (zone : Z) (ids : list Z) :
  addressed sources zone = map (fun n => Some (PInt n)) ids ->
  exists s0 s1 s2 s3 s4 s5,
    ids = [s0; s1; s2; s3; s4; s5] /\
    fold_pure (source_step sources (zone / 6)) (range 6) (0, 0)
    = Ok (pack3 s0 s1 s2, pack3 s3 s4 s5).
Proof.
  unfold addressed. change (range 6) with [0; 1; 2; 3; 4; 5].
  destruct ids as [|s0 [|s1 [|s2 [|s3 [|s4 [|s5 [|? ?]]]]]]];
    cbn [map]; try discriminate.
  intros [= H0 H1 H2 H3 H4 H5].
  exists s0, s1, s2, s3, s4, s5. split; [reflexivity|].
  cbn [fold_pure]. unfold source_step.
  rewrite H0, H1, H2, H3, H4, H5.
  cbn [type_is_int is_None orb Z.ltb Z.compare fst snd Z.mul Z.sub Z.add
       Z.opp Z.pos_sub Pos.mul Pos.add Pos.succ].
  unfold pack3. rewrite !Z.shiftl_0_r, !Z.lor_0_l. reflexivity.
Qed.

(** Selectors in 0..3 come back out of the packed register, which fits in
    six bits. *)
Lemma unpack_pack3 (a b c : Z) :
  0 <= a <= 3 -> 0 <= b <= 3 -> 0 <= c <= 3 ->
  unpack (pack3 a b c) 0 = a /\ unpack (pack3 a b c) 1 = b
  /\ unpack (pack3 a b c) 2 = c /\ 0 <= pack3 a b c < 64.
Proof.
  intros Ha Hb Hc.
  assert (Ea : a = 0 \/ a = 1 \/ a = 2 \/ a = 3) by lia.
  assert (Eb : b = 0 \/ b = 1 \/ b = 2 \/ b = 3) by lia.
  assert (Ec : c = 0 \/ c = 1 \/ c = 2 \/ c = 3) by lia.
  destruct Ea as [->|[->|[->| ->]]], Eb as [->|[->|[->| ->]]],
    Ec as [->|[->|[->| ->]]]; cbv; repeat split; congruence.
Qed.

(** ** The setters on hardware that answers *)

Lemma transfer_set_reg (a r d a' r' d' : Z) (ps : list (Z * list Z)) :
  transfer (set_reg a r d ps) a' r' d' = transfer ps a' r' d'.
Proof. unfold transfer. now rewrite dict_mem_set_reg. Qed.

Lemma responsive_set_reg (E : Env) (a r d : Z) (ps : list (Z * list Z)) :
  responsive E (dict_keys ps) ->
  responsive E (dict_keys (set_reg a r d ps)).
Proof. now rewrite set_reg_keys. Qed.

Lemma getitem_DEV_ADDRS_nonneg (i a : Z) :
  0 <= i -> getitem _DEV_ADDRS i = Some a -> a = (i + 1) * 8 /\ i < 15.
Proof.
  intros Hi H. destruct (Z.ltb_spec i 15) as [Hlt|Hge].
  - rewrite getitem_DEV_ADDRS in H by lia. split; [congruence | lia].
  - unfold getitem, py_pos in H. cbn [length _DEV_ADDRS] in H.
    destruct (Z.leb_spec 0 i); [|lia].
    destruct (Z.ltb_spec i (Z.of_nat 15)); [lia|].
    cbn [andb] in H.
    destruct (Z.ltb_spec i 0); [lia|].
    rewrite andb_false_r in H. discriminate.
Qed.

Section ExactSetters.
Context {E : Env}.

(** X3. [update_sources] packs its four flags into one mask, flag [i] in
    bit [i], so a value below 16, and sends it to register SRC_AD of the
    master board at address 8, to no other board; the shadow register of
    the master holds the mask afterwards. *)
Theorem update_sources_writes_mask (ps : list (Z * list Z))
    (t : list event) (am : bool) (flags : list bool) :
  well_formed (_Preamps.mk ps true) = true ->
  responsive E (dict_keys ps) ->
  length flags = 4%nat ->
  Rpi.update_sources (map PBool flags)
    (mkst (Rpi.mk (_Preamps.mk ps true) am) t)
  = (Ok true,
     mkst (Rpi.mk (_Preamps.mk (set_reg 8 REG.SRC_AD (bitmask flags) ps)
                     true) am)
          (t ++ transfer ps 8 REG.SRC_AD (bitmask flags)))
  /\ 0 <= bitmask flags < 16
  /\ (forall i : nat,
        Z.testbit (bitmask flags) (Z.of_nat i) = nth i flags false)
  /\ (dict_mem 8 ps = true ->
      reg_of (set_reg 8 REG.SRC_AD (bitmask flags) ps) 8 REG.SRC_AD
      = Some (bitmask flags)).
Proof.
  intros Hwf Hresp Hlen. repeat split.
  - destruct (update_sources_accepted (map PBool flags)
                (mkst (Rpi.mk (_Preamps.mk ps true) am) t))
      as (output & Hout & Hrun).
    { cbn [rpi_validates]. unfold len. rewrite length_map, Hlen.
      apply andb_true_intro. split; [reflexivity|].
      apply forallb_forall. intros x Hx. apply in_map_iff in Hx.
      destruct Hx as (b & <- & _). reflexivity. }
    rewrite digital_fold_bitmask in Hout by assumption.
    injection Hout as <-. rewrite Hrun.
    run_ok (hw_write_exact ps t am 8 REG.SRC_AD (bitmask flags) Hwf Hresp
              eq_refl ltac:(unfold REG.SRC_AD; lia)).
    reflexivity.
  - apply bitmask_bound.
  - pose proof (bitmask_bound flags) as H. rewrite Hlen in H.
    change (2 ^ Z.of_nat 4) with 16 in H. lia.
  - apply testbit_bitmask.
  - intros Hm. apply reg_of_set_reg_same; try assumption.
    unfold REG.SRC_AD; lia.
Qed.

(** X4. An accepted [update_zone_mutes] on hardware that answers: the six
    flags of the addressed board are packed into one mask below 64, flag
    [i] in bit [i], and sent to the MUTE register of that board; the
    standby round follows when the aggregate flag changes, and leaves the
    MUTE registers alone; the call returns [True]. *)
Theorem update_zone_mutes_writes_mask (ps : list (Z * list Z))
    (t : list event) (am : bool) (zone : Z) (mutes : list pyval)
    (flags : list bool) :
  well_formed (_Preamps.mk ps true) = true ->
  responsive E (dict_keys ps) ->
  rpi_validates (Update_zone_mutes zone mutes) = true ->
  addressed mutes zone = map (fun b => Some (PBool b)) flags ->
  exists addr,
    getitem _DEV_ADDRS (zone / 6) = Some addr /\
    (0 <= zone -> addr = (zone / 6 + 1) * 8) /\
    let all_muted := aggregate_muted mutes in
    let ps1 := set_reg addr REG.MUTE (bitmask flags) ps in
    let ps2 := if Bool.eqb am all_muted then ps1
               else standby_all (standby_code all_muted) (dict_keys ps) ps1 in
    Rpi.update_zone_mutes zone mutes
      (mkst (Rpi.mk (_Preamps.mk ps true) am) t)
    = (Ok true,
       mkst (Rpi.mk (_Preamps.mk ps2 true) all_muted)
            (t ++ transfer ps addr REG.MUTE (bitmask flags)
               ++ if Bool.eqb am all_muted then []
                  else flat_map (fun p =>
                         [Sleep 1;
                          SMBus_write_byte_data p REG.STANDBY
                            (standby_code all_muted) true]) (dict_keys ps)
                       ++ [Sleep (if all_muted then 100 else 300)]))
    /\ 0 <= bitmask flags < 64
    /\ (forall i : nat,
          Z.testbit (bitmask flags) (Z.of_nat i) = nth i flags false)
    /\ (dict_mem addr ps = true ->
        reg_of ps2 addr REG.MUTE = Some (bitmask flags)).
Proof.
  intros Hwf Hresp Hval Hflags.
  destruct (update_zone_mutes_accepted zone mutes
              (mkst (Rpi.mk (_Preamps.mk ps true) am) t) Hval)
    as (addr & cfg & Haddr & Hcfg & Hrun).
  rewrite (mute_fold_bitmask _ _ _ Hflags) in Hcfg. injection Hcfg as <-.
  exists addr. split; [assumption|]. split.
  { intros Hz. apply (getitem_DEV_ADDRS_nonneg (zone / 6)); [|assumption].
    apply Z.div_pos; lia. }
  cbv zeta.
  assert (Hlen : length flags = 6%nat).
  { apply (f_equal (@length _)) in Hflags. unfold addressed in Hflags.
    rewrite !length_map in Hflags. now rewrite <- Hflags. }
  assert (Hmute : Z.to_nat REG.MUTE <> Z.to_nat REG.STANDBY)
    by (unfold REG.MUTE, REG.STANDBY; lia).
  repeat split.
  - rewrite Hrun.
    run_ok (hw_write_exact ps t am addr REG.MUTE (bitmask flags) Hwf Hresp
              (getitem_DEV_ADDRS_member _ _ Haddr)
              ltac:(unfold REG.MUTE; lia)).
    unfold bind at 1. rewrite sync_standby_exact;
      [| now apply set_reg_well_formed | now apply responsive_set_reg].
    rewrite set_reg_keys.
    destruct (Bool.eqb am (aggregate_muted mutes)) eqn:Hflag.
    + apply eqb_prop in Hflag. subst am. cbn [ret]. now rewrite app_nil_r.
    + cbn [ret]. now rewrite <- !app_assoc.
  - apply bitmask_bound.
  - pose proof (bitmask_bound flags) as H. rewrite Hlen in H.
    change (2 ^ Z.of_nat 6) with 64 in H. lia.
  - apply testbit_bitmask.
  - intros Hm.
    destruct (Bool.eqb am (aggregate_muted mutes)).
    + apply reg_of_set_reg_same; try assumption. unfold REG.MUTE; lia.
    + rewrite standby_all_other by assumption.
      apply reg_of_set_reg_same; try assumption. unfold REG.MUTE; lia.
Qed.

(** X5. An accepted [update_zone_sources] on hardware that answers: the
    selectors of channels 0..2 go, two bits each, into CH123_SRC of the
    addressed board and those of channels 3..5 into CH456_SRC, in that
    order and in no other register; for selectors in 0..3 both values stay
    below 64 and each selector can be read back from its two bits. *)
Theorem update_zone_sources_packs (ps : list (Z * list Z))
    (t : list event) (am : bool) (zone : Z) (sources : list pyval)
    (s0 s1 s2 s3 s4 s5 : Z) :
  well_formed (_Preamps.mk ps true) = true ->
  responsive E (dict_keys ps) ->
  rpi_validates (Update_zone_sources zone sources) = true ->
  addressed sources zone
  = map (fun n => Some (PInt n)) [s0; s1; s2; s3; s4; s5] ->
  exists addr,
    getitem _DEV_ADDRS (zone / 6) = Some addr /\
    (0 <= zone -> addr = (zone / 6 + 1) * 8) /\
    let lo := pack3 s0 s1 s2 in
    let hi := pack3 s3 s4 s5 in
    Rpi.update_zone_sources zone sources
      (mkst (Rpi.mk (_Preamps.mk ps true) am) t)
    = (Ok true,
       mkst (Rpi.mk (_Preamps.mk
                       (set_reg addr REG.CH456_SRC hi
                          (set_reg addr REG.CH123_SRC lo ps)) true) am)
            (t ++ transfer ps addr REG.CH123_SRC lo
               ++ transfer ps addr REG.CH456_SRC hi))
    /\ (Forall (fun n => 0 <= n <= 3) [s0; s1; s2; s3; s4; s5] ->
        0 <= lo < 64 /\ 0 <= hi < 64
        /\ unpack lo 0 = s0 /\ unpack lo 1 = s1 /\ unpack lo 2 = s2
        /\ unpack hi 0 = s3 /\ unpack hi 1 = s4 /\ unpack hi 2 = s5).
Proof.
  intros Hwf Hresp Hval Hids.
  destruct (update_zone_sources_accepted zone sources
              (mkst (Rpi.mk (_Preamps.mk ps true) am) t) Hval)
    as (addr & cfg & Haddr & Hcfg & Hrun).
  destruct (source_fold_pack _ _ _ Hids)
    as (x0 & x1 & x2 & x3 & x4 & x5 & Hx & Hfold).
  injection Hx as <- <- <- <- <- <-.
  rewrite Hfold in Hcfg. injection Hcfg as <-.
  exists addr. split; [assumption|]. split.
  { intros Hz. apply (getitem_DEV_ADDRS_nonneg (zone / 6)); [|assumption].
    apply Z.div_pos; lia. }
  cbv zeta. split.
  - rewrite Hrun. cbn [fst snd].
    run_ok (hw_write_exact ps t am addr REG.CH123_SRC (pack3 s0 s1 s2)
              Hwf Hresp (getitem_DEV_ADDRS_member _ _ Haddr)
              ltac:(unfold REG.CH123_SRC; lia)).
    run_ok (hw_write_exact _ (t ++ transfer ps addr REG.CH123_SRC
                                    (pack3 s0 s1 s2)) am addr
              REG.CH456_SRC (pack3 s3 s4 s5)
              (set_reg_well_formed addr REG.CH123_SRC (pack3 s0 s1 s2) _ _
                 Hwf)
              (responsive_set_reg _ addr REG.CH123_SRC (pack3 s0 s1 s2) _
                 Hresp)
              (getitem_DEV_ADDRS_member _ _ Haddr)
              ltac:(unfold REG.CH456_SRC; lia)).
    rewrite transfer_set_reg, <- app_assoc. reflexivity.
  - intros Hall.
    repeat match goal with
           | H : Forall _ (_ :: _) |- _ => inversion H; subst; clear H
           end.
    destruct (unpack_pack3 s0 s1 s2) as (? & ? & ? & ?); try assumption.
    destruct (unpack_pack3 s3 s4 s5) as (? & ? & ? & ?); try assumption.
    repeat split; try assumption; lia.
Qed.
End ExactSetters.

Lemma update_sources_writes_mask_witness :
  let ps := [(8, _Preamps.fresh_regs); (16, _Preamps.fresh_regs)] in
  Rpi.update_sources (E := env_boards 2)
    (map PBool [true; false; true; false])
    (mkst (Rpi.mk (_Preamps.mk ps true) true) [])
  = (Ok true,
     mkst (Rpi.mk (_Preamps.mk
                     [(8, [5; 0x00; 0x00; 0x3F; 0x00;
                           0x4F; 0x4F; 0x4F; 0x4F; 0x4F; 0x4F]);
                      (16, _Preamps.fresh_regs)] true) true)
          [Sleep 1; SMBus_write_byte_data 8 REG.SRC_AD 5 true]).
Proof.
  intros ps.
  exact (proj1 (update_sources_writes_mask (E := env_boards 2) ps [] true
                  [true; false; true; false] eq_refl env_boards_responsive
                  eq_refl)).
Defined.

Lemma update_zone_mutes_writes_mask_witness :
  let ps := [(8, _Preamps.fresh_regs); (16, _Preamps.fresh_regs)] in
  let mutes := map PBool [true; true; true; true; true; true;
                          true; false; true; true; true; true] in
  Rpi.update_zone_mutes (E := env_boards 2) 7 mutes
    (mkst (Rpi.mk (_Preamps.mk ps true) true) [])
  = (Ok true,
     mkst (Rpi.mk (_Preamps.mk
                     [(8, [0x0F; 0x00; 0x00; 0x3F; 0x3F;
                           0x4F; 0x4F; 0x4F; 0x4F; 0x4F; 0x4F]);
                      (16, [0x0F; 0x00; 0x00; 61; 0x3F;
                            0x4F; 0x4F; 0x4F; 0x4F; 0x4F; 0x4F])] true)
             false)
          [Sleep 1; SMBus_write_byte_data 16 REG.MUTE 61 true;
           Sleep 1; SMBus_write_byte_data 8 REG.STANDBY 0x3F true;
           Sleep 1; SMBus_write_byte_data 16 REG.STANDBY 0x3F true;
           Sleep 300]).
Proof.
  intros ps mutes.
  destruct (update_zone_mutes_writes_mask (E := env_boards 2) ps [] true 7
              mutes [true; false; true; true; true; true]
              eq_refl env_boards_responsive eq_refl eq_refl)
    as (addr & Haddr & _ & Hrun & _).
  injection Haddr as <-. exact Hrun.
Defined.

Lemma update_zone_sources_packs_witness :
  let ps := [(8, _Preamps.fresh_regs); (16, _Preamps.fresh_regs)] in
  let sources := map PInt [0; 0; 0; 0; 0; 0; 1; 2; 3; 0; 1; 2] in
  Rpi.update_zone_sources (E := env_boards 2) 7 sources
    (mkst (Rpi.mk (_Preamps.mk ps true) true) [])
  = (Ok true,
     mkst (Rpi.mk (_Preamps.mk
                     [(8, _Preamps.fresh_regs);
                      (16, [0x0F; 57; 36; 0x3F; 0x00;
                            0x4F; 0x4F; 0x4F; 0x4F; 0x4F; 0x4F])] true)
             true)
          [Sleep 1; SMBus_write_byte_data 16 REG.CH123_SRC 57 true;
           Sleep 1; SMBus_write_byte_data 16 REG.CH456_SRC 36 true]).
Proof.
  intros ps sources.
  destruct (update_zone_sources_packs (E := env_boards 2) ps [] true 7
              sources 1 2 3 0 1 2
              eq_refl env_boards_responsive eq_refl eq_refl)
    as (addr & Haddr & _ & Hrun & _).
  injection Haddr as <-. exact Hrun.
Defined.

(** ** Invariants of a session *)

Section Sessions.
Context {E : Env}.

Lemma rpi_init_mock_state (s0 : st Rpi.t) :
  Rpi.__init__ false s0
  = (Ok tt, mkst (Rpi.mk (_Preamps.mk [] false) true) (trace s0)).
Proof. reflexivity. Qed.

Lemma rpi_init_hw_state (s0 : st Rpi.t) :
  exists n t',
    Rpi.__init__ true s0
    = (Ok tt, mkst (Rpi.mk (_Preamps.mk (discovered n) true) true) t').
Proof.
  destruct (discover_run _DEV_ADDRS [] true (trace s0 ++ boot_events))
    as (n & Hn & Hrun & _).
  change (length _DEV_ADDRS) with 15%nat in Hn.
  exists n. eexists.
  unfold Rpi.__init__. unfold bind at 1. unfold put at 1. cbn [obj trace].
  unfold Rpi.on_bus. cbn [obj trace Rpi._bus Rpi._all_muted].
  rewrite preamps_init_hw. cbn [trace]. rewrite Hrun.
  rewrite discovered_fold by assumption. reflexivity.
Qed.

Lemma call_keeps_well_formed (c : call) (s : st Rpi.t) :
  well_formed (Rpi._bus (obj s)) = true ->
  exists s',
    try_except (run_call c ;; ret tt) (ret tt) s = (Ok tt, s')
    /\ well_formed (Rpi._bus (obj s')) = true.
Proof.
  intros Hwf. unfold try_except.
  destruct (rpi_validates c) eqn:Hv.
  - destruct (accepted_sound c s Hwf Hv) as (res & s' & Hrun & [_ Hwf']).
    cbn [snd] in Hwf'. exists s'. split; [|assumption].
    destruct res as [b|e].
    + run_ok Hrun. reflexivity.
    + run_raise Hrun. reflexivity.
  - destruct (rejected_untouched c s Hv) as (e & _ & Hrun).
    exists s. split; [|assumption]. run_raise Hrun. reflexivity.
Qed.

Lemma run_calls_keep_well_formed (calls : list call) :
  forall s : st Rpi.t,
    well_formed (Rpi._bus (obj s)) = true ->
    exists s',
      run_calls calls s = (Ok tt, s')
      /\ well_formed (Rpi._bus (obj s')) = true.
Proof.
  unfold run_calls.
  induction calls as [|c calls IH]; intros s Hwf.
  - exists s. now rewrite foreach_nil.
  - destruct (call_keeps_well_formed c s Hwf) as (s1 & Hrun & Hwf1).
    destruct (IH s1 Hwf1) as (s2 & Hrest & Hwf2).
    exists s2. split; [|assumption].
    rewrite foreach_cons. run_ok Hrun. exact Hrest.
Qed.

(** X6. From construction on, with or without hardware and whatever the
    hardware answers, a session of setter calls whose exceptions the
    caller catches runs to its end, and the shadow table it leaves holds
    only device addresses of [_DEV_ADDRS], each with a file of exactly
    eleven registers. *)
Theorem session_keeps_table_well_formed (amplipi : bool)
    (calls : list call) (s0 : st Rpi.t) :
  exists s : st Rpi.t,
    (Rpi.__init__ amplipi ;; run_calls calls) s0 = (Ok tt, s)
    /\ well_formed (Rpi._bus (obj s)) = true.
Proof.
  destruct amplipi.
  - destruct (rpi_init_hw_state s0) as (n & t' & Hinit).
    destruct (run_calls_keep_well_formed calls
                (mkst (Rpi.mk (_Preamps.mk (discovered n) true) true) t')
                (discovered_well_formed n)) as (s & Hrun & Hwf).
    exists s. split; [|assumption]. run_ok Hinit. exact Hrun.
  - destruct (run_calls_keep_well_formed calls
                (mkst (Rpi.mk (_Preamps.mk [] false) true) (trace s0))
                eq_refl) as (s & Hrun & Hwf).
    exists s. split; [|assumption].
    run_ok (rpi_init_mock_state s0). exact Hrun.
Qed.

(** *** The STANDBY register follows the mute flag *)

Lemma consistent_set_reg (ps : list (Z * list Z)) (b am : bool)
    (a r d : Z) :
  Z.to_nat r <> Z.to_nat REG.STANDBY ->
  standby_consistent (Rpi.mk (_Preamps.mk ps b) am) ->
  standby_consistent (Rpi.mk (_Preamps.mk (set_reg a r d ps) b) am).
Proof.
  unfold standby_consistent. cbn [Rpi._bus Rpi._all_muted _Preamps.preamps].
  intros Hr H a' Hm. rewrite dict_mem_set_reg in Hm.
  rewrite reg_of_set_reg_other; [now apply H | now right].
Qed.

Lemma dict_mem_standby_all (v : Z) (ks : list Z) (a : Z)
    (ps : list (Z * list Z)) :
  dict_mem a (standby_all v ks ps) = dict_mem a ps.
Proof.
  destruct (dict_mem a ps) eqn:H.
  - apply dict_mem_keys. rewrite standby_all_keys. now apply dict_mem_keys.
  - destruct (dict_mem a (standby_all v ks ps)) eqn:H'; [|reflexivity].
    apply dict_mem_keys in H'. rewrite standby_all_keys in H'.
    apply dict_mem_keys in H'. congruence.
Qed.

Lemma consistent_standby_all (ps : list (Z * list Z)) (flag : bool) :
  well_formed (_Preamps.mk ps true) = true ->
  standby_consistent
    (Rpi.mk (_Preamps.mk (standby_all (standby_code flag) (dict_keys ps) ps)
               true) flag).
Proof.
  unfold standby_consistent. cbn [Rpi._bus Rpi._all_muted _Preamps.preamps].
  intros Hwf a Hm. rewrite dict_mem_standby_all in Hm.
  apply standby_all_sets; try assumption. now apply dict_mem_keys.
Qed.

(** One call on hardware whose discovered boards answer. *)
Lemma hw_call_step (c : call) (ps : list (Z * list Z)) (t : list event)
    (am : bool) :
  well_formed (_Preamps.mk ps true) = true ->
  responsive E (dict_keys ps) ->
  standby_consistent (Rpi.mk (_Preamps.mk ps true) am) ->
  exists res ps' am' t',
    run_call c (mkst (Rpi.mk (_Preamps.mk ps true) am) t)
    = (res, mkst (Rpi.mk (_Preamps.mk ps' true) am') t')
    /\ well_formed (_Preamps.mk ps' true) = true
    /\ dict_keys ps' = dict_keys ps
    /\ standby_consistent (Rpi.mk (_Preamps.mk ps' true) am')
    /\ (rpi_validates c = true -> res = Ok true).
Proof.
  intros Hwf Hresp Hcons.
  set (s := mkst (Rpi.mk (_Preamps.mk ps true) am) t).
  destruct (rpi_validates c) eqn:Hv.
  2:{ destruct (rejected_untouched c s Hv) as (e & _ & Hrun).
      exists (Raise e), ps, am, t. repeat split; try assumption.
      discriminate. }
  destruct c as [digital | zone mutes | zone sources | zone vol];
    cbn [run_call].
  - destruct (update_sources_accepted digital s Hv) as (output & _ & Hrun).
    rewrite Hrun. unfold s.
    run_ok (hw_write_exact ps t am 8 REG.SRC_AD output Hwf Hresp
              eq_refl ltac:(unfold REG.SRC_AD; lia)).
    do 4 eexists. split; [reflexivity|].
    split; [now apply set_reg_well_formed|].
    split; [apply set_reg_keys|]. split; [|reflexivity].
    apply consistent_set_reg; [|assumption].
    unfold REG.SRC_AD, REG.STANDBY; lia.
  - destruct (update_zone_mutes_accepted zone mutes s Hv)
      as (addr & cfg & Haddr & _ & Hrun).
    rewrite Hrun. unfold s.
    run_ok (hw_write_exact ps t am addr REG.MUTE cfg Hwf Hresp
              (getitem_DEV_ADDRS_member _ _ Haddr)
              ltac:(unfold REG.MUTE; lia)).
    unfold bind at 1. rewrite sync_standby_exact;
      [| now apply set_reg_well_formed | now apply responsive_set_reg].
    destruct (Bool.eqb am (aggregate_muted mutes)) eqn:Hflag.
    + do 4 eexists. split; [reflexivity|].
      split; [now apply set_reg_well_formed|].
      split; [apply set_reg_keys|]. split; [|reflexivity].
      apply consistent_set_reg; [|assumption].
      unfold REG.MUTE, REG.STANDBY; lia.
    + do 4 eexists. split; [reflexivity|].
      split; [apply standby_all_well_formed;
              now apply set_reg_well_formed|].
      split; [now rewrite standby_all_keys, set_reg_keys|].
      split; [|reflexivity].
      apply consistent_standby_all. now apply set_reg_well_formed.
  - destruct (update_zone_sources_accepted zone sources s Hv)
      as (addr & cfg & Haddr & _ & Hrun).
    rewrite Hrun. unfold s.
    run_ok (hw_write_exact ps t am addr REG.CH123_SRC (fst cfg) Hwf Hresp
              (getitem_DEV_ADDRS_member _ _ Haddr)
              ltac:(unfold REG.CH123_SRC; lia)).
    run_ok (hw_write_exact _ (t ++ transfer ps addr REG.CH123_SRC (fst cfg))
              am addr REG.CH456_SRC (snd cfg)
              (set_reg_well_formed addr REG.CH123_SRC (fst cfg) _ _ Hwf)
              (responsive_set_reg _ addr REG.CH123_SRC (fst cfg) _ Hresp)
              (getitem_DEV_ADDRS_member _ _ Haddr)
              ltac:(unfold REG.CH456_SRC; lia)).
    do 4 eexists. split; [reflexivity|].
    split; [now do 2 apply set_reg_well_formed|].
    split; [now rewrite !set_reg_keys|]. split; [|reflexivity].
    apply consistent_set_reg;
      [unfold REG.CH456_SRC, REG.STANDBY; lia|].
    apply consistent_set_reg; [|assumption].
    unfold REG.CH123_SRC, REG.STANDBY; lia.
  - rewrite update_zone_vol_accepted by assumption.
    cbn [rpi_validates] in Hv.
    apply andb_prop in Hv as [Hv _]. apply andb_prop in Hv as [Hz Hp].
    apply Z.leb_le in Hz. apply Z.ltb_lt in Hp.
    rewrite Z.quot_div_nonneg in Hp by lia.
    assert (Hh : 0 <= zone / 6 < 15)
      by (split; [apply Z.div_pos; lia | assumption]).
    pose proof (Z.mod_pos_bound zone 6 ltac:(lia)) as Hm.
    unfold s.
    run_ok (hw_write_exact ps t am ((zone / 6 + 1) * 8)
              (REG.CH1_ATTEN + zone mod 6) (Z.abs vol) Hwf Hresp
              (DEV_ADDRS_member _ Hh) ltac:(unfold REG.CH1_ATTEN; lia)).
    do 4 eexists. split; [reflexivity|].
    split; [now apply set_reg_well_formed|].
    split; [apply set_reg_keys|]. split; [|reflexivity].
    apply consistent_set_reg; [|assumption].
    unfold REG.CH1_ATTEN, REG.STANDBY; lia.
Qed.

(** X7. On hardware whose discovered boards acknowledge their transfers,
    a session of setter calls never changes which boards are in the table,
    and keeps the shadow STANDBY register of every board equal to the code
    of the remembered mute flag: 0x00 when all zones are muted, 0x3F
    otherwise. *)
Theorem standby_register_follows_mute_flag (calls : list call) :
  forall (ps : list (Z * list Z)) (am : bool) (t : list event),
    well_formed (_Preamps.mk ps true) = true ->
    responsive E (dict_keys ps) ->
    standby_consistent (Rpi.mk (_Preamps.mk ps true) am) ->
    exists ps' am' t',
      run_calls calls (mkst (Rpi.mk (_Preamps.mk ps true) am) t)
      = (Ok tt, mkst (Rpi.mk (_Preamps.mk ps' true) am') t')
      /\ dict_keys ps' = dict_keys ps
      /\ forall a, In a (dict_keys ps) ->
           reg_of ps' a REG.STANDBY = Some (if am' then 0x00 else 0x3F).
Proof.
  unfold run_calls.
  induction calls as [|c calls IH]; intros ps am t Hwf Hresp Hcons.
  - exists ps, am, t. rewrite foreach_nil. repeat split.
    intros a Ha. apply dict_mem_keys in Ha. exact (Hcons a Ha).
  - destruct (hw_call_step c ps t am Hwf Hresp Hcons)
      as (res & ps1 & am1 & t1 & Hrun & Hwf1 & Hk1 & Hcons1 & _).
    destruct (IH ps1 am1 t1 Hwf1 ltac:(now rewrite Hk1) Hcons1)
      as (ps2 & am2 & t2 & Hrest & Hk2 & Hst).
    exists ps2, am2, t2. rewrite foreach_cons.
    split; [|split; [congruence | now rewrite <- Hk1]].
    unfold bind at 1, try_except.
    destruct res as [b|e].
    + run_ok Hrun. exact Hrest.
    + run_raise Hrun. exact Hrest.
Qed.
End Sessions.

(** The table the constructor leaves is consistent with its flag. *)
Lemma discovered_standby_consistent (n : nat) :
  standby_consistent (Rpi.mk (_Preamps.mk (discovered n) true) true).
Proof.
  unfold standby_consistent, reg_of, dict_mem, discovered.
  cbn [Rpi._bus Rpi._all_muted _Preamps.preamps].
  intros a. induction (firstn n _DEV_ADDRS) as [|k l IH]; cbn [map dict_get].
  - discriminate.
  - destruct (a =? k); [reflexivity | exact IH].
Qed.

Lemma standby_register_follows_mute_flag_witness :
  let mutes b :=
    map PBool [b; true; true; true; true; true;
               true; true; true; true; true; true] in
  let calls := [Update_zone_mutes 0 (mutes false); Update_zone_vol 7 (-20);
                Update_zone_vol 3 5; Update_zone_mutes 1 (mutes true);
                Update_zone_mutes 9 (mutes false)] in
  exists ps' am' t',
    run_calls (E := env_boards 2) calls
      (mkst (Rpi.mk (_Preamps.mk (discovered 2) true) true) [])
    = (Ok tt, mkst (Rpi.mk (_Preamps.mk ps' true) am') t')
    /\ dict_keys ps' = dict_keys (discovered 2)
    /\ forall a, In a (dict_keys (discovered 2)) ->
         reg_of ps' a REG.STANDBY = Some (if am' then 0x00 else 0x3F).
Proof.
  intros mutes calls.
  apply (standby_register_follows_mute_flag (E := env_boards 2) calls
           (discovered 2) true []).
  - reflexivity.
  - exact env_boards_responsive.
  - exact (discovered_standby_consistent 2).
Defined.

(** ** Reading the shadow registers back: [print_zone_state] *)

Lemma getitem_nth_error {A} (l : list A) (r : Z) (x : A) :
  0 <= r -> nth_error l (Z.to_nat r) = Some x -> getitem l r = Some x.
Proof.
  intros Hr H. unfold getitem.
  assert (Hlt : (Z.to_nat r < length l)%nat)
    by (apply nth_error_Some; congruence).
  rewrite py_pos_in_range by lia. exact H.
Qed.

Lemma reg_of_present (ps : list (Z * list Z)) (b : bool) (a r : Z) :
  well_formed (_Preamps.mk ps b) = true ->
  dict_mem a ps = true ->
  0 <= r < 11 ->
  exists v, reg_of ps a r = Some v.
Proof.
  intros Hwf Hm Hr. destruct (dict_mem_get _ _ Hm) as [regs Hg].
  destruct (well_formed_entry _ _ _ _ Hwf Hg) as [_ Hl].
  unfold reg_of. rewrite Hg.
  destruct (nth_error regs (Z.to_nat r)) as [v|] eqn:Hn; [now exists v|].
  apply nth_error_None in Hn. lia.
Qed.

(** The bits of CH456_SRC never reach the two bits that are kept. *)
Lemma src_bits (r456 x : Z) :
  Z.land (Z.lor (Z.shiftl r456 8) x) 3 = Z.land x 3.
Proof.
  change 3 with (Z.ones 2). apply Z.bits_inj'. intros n Hn.
  rewrite !Z.land_spec, Z.lor_spec, Z.shiftl_spec by lia.
  rewrite Z.testbit_ones_nonneg by lia.
  destruct (Z.ltb_spec n 2) as [Hlt|Hge].
  - rewrite (Z.testbit_neg_r r456 (n - 8)) by lia. reflexivity.
  - now rewrite !andb_false_r.
Qed.

Lemma land_one_odd (x : Z) : Z.land x 1 = Z.b2z (Z.odd x).
Proof.
  change 1 with (Z.ones 1) at 1. rewrite Z.land_ones by lia.
  rewrite <- Z.bit0_odd. symmetry. apply Z.bit0_mod.
Qed.

Lemma land_bit (m k : Z) :
  0 <= k -> (0 <? Z.land m (Z.shiftl 1 k)) = Z.testbit m k.
Proof.
  intros Hk. rewrite Z.shiftl_1_l.
  destruct (Z.testbit m k) eqn:Hb.
  - replace (Z.land m (2 ^ k)) with (2 ^ k).
    + apply Z.ltb_lt. apply Z.pow_pos_nonneg; lia.
    + apply Z.bits_inj'. intros n Hn.
      rewrite Z.land_spec, Z.pow2_bits_eqb by lia.
      destruct (Z.eqb_spec k n) as [->|]; [now rewrite Hb|].
      now rewrite andb_false_r.
  - replace (Z.land m (2 ^ k)) with 0; [reflexivity|].
    apply Z.bits_inj'. intros n Hn.
    rewrite Z.land_spec, Z.pow2_bits_eqb, Z.bits_0 by lia.
    destruct (Z.eqb_spec k n) as [->|]; [now rewrite Hb|].
    now rewrite andb_false_r.
Qed.

(** What [print_zone_state] computes from the shadow registers: the source
    comes from CH123_SRC alone. *)
Lemma print_zone_state_run (ps : list (Z * list Z)) (b : bool)
    (t : list event) (zone src_types r456 r123 atten mute : Z) :
  0 <= zone ->
  let a := (zone / 6 + 1) * 8 in
  let k := zone mod 6 in
  reg_of ps 8 REG.SRC_AD = Some src_types ->
  reg_of ps a REG.CH456_SRC = Some r456 ->
  reg_of ps a REG.CH123_SRC = Some r123 ->
  reg_of ps a (REG.CH1_ATTEN + k) = Some atten ->
  reg_of ps a REG.MUTE = Some mute ->
  let src := Z.land (Z.shiftr r123 (2 * k)) 3 in
  _Preamps.print_zone_state zone (mkst (_Preamps.mk ps b) t)
  = (Ok (src,
         if Z.odd (Z.shiftr src_types src) then "Digital"%string
         else "Analog"%string,
         k, - atten, Z.testbit mute k),
     mkst (_Preamps.mk ps b) t).
Proof.
  intros Hz a k Hst H456 H123 Hat Hmu src.
  assert (Hk : 0 <= k < 6) by (apply Z.mod_pos_bound; lia).
  unfold reg_of in Hst, H456, H123, Hat, Hmu.
  destruct (dict_get 8 ps) as [master|] eqn:Hmaster; [|discriminate].
  destruct (dict_get a ps) as [regs|] eqn:Hregs; [|discriminate].
  unfold _Preamps.print_zone_state.
  rewrite Z.quot_div_nonneg by lia. fold a k.
  rewrite (proj2 (Z.leb_le 0 zone) Hz).
  unfold bind, assert_, ret, get. cbn [obj _Preamps.preamps].
  rewrite Hregs, Hmaster. cbn [must ret].
  rewrite (getitem_nth_error master REG.SRC_AD src_types)
    by (try assumption; unfold REG.SRC_AD; lia).
  rewrite (getitem_nth_error regs REG.CH456_SRC r456)
    by (try assumption; unfold REG.CH456_SRC; lia).
  rewrite (getitem_nth_error regs REG.CH123_SRC r123)
    by (try assumption; unfold REG.CH123_SRC; lia).
  cbn [must ret]. rewrite src_bits. fold src.
  rewrite land_one_odd.
  rewrite (getitem_nth_error regs (REG.CH1_ATTEN + k) atten)
    by (try assumption; unfold REG.CH1_ATTEN; lia).
  rewrite (getitem_nth_error regs REG.MUTE mute)
    by (try assumption; unfold REG.MUTE; lia).
  destruct (Z.odd (Z.shiftr src_types src)); cbn; now rewrite land_bit by lia.
Qed.

Lemma print_zone_state_pure (ps : list (Z * list Z)) (b : bool) (zone : Z) :
  well_formed (_Preamps.mk ps b) = true ->
  0 <= zone ->
  dict_mem ((zone / 6 + 1) * 8) ps = true ->
  dict_mem 8 ps = true ->
  exists src_types r456 r123 atten mute,
    reg_of ps 8 REG.SRC_AD = Some src_types
    /\ reg_of ps ((zone / 6 + 1) * 8) REG.CH456_SRC = Some r456
    /\ reg_of ps ((zone / 6 + 1) * 8) REG.CH123_SRC = Some r123
    /\ reg_of ps ((zone / 6 + 1) * 8) (REG.CH1_ATTEN + zone mod 6)
       = Some atten
    /\ reg_of ps ((zone / 6 + 1) * 8) REG.MUTE = Some mute.
Proof.
  intros Hwf Hz Ha Hm.
  assert (Hk : 0 <= zone mod 6 < 6) by (apply Z.mod_pos_bound; lia).
  destruct (reg_of_present ps b 8 REG.SRC_AD Hwf Hm
              ltac:(unfold REG.SRC_AD; lia)) as [v0 H0].
  destruct (reg_of_present ps b _ REG.CH456_SRC Hwf Ha
              ltac:(unfold REG.CH456_SRC; lia)) as [v1 H1].
  destruct (reg_of_present ps b _ REG.CH123_SRC Hwf Ha
              ltac:(unfold REG.CH123_SRC; lia)) as [v2 H2].
  destruct (reg_of_present ps b _ (REG.CH1_ATTEN + zone mod 6) Hwf Ha
              ltac:(unfold REG.CH1_ATTEN; lia)) as [v3 H3].
  destruct (reg_of_present ps b _ REG.MUTE Hwf Ha
              ltac:(unfold REG.MUTE; lia)) as [v4 H4].
  exists v0, v1, v2, v3, v4. now repeat split.
Qed.

Lemma zone_split (z z' : Z) :
  0 <= z -> 0 <= z' -> z' <> z ->
  (z' / 6 + 1) * 8 <> (z / 6 + 1) * 8 \/ z' mod 6 <> z mod 6.
Proof.
  intros Hz Hz' Hne.
  pose proof (Z.div_mod z 6 ltac:(lia)).
  pose proof (Z.div_mod z' 6 ltac:(lia)).
  destruct (Z.eq_dec (z' / 6) (z / 6)) as [Heq|Hd]; [right | left]; lia.
Qed.

Section ReadBack.
Context {E : Env}.

(** X8. On hardware whose boards answer, after an accepted
    [update_zone_vol zone vol], [print_zone_state] shows [vol] for that
    zone and, for every zone of a board of the table, the source, source
    type and mute state it showed before; the volume of every other zone
    is the one shown before. *)
Theorem print_zone_state_after_update_zone_vol (ps : list (Z * list Z))
    (t : list event) (am : bool) (zone vol : Z) :
  well_formed (_Preamps.mk ps true) = true ->
  responsive E (dict_keys ps) ->
  dict_mem 8 ps = true ->
  0 <= zone < 90 ->
  -79 <= vol <= 0 ->
  exists ps' t',
    Rpi.update_zone_vol zone vol (mkst (Rpi.mk (_Preamps.mk ps true) am) t)
    = (Ok true, mkst (Rpi.mk (_Preamps.mk ps' true) am) t')
    /\ forall z, 0 <= z -> dict_mem ((z / 6 + 1) * 8) ps = true ->
       exists src src_type v muted,
         _Preamps.print_zone_state z (mkst (_Preamps.mk ps true) t)
         = (Ok (src, src_type, z mod 6, v, muted),
            mkst (_Preamps.mk ps true) t)
         /\ _Preamps.print_zone_state z (mkst (_Preamps.mk ps' true) t')
            = (Ok (src, src_type, z mod 6, if z =? zone then vol else v,
                   muted),
               mkst (_Preamps.mk ps' true) t').
Proof.
  intros Hwf Hresp Hmaster Hz Hv.
  assert (Hh : 0 <= zone / 6 < 15).
  { split; [apply Z.div_pos; lia | apply Z.div_lt_upper_bound; lia]. }
  assert (Hk : 0 <= zone mod 6 < 6) by (apply Z.mod_pos_bound; lia).
  set (a := (zone / 6 + 1) * 8). set (r := REG.CH1_ATTEN + zone mod 6).
  exists (set_reg a r (Z.abs vol) ps), (t ++ transfer ps a r (Z.abs vol)).
  split.
  { rewrite update_zone_vol_accepted.
    2:{ cbn [rpi_validates]. rewrite Z.quot_div_nonneg by lia.
        repeat (apply andb_true_intro; split); lia. }
    fold a r.
    run_ok (hw_write_exact ps t am a r (Z.abs vol) Hwf Hresp
              (DEV_ADDRS_member _ Hh)
              ltac:(unfold r, REG.CH1_ATTEN; lia)).
    reflexivity. }
  intros z Hz0 Hboard.
  assert (Hk' : 0 <= z mod 6 < 6) by (apply Z.mod_pos_bound; lia).
  destruct (print_zone_state_pure ps true z Hwf Hz0 Hboard Hmaster)
    as (st & r456 & r123 & atten & mute & H0 & H1 & H2 & H3 & H4).
  exists (Z.land (Z.shiftr r123 (2 * (z mod 6))) 3).
  eexists. exists (- atten), (Z.testbit mute (z mod 6)).
  split.
  - now rewrite (print_zone_state_run ps true t z st r456 r123 atten mute).
  - assert (Hother : forall a' r', Z.to_nat r' <> Z.to_nat r ->
              reg_of (set_reg a r (Z.abs vol) ps) a' r' = reg_of ps a' r').
    { intros a' r' Hr. apply reg_of_set_reg_other. now right. }
    destruct (Z.eqb_spec z zone) as [->|Hne].
    + rewrite (print_zone_state_run _ true _ zone st r456 r123 (Z.abs vol)
                 mute); try assumption.
      * replace (- Z.abs vol) with vol by lia. reflexivity.
      * rewrite Hother; [assumption | unfold r, REG.SRC_AD, REG.CH1_ATTEN; lia].
      * rewrite Hother;
          [assumption | unfold r, REG.CH456_SRC, REG.CH1_ATTEN; lia].
      * rewrite Hother;
          [assumption | unfold r, REG.CH123_SRC, REG.CH1_ATTEN; lia].
      * apply reg_of_set_reg_same; try assumption.
        unfold REG.CH1_ATTEN; lia.
      * rewrite Hother; [assumption | unfold r, REG.MUTE, REG.CH1_ATTEN; lia].
    + rewrite (print_zone_state_run _ true _ z st r456 r123 atten mute);
        try assumption; try reflexivity.
      * rewrite Hother; [assumption | unfold r, REG.SRC_AD, REG.CH1_ATTEN; lia].
      * rewrite Hother;
          [assumption | unfold r, REG.CH456_SRC, REG.CH1_ATTEN; lia].
      * rewrite Hother;
          [assumption | unfold r, REG.CH123_SRC, REG.CH1_ATTEN; lia].
      * rewrite reg_of_set_reg_other; [assumption|].
        destruct (zone_split zone z ltac:(lia) Hz0 Hne) as [Ha|Hc];
          [now left | right]. unfold r, REG.CH1_ATTEN. lia.
      * rewrite Hother; [assumption | unfold r, REG.MUTE, REG.CH1_ATTEN; lia].
Qed.
End ReadBack.

Lemma unpack_high (cfg k : Z) :
  0 <= cfg < 64 -> 3 <= k -> unpack cfg k = 0.
Proof.
  intros Hc Hk. unfold unpack. rewrite Z.shiftr_div_pow2 by lia.
  rewrite Z.div_small; [reflexivity|].
  pose proof (Z.pow_le_mono_r 2 6 (2 * k) ltac:(lia) ltac:(lia)) as H.
  change (2 ^ 6) with 64 in H. lia.
Qed.

Section ReadBackBoard.
Context {E : Env}.

(** An accepted [update_zone_mutes] on hardware that answers, seen from the
    shadow registers: MUTE of the addressed board holds the mask; apart
    from it only STANDBY registers change. *)
Lemma update_zone_mutes_hw_run (ps : list (Z * list Z)) (t : list event)
    (am : bool) (zone : Z) (mutes : list pyval) :
  well_formed (_Preamps.mk ps true) = true ->
  responsive E (dict_keys ps) ->
  rpi_validates (Update_zone_mutes zone mutes) = true ->
  exists addr cfg ps' t',
    getitem _DEV_ADDRS (zone / 6) = Some addr
    /\ fold_pure (mute_step mutes (zone / 6)) (range 6) 0 = Ok cfg
    /\ Rpi.update_zone_mutes zone mutes
         (mkst (Rpi.mk (_Preamps.mk ps true) am) t)
       = (Ok true,
          mkst (Rpi.mk (_Preamps.mk ps' true) (aggregate_muted mutes)) t')
    /\ well_formed (_Preamps.mk ps' true) = true
    /\ (forall a r, Z.to_nat r <> Z.to_nat REG.STANDBY ->
          a <> addr \/ Z.to_nat r <> Z.to_nat REG.MUTE ->
          reg_of ps' a r = reg_of ps a r)
    /\ (dict_mem addr ps = true -> reg_of ps' addr REG.MUTE = Some cfg).
Proof.
  intros Hwf Hresp Hval.
  destruct (update_zone_mutes_accepted zone mutes
              (mkst (Rpi.mk (_Preamps.mk ps true) am) t) Hval)
    as (addr & cfg & Haddr & Hcfg & Hrun).
  assert (Hmute : Z.to_nat REG.MUTE <> Z.to_nat REG.STANDBY)
    by (unfold REG.MUTE, REG.STANDBY; lia).
  assert (Hwf1 : well_formed (_Preamps.mk (set_reg addr REG.MUTE cfg ps) true)
                 = true) by now apply set_reg_well_formed.
  exists addr, cfg.
  exists (if Bool.eqb am (aggregate_muted mutes)
          then set_reg addr REG.MUTE cfg ps
          else standby_all (standby_code (aggregate_muted mutes))
                 (dict_keys ps) (set_reg addr REG.MUTE cfg ps)).
  exists (t ++ transfer ps addr REG.MUTE cfg
            ++ if Bool.eqb am (aggregate_muted mutes) then []
               else flat_map (fun p =>
                      [Sleep 1;
                       SMBus_write_byte_data p REG.STANDBY
                         (standby_code (aggregate_muted mutes)) true])
                      (dict_keys ps)
                    ++ [Sleep (if aggregate_muted mutes then 100
                               else 300)]).
  split; [assumption|]. split; [assumption|]. split.
  { rewrite Hrun.
    run_ok (hw_write_exact ps t am addr REG.MUTE cfg Hwf Hresp
              (getitem_DEV_ADDRS_member _ _ Haddr)
              ltac:(unfold REG.MUTE; lia)).
    unfold bind at 1. rewrite sync_standby_exact;
      [| assumption | now apply responsive_set_reg].
    rewrite set_reg_keys.
    destruct (Bool.eqb am (aggregate_muted mutes)) eqn:Hflag.
    - apply eqb_prop in Hflag. subst am. cbn [ret].
      now rewrite app_nil_r.
    - cbn [ret]. now rewrite <- !app_assoc. }
  split; [|split].
  - destruct (Bool.eqb am (aggregate_muted mutes)); [assumption|].
    now apply standby_all_well_formed.
  - intros a r Hr Har.
    destruct (Bool.eqb am (aggregate_muted mutes)).
    + now apply reg_of_set_reg_other.
    + rewrite standby_all_other by assumption.
      now apply reg_of_set_reg_other.
  - intros Hm.
    destruct (Bool.eqb am (aggregate_muted mutes)).
    + apply reg_of_set_reg_same; try assumption. unfold REG.MUTE; lia.
    + rewrite standby_all_other by assumption.
      apply reg_of_set_reg_same; try assumption. unfold REG.MUTE; lia.
Qed.

(** The same for [update_zone_sources]. *)
Lemma update_zone_sources_hw_run (ps : list (Z * list Z)) (t : list event)
    (am : bool) (zone : Z) (sources : list pyval) :
  well_formed (_Preamps.mk ps true) = true ->
  responsive E (dict_keys ps) ->
  rpi_validates (Update_zone_sources zone sources) = true ->
  exists addr cfg ps' t',
    getitem _DEV_ADDRS (zone / 6) = Some addr
    /\ fold_pure (source_step sources (zone / 6)) (range 6) (0, 0) = Ok cfg
    /\ Rpi.update_zone_sources zone sources
         (mkst (Rpi.mk (_Preamps.mk ps true) am) t)
       = (Ok true, mkst (Rpi.mk (_Preamps.mk ps' true) am) t')
    /\ well_formed (_Preamps.mk ps' true) = true
    /\ (forall a r,
          a <> addr \/ (Z.to_nat r <> Z.to_nat REG.CH123_SRC
                        /\ Z.to_nat r <> Z.to_nat REG.CH456_SRC) ->
          reg_of ps' a r = reg_of ps a r)
    /\ (dict_mem addr ps = true ->
        reg_of ps' addr REG.CH123_SRC = Some (fst cfg)
        /\ reg_of ps' addr REG.CH456_SRC = Some (snd cfg)).
Proof.
  intros Hwf Hresp Hval.
  destruct (update_zone_sources_accepted zone sources
              (mkst (Rpi.mk (_Preamps.mk ps true) am) t) Hval)
    as (addr & cfg & Haddr & Hcfg & Hrun).
  assert (Hwf1 : well_formed
                   (_Preamps.mk (set_reg addr REG.CH123_SRC (fst cfg) ps)
                      true) = true) by now apply set_reg_well_formed.
  exists addr, cfg.
  exists (set_reg addr REG.CH456_SRC (snd cfg)
            (set_reg addr REG.CH123_SRC (fst cfg) ps)).
  eexists. split; [assumption|]. split; [assumption|]. split.
  { rewrite Hrun.
    run_ok (hw_write_exact ps t am addr REG.CH123_SRC (fst cfg) Hwf Hresp
              (getitem_DEV_ADDRS_member _ _ Haddr)
              ltac:(unfold REG.CH123_SRC; lia)).
    run_ok (hw_write_exact _ (t ++ transfer ps addr REG.CH123_SRC (fst cfg))
              am addr REG.CH456_SRC (snd cfg) Hwf1
              (responsive_set_reg _ addr REG.CH123_SRC (fst cfg) _ Hresp)
              (getitem_DEV_ADDRS_member _ _ Haddr)
              ltac:(unfold REG.CH456_SRC; lia)).
    reflexivity. }
  split; [|split].
  - now apply set_reg_well_formed.
  - intros a r Har.
    rewrite reg_of_set_reg_other by tauto.
    apply reg_of_set_reg_other. tauto.
  - intros Hm. split.
    + rewrite reg_of_set_reg_other
        by (right; unfold REG.CH123_SRC, REG.CH456_SRC; lia).
      apply reg_of_set_reg_same; try assumption. unfold REG.CH123_SRC; lia.
    + apply reg_of_set_reg_same; try assumption.
      * now rewrite dict_mem_set_reg.
      * unfold REG.CH456_SRC; lia.
Qed.

(** X9. On hardware whose boards answer, after an accepted
    [update_zone_mutes], [print_zone_state] shows for each of the six
    channels of the addressed board the mute flag just given, and for every
    zone of the table the source, source type and volume it showed before;
    the mute state of the zones of the other boards is unchanged. *)
Theorem print_zone_state_after_update_zone_mutes (ps : list (Z * list Z))
    (t : list event) (am : bool) (zone : Z) (mutes : list pyval)
    (flags : list bool) :
  well_formed (_Preamps.mk ps true) = true ->
  responsive E (dict_keys ps) ->
  dict_mem 8 ps = true ->
  0 <= zone ->
  rpi_validates (Update_zone_mutes zone mutes) = true ->
  addressed mutes zone = map (fun b => Some (PBool b)) flags ->
  exists ps' t',
    Rpi.update_zone_mutes zone mutes
      (mkst (Rpi.mk (_Preamps.mk ps true) am) t)
    = (Ok true,
       mkst (Rpi.mk (_Preamps.mk ps' true) (aggregate_muted mutes)) t')
    /\ forall z, 0 <= z -> dict_mem ((z / 6 + 1) * 8) ps = true ->
       exists src src_type v muted,
         _Preamps.print_zone_state z (mkst (_Preamps.mk ps true) t)
         = (Ok (src, src_type, z mod 6, v, muted),
            mkst (_Preamps.mk ps true) t)
         /\ _Preamps.print_zone_state z (mkst (_Preamps.mk ps' true) t')
            = (Ok (src, src_type, z mod 6, v,
                   if z / 6 =? zone / 6
                   then nth (Z.to_nat (z mod 6)) flags false
                   else muted),
               mkst (_Preamps.mk ps' true) t').
Proof.
  intros Hwf Hresp Hmaster Hzone Hval Hflags.
  destruct (update_zone_mutes_hw_run ps t am zone mutes Hwf Hresp Hval)
    as (addr & cfg & ps' & t' & Haddr & Hcfg & Hrun & Hwf' & Hother & Hsame).
  rewrite (mute_fold_bitmask _ _ _ Hflags) in Hcfg. injection Hcfg as <-.
  destruct (getitem_DEV_ADDRS_nonneg (zone / 6) addr
              ltac:(apply Z.div_pos; lia) Haddr) as [-> _].
  exists ps', t'. split; [assumption|].
  intros z Hz Hboard.
  assert (Hk : 0 <= z mod 6 < 6) by (apply Z.mod_pos_bound; lia).
  destruct (print_zone_state_pure ps true z Hwf Hz Hboard Hmaster)
    as (st & r456 & r123 & atten & mute & H0 & H1 & H2 & H3 & H4).
  exists (Z.land (Z.shiftr r123 (2 * (z mod 6))) 3).
  eexists. exists (- atten), (Z.testbit mute (z mod 6)).
  split.
  - now rewrite (print_zone_state_run ps true t z st r456 r123 atten mute).
  - assert (Hkeep : forall a r, 0 <= r < 11 -> r <> REG.MUTE ->
              r <> REG.STANDBY -> reg_of ps' a r = reg_of ps a r).
    { intros a r Hr Hm Hs. apply Hother; [|right];
        unfold REG.MUTE, REG.STANDBY in *; lia. }
    destruct (Z.eqb_spec (z / 6) (zone / 6)) as [Heq|Hne].
    + rewrite <- Heq in Hsame.
      rewrite (print_zone_state_run _ true _ z st r456 r123 atten
                 (bitmask flags)); try assumption.
      * rewrite <- (testbit_bitmask flags (Z.to_nat (z mod 6))).
        now rewrite Z2Nat.id by lia.
      * rewrite Hkeep; [assumption | |  | ];
          unfold REG.SRC_AD, REG.MUTE, REG.STANDBY; lia.
      * rewrite Hkeep; [assumption | |  | ];
          unfold REG.CH456_SRC, REG.MUTE, REG.STANDBY; lia.
      * rewrite Hkeep; [assumption | |  | ];
          unfold REG.CH123_SRC, REG.MUTE, REG.STANDBY; lia.
      * rewrite Hkeep; [assumption | |  | ];
          unfold REG.CH1_ATTEN, REG.MUTE, REG.STANDBY; lia.
      * now apply Hsame.
    + rewrite (print_zone_state_run _ true _ z st r456 r123 atten mute);
        try assumption; try reflexivity.
      * rewrite Hkeep; [assumption | |  | ];
          unfold REG.SRC_AD, REG.MUTE, REG.STANDBY; lia.
      * rewrite Hkeep; [assumption | |  | ];
          unfold REG.CH456_SRC, REG.MUTE, REG.STANDBY; lia.
      * rewrite Hkeep; [assumption | |  | ];
          unfold REG.CH123_SRC, REG.MUTE, REG.STANDBY; lia.
      * rewrite Hkeep; [assumption | |  | ];
          unfold REG.CH1_ATTEN, REG.MUTE, REG.STANDBY; lia.
      * rewrite Hother; [assumption | unfold REG.MUTE, REG.STANDBY; lia |].
        left. lia.
Qed.

(** X10. On hardware whose boards answer, after an accepted
    [update_zone_sources] with selectors in 0..3, [print_zone_state] shows
    the selector just given for channels 0, 1 and 2 of the addressed board,
    but 0 for its channels 3, 4 and 5 whatever was selected for them: the
    value of CH456_SRC never reaches the bits it keeps.  Volume and mute
    state of every zone, and the source of the zones of the other boards,
    are the ones shown before. *)
Theorem print_zone_state_after_update_zone_sources (ps : list (Z * list Z))
    (t : list event) (am : bool) (zone : Z) (sources : list pyval)
    (s0 s1 s2 s3 s4 s5 : Z) :
  well_formed (_Preamps.mk ps true) = true ->
  responsive E (dict_keys ps) ->
  dict_mem 8 ps = true ->
  0 <= zone ->
  rpi_validates (Update_zone_sources zone sources) = true ->
  addressed sources zone
  = map (fun n => Some (PInt n)) [s0; s1; s2; s3; s4; s5] ->
  Forall (fun n => 0 <= n <= 3) [s0; s1; s2] ->
  exists ps' t' src_types,
    Rpi.update_zone_sources zone sources
      (mkst (Rpi.mk (_Preamps.mk ps true) am) t)
    = (Ok true, mkst (Rpi.mk (_Preamps.mk ps' true) am) t')
    /\ reg_of ps 8 REG.SRC_AD = Some src_types
    /\ let src_type src :=
         if Z.odd (Z.shiftr src_types src) then "Digital"%string
         else "Analog"%string in
       forall z, 0 <= z -> dict_mem ((z / 6 + 1) * 8) ps = true ->
       exists src v muted,
         _Preamps.print_zone_state z (mkst (_Preamps.mk ps true) t)
         = (Ok (src, src_type src, z mod 6, v, muted),
            mkst (_Preamps.mk ps true) t)
         /\ let src' :=
              if z / 6 =? zone / 6
              then (if z mod 6 <? 3
                    then nth (Z.to_nat (z mod 6)) [s0; s1; s2] 0 else 0)
              else src in
            _Preamps.print_zone_state z (mkst (_Preamps.mk ps' true) t')
            = (Ok (src', src_type src', z mod 6, v, muted),
               mkst (_Preamps.mk ps' true) t').
Proof.
  intros Hwf Hresp Hmaster Hzone Hval Hids Hrange.
  destruct (update_zone_sources_hw_run ps t am zone sources Hwf Hresp Hval)
    as (addr & cfg & ps' & t' & Haddr & Hcfg & Hrun & Hwf' & Hother & Hsame).
  destruct (source_fold_pack _ _ _ Hids)
    as (x0 & x1 & x2 & x3 & x4 & x5 & Hx & Hfold).
  injection Hx as <- <- <- <- <- <-.
  rewrite Hfold in Hcfg. injection Hcfg as <-. cbn [fst snd] in Hsame.
  destruct (getitem_DEV_ADDRS_nonneg (zone / 6) addr
              ltac:(apply Z.div_pos; lia) Haddr) as [-> _].
  inversion Hrange as [|? ? R0 Hr']; subst.
  inversion Hr' as [|? ? R1 Hr'']; subst.
  inversion Hr'' as [|? ? R2 _]; subst.
  destruct (unpack_pack3 s0 s1 s2 R0 R1 R2) as (U0 & U1 & U2 & Ulo).
  destruct (reg_of_present ps true 8 REG.SRC_AD Hwf Hmaster
              ltac:(unfold REG.SRC_AD; lia)) as [st Hst].
  exists ps', t', st. split; [assumption|]. split; [assumption|].
  intros src_type z Hz Hboard.
  assert (Hk : 0 <= z mod 6 < 6) by (apply Z.mod_pos_bound; lia).
  destruct (print_zone_state_pure ps true z Hwf Hz Hboard Hmaster)
    as (st' & r456 & r123 & atten & mute & H0 & H1 & H2 & H3 & H4).
  assert (st' = st) by congruence. subst st'.
  exists (Z.land (Z.shiftr r123 (2 * (z mod 6))) 3), (- atten),
    (Z.testbit mute (z mod 6)).
  split.
  - now rewrite (print_zone_state_run ps true t z st r456 r123 atten mute).
  - assert (Hkeep : forall a r, 0 <= r < 11 -> r <> REG.CH123_SRC ->
              r <> REG.CH456_SRC -> reg_of ps' a r = reg_of ps a r).
    { intros a r Hr Hm Hs. apply Hother. right.
      unfold REG.CH123_SRC, REG.CH456_SRC in *; lia. }
    cbv zeta.
    destruct (Z.eqb_spec (z / 6) (zone / 6)) as [Heq|Hne].
    + rewrite <- Heq in Hsame. destruct (Hsame Hboard) as [Hlo Hhi].
      rewrite (print_zone_state_run _ true _ z st (pack3 s3 s4 s5)
                 (pack3 s0 s1 s2) atten mute); try assumption.
      * fold (unpack (pack3 s0 s1 s2) (z mod 6)).
        assert (Hsrc : unpack (pack3 s0 s1 s2) (z mod 6)
                       = if z mod 6 <? 3
                         then nth (Z.to_nat (z mod 6)) [s0; s1; s2] 0
                         else 0).
        { destruct (Z.ltb_spec (z mod 6) 3) as [Hlt|Hge].
          - assert (Hc : z mod 6 = 0 \/ z mod 6 = 1 \/ z mod 6 = 2) by lia.
            destruct Hc as [-> | [-> | ->]]; assumption.
          - now apply unpack_high. }
        rewrite Hsrc. reflexivity.
      * rewrite Hkeep; [assumption | |  | ];
          unfold REG.SRC_AD, REG.CH123_SRC, REG.CH456_SRC; lia.
      * rewrite Hkeep; [assumption | |  | ];
          unfold REG.CH1_ATTEN, REG.CH123_SRC, REG.CH456_SRC; lia.
      * rewrite Hkeep; [assumption | |  | ];
          unfold REG.MUTE, REG.CH123_SRC, REG.CH456_SRC; lia.
    + assert (Ha : (z / 6 + 1) * 8 <> (zone / 6 + 1) * 8) by lia.
      rewrite (print_zone_state_run _ true _ z st r456 r123 atten mute);
        try assumption; try reflexivity.
      * rewrite Hkeep; [assumption | |  | ];
          unfold REG.SRC_AD, REG.CH123_SRC, REG.CH456_SRC; lia.
      * rewrite Hother; [assumption | now left].
      * rewrite Hother; [assumption | now left].
      * rewrite Hother; [assumption | now left].
      * rewrite Hother; [assumption | now left].
Qed.
End ReadBackBoard.

Lemma print_zone_state_after_update_zone_vol_witness :
  exists ps' t',
    Rpi.update_zone_vol (E := env_boards 2) 7 (-30)
      (mkst (Rpi.mk (_Preamps.mk (discovered 2) true) true) [])
    = (Ok true, mkst (Rpi.mk (_Preamps.mk ps' true) true) t')
    /\ fst (_Preamps.print_zone_state 7 (mkst (_Preamps.mk ps' true) t'))
       = Ok (0, "Digital"%string, 1, -30, true)
    /\ fst (_Preamps.print_zone_state 8 (mkst (_Preamps.mk ps' true) t'))
       = Ok (0, "Digital"%string, 2, -79, true).
Proof.
  destruct (print_zone_state_after_update_zone_vol (E := env_boards 2)
              (discovered 2) [] true 7 (-30)
              eq_refl env_boards_responsive eq_refl
              ltac:(lia) ltac:(lia)) as (ps' & t' & Hrun & Hall).
  exists ps', t'. split; [exact Hrun|]. split.
  - destruct (Hall 7 ltac:(lia) eq_refl)
      as (src & ty & v & mu & Hb & Ha).
    rewrite Ha. vm_compute in Hb. injection Hb as <- <- <- <-. reflexivity.
  - destruct (Hall 8 ltac:(lia) eq_refl)
      as (src & ty & v & mu & Hb & Ha).
    rewrite Ha. vm_compute in Hb. injection Hb as <- <- <- <-. reflexivity.
Defined.

Lemma print_zone_state_after_update_zone_mutes_witness :
  let mutes := map PBool [true; true; true; true; true; true;
                          true; false; true; true; true; true] in
  exists ps' t',
    Rpi.update_zone_mutes (E := env_boards 2) 7 mutes
      (mkst (Rpi.mk (_Preamps.mk (discovered 2) true) true) [])
    = (Ok true, mkst (Rpi.mk (_Preamps.mk ps' true) false) t')
    /\ fst (_Preamps.print_zone_state 7 (mkst (_Preamps.mk ps' true) t'))
       = Ok (0, "Digital"%string, 1, -79, false)
    /\ fst (_Preamps.print_zone_state 6 (mkst (_Preamps.mk ps' true) t'))
       = Ok (0, "Digital"%string, 0, -79, true).
Proof.
  intros mutes.
  destruct (print_zone_state_after_update_zone_mutes (E := env_boards 2)
              (discovered 2) [] true 7 mutes
              [true; false; true; true; true; true]
              eq_refl env_boards_responsive eq_refl
              ltac:(lia) eq_refl eq_refl) as (ps' & t' & Hrun & Hall).
  exists ps', t'. split; [exact Hrun|]. split.
  - destruct (Hall 7 ltac:(lia) eq_refl)
      as (src & ty & v & mu & Hb & Ha).
    rewrite Ha. vm_compute in Hb. injection Hb as <- <- <- <-. reflexivity.
  - destruct (Hall 6 ltac:(lia) eq_refl)
      as (src & ty & v & mu & Hb & Ha).
    rewrite Ha. vm_compute in Hb. injection Hb as <- <- <- <-. reflexivity.
Defined.

Lemma print_zone_state_after_update_zone_sources_witness :
  let sources := map PInt [0; 0; 0; 0; 0; 0; 1; 2; 3; 3; 2; 1] in
  exists ps' t',
    Rpi.update_zone_sources (E := env_boards 2) 7 sources
      (mkst (Rpi.mk (_Preamps.mk (discovered 2) true) true) [])
    = (Ok true, mkst (Rpi.mk (_Preamps.mk ps' true) true) t')
    /\ fst (_Preamps.print_zone_state 8 (mkst (_Preamps.mk ps' true) t'))
       = Ok (3, "Digital"%string, 2, -79, true)
    /\ fst (_Preamps.print_zone_state 9 (mkst (_Preamps.mk ps' true) t'))
       = Ok (0, "Digital"%string, 3, -79, true).
Proof.
  intros sources.
  destruct (print_zone_state_after_update_zone_sources (E := env_boards 2)
              (discovered 2) [] true 7 sources 1 2 3 3 2 1
              eq_refl env_boards_responsive eq_refl
              ltac:(lia) eq_refl eq_refl
              ltac:(repeat constructor; lia))
    as (ps' & t' & st & Hrun & Hst & Hall).
  vm_compute in Hst. injection Hst as Hst. subst st.
  exists ps', t'. split; [exact Hrun|]. split.
  - destruct (Hall 8 ltac:(lia) eq_refl) as (src & v & mu & Hb & Ha).
    cbv zeta in Ha. rewrite Ha.
    vm_compute in Hb. injection Hb as Hsrc _ Hv Hmu. subst src v mu.
    reflexivity.
  - destruct (Hall 9 ltac:(lia) eq_refl) as (src & v & mu & Hb & Ha).
    cbv zeta in Ha. rewrite Ha.
    vm_compute in Hb. injection Hb as Hsrc _ Hv Hmu. subst src v mu.
    reflexivity.
Defined.

(** * Further properties of [hw.py] *)

Lemma range_pos (n : Z) :
  1 <= n -> range n = 0 :: map Z.of_nat (seq 1 (Z.to_nat n - 1)).
Proof.
  intros Hn. unfold range.
  replace (Z.to_nat n) with (S (Z.to_nat n - 1)) at 1 by lia.
  reflexivity.
Qed.

Section FlashFailures.
Context {E : Env}.

(** [flash] always starts with unit 0, whatever the chain. *)
Lemma flash_starts_with_master (filepath : string) (baud : Z)
    (s : st Preamps.t) :
  Z_in baud Preamps.BAUD_RATES = true ->
  exists rest,
    Preamps.flash filepath baud s
    = (Preamps.flash_unit filepath baud 0 ;;
       foreach rest (Preamps.flash_unit filepath baud)) s.
Proof.
  intros Hb. unfold Preamps.flash. rewrite Hb. cbn [negb].
  unfold bind at 1. cbn [get]. cbv zeta.
  set (n := if Preamps.__len__ (obj s) =? 0 then 1
            else Preamps.__len__ (obj s)).
  assert (Hn : 1 <= n).
  { unfold n, Preamps.__len__, len.
    destruct (Z.eqb_spec (Z.of_nat (length (Preamps.preamps (obj s)))) 0);
      lia. }
  rewrite (range_pos n Hn). eexists. now rewrite foreach_cons.
Qed.

(** X11. When the flashing tool fails on the first unit, [flash] raises
    [CalledProcessError] at once, whatever the chain: the master has been
    reset into its bootloader and is left there, no board is reset back
    into its application, no other unit is touched and the list of boards
    is unchanged. *)
Theorem flash_tool_failure_leaves_bootloader (filepath : string) (baud : Z)
    (s : st Preamps.t) :
  Z_in baud Preamps.BAUD_RATES = true ->
  stm32flash E (trace s ++ master_reset_events true ++ [Sleep 10])
    baud filepath = false ->
  Preamps.flash filepath baud s
  = (Raise CalledProcessError,
     mkst (obj s)
          (trace s ++ master_reset_events true
             ++ [Sleep 10; Stm32flash baud filepath false])).
Proof.
  intros Hb Hfail.
  destruct (flash_starts_with_master filepath baud s Hb) as (rest & ->).
  unfold bind at 1. unfold Preamps.flash_unit.
  run_ok (reset_into_bootloader s).
  change (range 0) with (@nil Z).
  unfold bind at 1. rewrite foreach_nil.
  unfold bind at 1. unfold run_stm32flash at 1.
  cbn [obj trace]. rewrite Hfail.
  now rewrite <- !app_assoc.
Qed.

(** X12. When the master no longer answers once unit 0 has been
    flashed, [flash] ends with an [IndexError] from the version readback,
    whatever the chain was before: after the flashing tool the master is
    reset twice (the address frame goes out at 115200 and then at 9600
    baud), the enumeration probes address 8 once, the list of boards is
    left empty, and no other unit is flashed. *)
Theorem flash_master_lost (filepath : string) (baud : Z)
    (s : st Preamps.t) :
  Z_in baud Preamps.BAUD_RATES = true ->
  let t1 := trace s ++ master_reset_events true ++ [Sleep 10] in
  let t2 := t1 ++ [Stm32flash baud filepath true] in
  stm32flash E t1 baud filepath = true ->
  (forall t', answers E (t2 ++ t') 0 = false) ->
  Preamps.flash filepath baud s
  = (Raise IndexError,
     mkst (Preamps.mk [])
          (trace s ++ master_reset_events true
             ++ [Sleep 10; Stm32flash baud filepath true]
             ++ reset_master_events false ++ [probe 0 false])).
Proof.
  intros Hb t1 t2 Hok Hdead.
  destruct (flash_starts_with_master filepath baud s Hb) as (rest & ->).
  unfold bind at 1. unfold Preamps.flash_unit.
  run_ok (reset_into_bootloader s).
  change (range 0) with (@nil Z).
  unfold bind at 1. rewrite foreach_nil.
  unfold bind at 1. unfold run_stm32flash at 1.
  cbn [obj trace]. fold t1. rewrite Hok. fold t2.
  destruct (enumerate_run
              (mkst (obj s) (t2 ++ reset_master_events false)))
    as (L & HL & Hrun & Hyes & _).
  assert (L = 0%nat) as ->.
  { destruct L as [|L]; [reflexivity|]. exfalso.
    specialize (Hyes 0%nat ltac:(lia)). cbn [trace] in Hyes.
    rewrite <- app_assoc, Hdead in Hyes. discriminate. }
  unfold bind at 1. rewrite reset_master_then_enumerate.
  cbn [obj trace]. rewrite Hdead, Hrun. cbn [trace].
  unfold Preamps.__getitem__, bind, get, must, raise.
  cbn [obj Preamps.preamps chain hops seq map getitem].
  unfold t2, t1. cbn [enumerate_events probes_answered hops seq map Nat.ltb
                      Nat.leb Z.to_nat Preamps.MAX_UNITS Pos.to_nat
                      Pos.iter_op Nat.add app Z.of_nat].
  now rewrite <- !app_assoc.
Qed.
End FlashFailures.

Lemma flash_tool_failure_leaves_bootloader_witness :
  let E := {| ack := fun _ _ _ _ => true;
              peek := fun _ _ _ => Some 0;
              stm32flash := fun _ _ _ => false |} in
  Preamps.flash (E := E) "fw.bin" 115200
    (mkst (Preamps.mk (chain 3)) [])
  = (Raise CalledProcessError,
     mkst (Preamps.mk (chain 3))
          (master_reset_events true
             ++ [Sleep 10; Stm32flash 115200 "fw.bin" false])).
Proof.
  intros E.
  apply (flash_tool_failure_leaves_bootloader (E := E) "fw.bin" 115200
           (mkst (Preamps.mk (chain 3)) [])); reflexivity.
Defined.

(** Three boards that answer until they are flashed: the chain the
    constructor finds. *)
Lemma bricked_boot :
  Preamps.__init__ (E := env_bricked 3) false (mkst (Preamps.mk []) [])
  = (Ok tt,
     mkst (Preamps.mk (chain 3))
          [SMBus_open; probe 0 true; probe 1 true; probe 2 true;
           probe 3 false]).
Proof. reflexivity. Qed.

Lemma flash_master_lost_witness :
  let E := env_bricked 3 in
  let s := snd (Preamps.__init__ (E := E) false (mkst (Preamps.mk []) [])) in
  Preamps.preamps (obj s) = chain 3
  /\ Preamps.flash (E := E) "fw.bin" 115200 s
     = (Raise IndexError,
        mkst (Preamps.mk [])
             (trace s ++ master_reset_events true
                ++ [Sleep 10; Stm32flash 115200 "fw.bin" true]
                ++ reset_master_events false ++ [probe 0 false])).
Proof.
  intros E s. split; [reflexivity|].
  apply (flash_master_lost (E := E) "fw.bin" 115200 s).
  - reflexivity.
  - reflexivity.
  - intros t'. reflexivity.
Defined.

(** ** The UART passthrough bits of the EXPANSION register *)

Section Passthrough.
Context {E : Env} {O : Type}.

(** X13. [uart_passthrough] is one read of the EXPANSION register
    followed by one write of it: bits 0 and 1 (reset line and BOOT0 of the
    next unit) are written back as read; bits 2 and 3 are set when the
    passthrough is switched on, with the higher bits kept, and every bit
    above bit 1 is cleared when it is switched off.  When the read fails,
    [OSError] is raised and nothing is written. *)
Theorem uart_passthrough_keeps_low_bits (p : Preamp.t) (on : bool)
    (s : st O) :
  let a := Preamp.addr p in
  match peek E (trace s) a Preamp.Reg.EXPANSION with
  | None =>
      Preamp.uart_passthrough p on s
      = (Raise OSError,
         mkst (obj s)
              (trace s ++ [SMBus_read_byte_data a Preamp.Reg.EXPANSION None]))
  | Some v =>
      exists w,
        let t1 := trace s
                  ++ [SMBus_read_byte_data a Preamp.Reg.EXPANSION (Some v)] in
        let ok := ack E t1 a Preamp.Reg.EXPANSION w in
        Preamp.uart_passthrough p on s
        = (if ok then Ok tt else Raise OSError,
           mkst (obj s)
                (t1 ++ [SMBus_write_byte_data a Preamp.Reg.EXPANSION w ok]))
        /\ (forall i, 0 <= i ->
              Z.testbit w i
              = if i <? 2 then Z.testbit v i
                else if on then (i <? 4) || Z.testbit v i else false)
        /\ (on = false -> 0 <= w <= 3)
  end.
Proof.
  intros a. unfold Preamp.uart_passthrough. fold a.
  unfold bind, smbus_read.
  destruct (peek E (trace s) a Preamp.Reg.EXPANSION) as [v|]; [|reflexivity].
  exists (if on then Z.lor v 12 else Z.land v 3). cbv zeta.
  split; [|split].
  - unfold smbus_write. cbn [obj trace].
    match goal with
    | |- context [ack E ?h a ?r ?d] => destruct (ack E h a r d)
    end; reflexivity.
  - intros i Hi. destruct on.
    + rewrite Z.lor_spec. change 12 with (Z.shiftl (Z.ones 2) 2).
      rewrite Z.shiftl_spec by lia.
      destruct (Z.ltb_spec i 2) as [Hlt|Hge].
      * rewrite (Z.testbit_neg_r (Z.ones 2) (i - 2)) by lia.
        apply orb_false_r.
      * rewrite (Z.testbit_ones_nonneg 2 (i - 2)) by lia.
        destruct (Z.ltb_spec (i - 2) 2), (Z.ltb_spec i 4); try lia;
          destruct (Z.testbit v i); reflexivity.
    + rewrite Z.land_spec. change 3 with (Z.ones 2).
      rewrite Z.testbit_ones_nonneg by lia.
      destruct (Z.ltb_spec i 2); [apply andb_true_r | apply andb_false_r].
  - intros ->. change (Z.land v 3) with (Z.land v (Z.ones 2)).
    rewrite Z.land_ones by lia. change (2 ^ 2) with 4.
    pose proof (Z.mod_pos_bound v 4 ltac:(lia)). lia.
Qed.
End Passthrough.

(** ** The list of boards as a container *)

Lemma py_pos_mod (n : nat) (key : Z) :
  - Z.of_nat n <= key < Z.of_nat n ->
  py_pos n key = Some (Z.to_nat (key mod Z.of_nat n)).
Proof.
  intros H. unfold py_pos.
  destruct (Z.leb_spec 0 key) as [Hpos|Hneg].
  - destruct (Z.ltb_spec key (Z.of_nat n)); [|lia]. cbn [andb].
    now rewrite Z.mod_small by lia.
  - cbn [andb].
    destruct (Z.leb_spec (- Z.of_nat n) key); [|lia].
    destruct (Z.ltb_spec key 0); [|lia]. cbn [andb].
    rewrite <- (Z.mod_small (key + Z.of_nat n) (Z.of_nat n)) at 1 by lia.
    rewrite <- (Z_mod_plus_full key 1 (Z.of_nat n)).
    now rewrite Z.mul_1_l.
Qed.

Lemma py_pos_out (n : nat) (key : Z) :
  ~ (- Z.of_nat n <= key < Z.of_nat n) -> py_pos n key = None.
Proof.
  intros H. unfold py_pos.
  destruct (Z.leb_spec 0 key), (Z.ltb_spec key (Z.of_nat n)),
    (Z.leb_spec (- Z.of_nat n) key), (Z.ltb_spec key 0);
    cbn [andb]; try reflexivity; lia.
Qed.

(** X14. [__setitem__] followed by [__getitem__]: an index from [-len] to
    [len - 1] is accepted by both, a negative one counting from the end;
    the length is unchanged, the board stored is the one read back under
    every index that denotes the same position, and every other position
    keeps its board.  An index outside that range raises [IndexError] in
    both and changes nothing. *)
Theorem preamps_setitem_then_getitem (ps : list Preamp.t) (t : list event)
    (key : Z) (v : Preamp.t) :
  let n := len ps in
  let s := mkst (Preamps.mk ps) t in
  if (- n <=? key) && (key <? n) then
    exists ps',
      Preamps.__setitem__ key v s = (Ok tt, mkst (Preamps.mk ps') t)
      /\ len ps' = n
      /\ forall key',
           Preamps.__getitem__ key' (mkst (Preamps.mk ps') t)
           = (if (- n <=? key') && (key' <? n)
                 && (key' mod n =? key mod n)
              then Ok v
              else fst (Preamps.__getitem__ key' s),
              mkst (Preamps.mk ps') t)
  else
    Preamps.__setitem__ key v s = (Raise IndexError, s)
    /\ Preamps.__getitem__ key s = (Raise IndexError, s).
Proof.
  intros n s. unfold n, s, len. clear n s.
  destruct (Z.leb_spec (- Z.of_nat (length ps)) key) as [Hlo|Hlo];
    destruct (Z.ltb_spec key (Z.of_nat (length ps))) as [Hhi|Hhi];
    cbn [andb].
  2-4: unfold Preamps.__setitem__, Preamps.__getitem__, bind, get, setitem,
         getitem; cbn [obj Preamps.preamps];
       rewrite py_pos_out by lia; split; reflexivity.
  assert (Hn : 0 < Z.of_nat (length ps)) by lia.
  pose proof (Z.mod_pos_bound key _ Hn) as Hk.
  exists (replace_nth (Z.to_nat (key mod Z.of_nat (length ps))) v ps).
  split; [|split].
  - unfold Preamps.__setitem__, bind, get, setitem.
    cbn [obj Preamps.preamps]. now rewrite py_pos_mod by lia.
  - now rewrite length_replace_nth.
  - intros key'.
    unfold Preamps.__getitem__, bind, get, getitem.
    cbn [obj Preamps.preamps]. rewrite length_replace_nth.
    destruct (Z.leb_spec (- Z.of_nat (length ps)) key') as [Hlo'|Hlo'];
      destruct (Z.ltb_spec key' (Z.of_nat (length ps))) as [Hhi'|Hhi'];
      cbn [andb].
    2-4: rewrite py_pos_out by lia; reflexivity.
    pose proof (Z.mod_pos_bound key' _ Hn) as Hk'.
    rewrite py_pos_mod by lia.
    destruct (Z.eqb_spec (key' mod Z.of_nat (length ps))
                (key mod Z.of_nat (length ps))) as [Heq|Hne].
    + rewrite Heq, nth_error_replace_nth by lia. reflexivity.
    + rewrite nth_error_replace_nth_other by lia.
      destruct (nth_error ps _); reflexivity.
Qed.

(** ** Construction of the chain manager *)

Lemma enumerate_events_bus_only (L : nat) :
  filter is_gpio_or_serial (enumerate_events L) = [].
Proof.
  unfold enumerate_events, probes_answered. rewrite filter_app.
  replace (filter is_gpio_or_serial
             (map (fun hop => probe hop true) (hops 0 L))) with (@nil event).
  - destruct (L <? Z.to_nat Preamps.MAX_UNITS)%nat; reflexivity.
  - induction (hops 0 L) as [|h l IH]; [reflexivity | exact IH].
Qed.

Section Construction.
Context {E : Env}.

(** X15. The constructor of [Preamps] opens the bus, forgets the boards
    it may have known and leaves the chain found by the enumeration, at
    most six boards at the addresses 8, 16, ...  With [reset=False] it
    only probes: nothing happens on the GPIO pins or the UART.  With
    [reset=True] the master is reset and given its address first. *)
Theorem preamps_init_enumerates (reset_ : bool) (s : st Preamps.t) :
  let answered :=
    answers E ((trace s ++ [SMBus_open]) ++ master_reset_events false
                 ++ [Serial_write 115200 address_frame]) 0 in
  exists L : nat,
    (L <= 6)%nat
    /\ Preamps.__init__ reset_ s
       = (Ok tt,
          mkst (Preamps.mk (chain L))
               (trace s ++ [SMBus_open]
                  ++ (if reset_ then reset_master_events answered else [])
                  ++ enumerate_events L))
    /\ map Preamp.addr (chain L)
       = map (fun hop => (hop + 1) * 8) (hops 0 L)
    /\ (reset_ = false ->
        filter is_gpio_or_serial ([SMBus_open] ++ enumerate_events L) = []).
Proof.
  intros answered. unfold Preamps.__init__.
  unfold bind at 1. unfold emit at 1. unfold bind at 1. unfold put at 1.
  cbn [obj trace].
  destruct reset_.
  - destruct (reset_master_run
                (mkst (Preamps.mk []) (trace s ++ [SMBus_open])))
      as (L & HL & Hrun & _).
    cbn [trace obj] in Hrun. fold answered in Hrun.
    exists L. split; [exact HL|]. split; [|split].
    + rewrite Hrun. now rewrite <- !app_assoc.
    + apply chain_addresses.
    + discriminate.
  - destruct (enumerate_run
                (mkst (Preamps.mk []) (trace s ++ [SMBus_open])))
      as (L & HL & Hrun & _).
    exists L. split; [exact HL|]. split; [|split].
    + rewrite Hrun. cbn [trace app]. now rewrite <- !app_assoc.
    + apply chain_addresses.
    + intros _. cbn [app filter is_gpio_or_serial].
      apply enumerate_events_bus_only.
Qed.
End Construction.

(** ** Flashing a whole chain *)

Lemma foreach_flat {O X} (body : X -> M O unit) (ev : X -> list event)
    (o : O) (l : list X) :
  (forall x t, In x l -> body x (mkst o t) = (Ok tt, mkst o (t ++ ev x))) ->
  forall t,
    foreach l body (mkst o t) = (Ok tt, mkst o (t ++ flat_map ev l)).
Proof.
  induction l as [|x l IH]; intros Hbody t.
  - rewrite foreach_nil. cbn. now rewrite app_nil_r.
  - rewrite foreach_cons.
    run_ok (Hbody x t (or_introl eq_refl)).
    rewrite IH by (intros y t' Hy; apply Hbody; now right).
    cbn [flat_map]. now rewrite <- app_assoc.
Qed.

Section FlashChain.
Context {E : Env}.
Variable L : nat.
Variable vals : Z -> Z -> Z.
Hypothesis Hlen : (1 <= L <= 6)%nat.
Hypothesis Hack : chain_answers E L.
Hypothesis Hread : readable E vals.

Lemma ack_chain (t : list event) (hop r d : Z) :
  0 <= hop < Z.of_nat L -> ack E t ((hop + 1) * 8) r d = true.
Proof.
  intros H. rewrite Hack, Z.mod_mul by lia.
  repeat (apply andb_true_intro; split); lia.
Qed.

Lemma answers_chain (t : list event) (i : nat) :
  answers E t (Z.of_nat i) = (i <? L)%nat.
Proof.
  unfold answers. rewrite Hack, Z.mod_mul by lia.
  destruct (Nat.ltb_spec i L).
  - repeat (apply andb_true_intro; split); lia.
  - rewrite andb_true_r. apply andb_false_intro2. lia.
Qed.

Lemma enumerate_chain (s : st Preamps.t) :
  Preamps.enumerate s
  = (Ok tt, mkst (Preamps.mk (chain L)) (trace s ++ enumerate_events L)).
Proof.
  destruct (enumerate_run s) as (L' & HL' & Hrun & Hyes & Hno).
  change (Z.to_nat Preamps.MAX_UNITS) with 6%nat in HL', Hno.
  assert (L' = L) as ->; [|exact Hrun].
  destruct (Nat.lt_trichotomy L' L) as [Hlt | [Heq | Hgt]];
    [|assumption|].
  - specialize (Hno ltac:(lia)). rewrite answers_chain in Hno.
    apply Nat.ltb_ge in Hno. lia.
  - specialize (Hyes L Hgt). rewrite answers_chain in Hyes.
    apply Nat.ltb_lt in Hyes. lia.
Qed.

Lemma reset_master_chain (s : st Preamps.t) :
  Preamps.reset 0 false s
  = (Ok tt,
     mkst (Preamps.mk (chain L))
          (trace s ++ reset_master_events true ++ enumerate_events L)).
Proof.
  rewrite reset_master_then_enumerate. cbv zeta.
  rewrite (answers_chain _ 0).
  replace (0 <? L)%nat with true by (symmetry; apply Nat.ltb_lt; lia).
  rewrite enumerate_chain. cbn [trace]. now rewrite <- app_assoc.
Qed.

Lemma getitem_chain_run (t : list event) (i : Z) :
  0 <= i < Z.of_nat L ->
  Preamps.__getitem__ i (mkst (Preamps.mk (chain L)) t)
  = (Ok (Preamp.__init__ i), mkst (Preamps.mk (chain L)) t).
Proof.
  intros H. unfold Preamps.__getitem__, bind, get.
  cbn [obj Preamps.preamps]. now rewrite getitem_chain.
Qed.

Lemma reset_expander_chain (t : list event) (unit : Z) :
  0 < unit < Z.of_nat L ->
  Preamps.reset unit true (mkst (Preamps.mk (chain L)) t)
  = (Ok tt,
     mkst (Preamps.mk (chain L))
          (t ++ expander_reset_events (unit * 8) true unit true true)).
Proof.
  intros Hunit. unfold Preamps.reset.
  destruct (Z.eqb_spec unit 0) as [|_]; [lia|].
  run_ok (getitem_chain_run t (unit - 1) ltac:(lia)).
  unfold Preamp.reset_expander, Preamp.__init__. cbn [Preamp.addr].
  replace ((unit - 1 + 1) * 8) with (unit * 8) by lia.
  assert (Ha : forall t' r d, ack E t' (unit * 8) r d = true).
  { intros t' r d. replace (unit * 8) with ((unit - 1 + 1) * 8) by lia.
    apply ack_chain. lia. }
  unfold expander_reset_events.
  unfold bind at 1. unfold bind at 1. unfold smbus_write at 1.
  rewrite Ha.
  unfold bind at 1. unfold sleep at 1. cbn [Z.ltb Z.compare].
  unfold emit at 1. cbn [obj trace].
  unfold bind at 1. unfold smbus_write at 1. cbn [obj trace].
  rewrite Ha.
  unfold sleep, emit. cbn [Z.ltb Z.compare obj trace].
  destruct (Z.ltb_spec (10 * (Preamps.MAX_UNITS - unit)) 0) as [Hneg|_].
  { unfold Preamps.MAX_UNITS in Hneg. lia. }
  cbn [obj trace]. now repeat rewrite <- app_assoc.
Qed.

Lemma passthrough_run (t : list event) (p : Z) :
  0 <= p < Z.of_nat L ->
  (pre <- Preamps.__getitem__ p ;; Preamp.uart_passthrough pre true)
    (mkst (Preamps.mk (chain L)) t)
  = (Ok tt, mkst (Preamps.mk (chain L)) (t ++ passthrough_events vals p)).
Proof.
  intros Hp. run_ok (getitem_chain_run t p Hp).
  unfold Preamp.uart_passthrough, Preamp.__init__, passthrough_events.
  cbn [Preamp.addr]. unfold bind, smbus_read, smbus_write.
  cbn [obj trace]. rewrite !Hread. cbn [obj trace].
  rewrite ack_chain by assumption.
  now rewrite <- app_assoc.
Qed.

Lemma flash_unit_chain (filepath : string) (baud : Z) (t : list event)
    (unit : Z) :
  (forall t, stm32flash E t baud filepath = true) ->
  0 <= unit < Z.of_nat L ->
  Preamps.flash_unit filepath baud unit (mkst (Preamps.mk (chain L)) t)
  = (Ok tt,
     mkst (Preamps.mk (chain L))
          (t ++ flash_unit_events vals filepath baud L unit)).
Proof.
  intros Hflash Hunit. unfold Preamps.flash_unit, flash_unit_events.
  set (first := if unit =? 0 then master_reset_events true ++ [Sleep 10]
                else expander_reset_events (unit * 8) true unit true true).
  assert (Hreset : Preamps.reset unit true (mkst (Preamps.mk (chain L)) t)
                   = (Ok tt, mkst (Preamps.mk (chain L)) (t ++ first))).
  { unfold first. destruct (Z.eqb_spec unit 0) as [->|Hne].
    - apply (reset_into_bootloader (mkst (Preamps.mk (chain L)) t)).
    - apply reset_expander_chain. lia. }
  run_ok Hreset.
  rewrite (bind_ok _ _ _ _ tt
             (foreach_flat _ (passthrough_events vals) _ (range unit)
                (fun p t' Hp =>
                   passthrough_run t' p
                     ltac:(apply In_range in Hp; lia)) (t ++ first))).
  unfold bind at 1. unfold run_stm32flash at 1. rewrite Hflash.
  cbn [obj trace].
  rewrite (bind_ok _ _ _ _ tt (reset_master_chain _)). cbn [trace].
  rewrite (bind_ok _ _ _ _ _ (getitem_chain_run _ unit Hunit)).
  erewrite bind_ok;
    [| apply (read_version_run (Preamp.__init__ unit) _
                (fun r => Some (vals ((unit + 1) * 8) r)));
       [intros t' r; apply Hread | reflexivity ..] ].
  unfold ret. cbn [obj trace Preamp.addr Preamp.__init__].
  now repeat rewrite <- app_assoc.
Qed.

(** X16. On a chain of [L] boards (1 to 6) that cooperate, [flash]
    handles the units in order, 0 to [L - 1], and succeeds.  For each
    unit: it is reset into its bootloader (the master through its reset
    line, an expansion unit through the EXPANSION register of the board
    before it), the passthrough is switched on on every board before it,
    the flashing tool runs once, the whole chain is reset and enumerated
    again, and the version of the unit is read.  The list of boards at
    the end is the chain. *)
Theorem flash_whole_chain (filepath : string) (baud : Z) (t : list event) :
  Z_in baud Preamps.BAUD_RATES = true ->
  (forall t, stm32flash E t baud filepath = true) ->
  Preamps.flash filepath baud (mkst (Preamps.mk (chain L)) t)
  = (Ok tt,
     mkst (Preamps.mk (chain L))
          (t ++ flat_map (flash_unit_events vals filepath baud L)
                  (range (Z.of_nat L)))).
Proof.
  intros Hb Hflash. unfold Preamps.flash. rewrite Hb. cbn [negb].
  unfold bind at 1. cbn [get obj]. cbv zeta.
  unfold Preamps.__len__, len. cbn [Preamps.preamps].
  rewrite length_chain.
  destruct (Z.eqb_spec (Z.of_nat L) 0) as [H0|_]; [lia|].
  apply foreach_flat. intros unit t' Hin.
  apply flash_unit_chain; [assumption|]. now apply In_range.
Qed.
End FlashChain.

Lemma flash_whole_chain_witness :
  Preamps.flash (E := env_boards 3) "fw.bin" 115200
    (mkst (Preamps.mk (chain 3)) [])
  = (Ok tt,
     mkst (Preamps.mk (chain 3))
          ([] ++ flat_map
                   (flash_unit_events (fun _ _ => 0) "fw.bin" 115200 3)
                   (range (Z.of_nat 3)))).
Proof.
  apply (flash_whole_chain (E := env_boards 3) 3 (fun _ _ => 0)).
  - lia.
  - intros t a r d. reflexivity.
  - intros t a r. reflexivity.
  - reflexivity.
  - reflexivity.
Defined.

(** * Properties of [utils.py] *)

Lemma largest_from (ids : list (option Z)) :
  forall l : Z,
  exists m,
    utils.largest ids (Some l) = Some m
    /\ l <= m
    /\ (forall i, In (Some i) ids -> i <= m)
    /\ (m = l \/ In (Some m) ids).
Proof.
  induction ids as [|[i|] ids IH]; intros l; cbn [utils.largest].
  - exists l. repeat split; [lia | intros i [] | now left].
  - destruct (IH (Z.max l i)) as (m & Hm & Hle & Hall & Hin).
    exists m. split; [assumption|]. split; [lia|]. split.
    + intros j [[= <-] | Hj]; [lia | now apply Hall].
    + destruct Hin as [-> | Hin]; [|right; now right].
      destruct (Z.max_spec l i) as [[_ ->] | [_ ->]];
        [right; now left | now left].
  - destruct (IH l) as (m & Hm & Hle & Hall & Hin).
    exists m. split; [assumption|]. split; [assumption|]. split.
    + intros j [Hj | Hj]; [discriminate | now apply Hall].
    + destruct Hin as [-> | Hin]; [now left | right; now right].
Qed.

Lemma largest_none (ids : list (option Z)) :
  match utils.largest ids None with
  | None => forall i, ~ In (Some i) ids
  | Some m => In (Some m) ids /\ forall i, In (Some i) ids -> i <= m
  end.
Proof.
  induction ids as [|[i|] ids IH]; cbn [utils.largest].
  - intros i [].
  - destruct (largest_from ids i) as (m & -> & Hle & Hall & Hin).
    split.
    + destruct Hin as [-> | Hin]; [now left | now right].
    + intros j [[= <-] | Hj]; [assumption | now apply Hall].
  - destruct (utils.largest ids None) as [m|].
    + destruct IH as [Hin Hall]. split; [now right|].
      intros j [Hj | Hj]; [discriminate | now apply Hall].
    + intros i [Hi | Hi]; [discriminate | now apply (IH i)].
Qed.

(** X17. [next_available_id] returns an id that no item has: one more
    than the largest id present, whatever the order of the items and
    however many of them have no id; when no item has an id it returns
    the default. *)
Theorem next_available_id_is_fresh (ids : list (option Z)) (default : Z) :
  let n := utils.next_available_id ids default in
  ~ In (Some n) ids
  /\ (forall i, In (Some i) ids -> i < n)
  /\ ((forall i, ~ In (Some i) ids) -> n = default)
  /\ ((exists i, In (Some i) ids) -> In (Some (n - 1)) ids).
Proof.
  unfold utils.next_available_id.
  pose proof (largest_none ids) as H.
  destruct (utils.largest ids None) as [m|]; cbv zeta.
  - destruct H as [Hin Hall]. repeat split.
    + intros Hn. specialize (Hall _ Hn). lia.
    + intros i Hi. specialize (Hall _ Hi). lia.
    + intros Hnone. now destruct (Hnone m).
    + intros _. now replace (m + 1 - 1) with m by lia.
  - repeat split.
    + apply H.
    + intros i Hi. now destruct (H i).
    + intros [i Hi]. now destruct (H i).
Qed.

(** The loop of [find], started at index [k]. *)
Lemma find_from_spec (key : string) (item_id : Z) (items : list utils.item) :
  forall k : Z,
    match utils.find_from k items item_id key with
    | Ok (Some (i, it)) =>
        k <= i < k + len items
        /\ nth_error items (Z.to_nat (i - k)) = Some it
        /\ (exists v, utils.attr key it = Some v
                      /\ utils.eq_int v item_id = true)
        /\ forall j it', (j < Z.to_nat (i - k))%nat ->
             nth_error items j = Some it' ->
             exists v, utils.attr key it' = Some v
                       /\ utils.eq_int v item_id = false
    | Ok None =>
        forall it, In it items ->
          exists v, utils.attr key it = Some v
                    /\ utils.eq_int v item_id = false
    | Raise e =>
        e = KeyError
        /\ exists j it',
             nth_error items j = Some it' /\ utils.attr key it' = None
             /\ forall j' it'', (j' < j)%nat ->
                  nth_error items j' = Some it'' ->
                  exists v, utils.attr key it'' = Some v
                            /\ utils.eq_int v item_id = false
    end.
Proof.
  induction items as [|it items IH]; intros k; cbn [utils.find_from].
  - intros it [].
  - destruct (utils.attr key it) as [v|] eqn:Hattr.
    2:{ split; [reflexivity|]. exists 0%nat, it.
        split; [reflexivity|]. split; [assumption|]. intros j' ? Hj'. lia. }
    destruct (utils.eq_int v item_id) eqn:Heq.
    { unfold len. cbn [length]. rewrite Z.sub_diag.
      split; [lia|]. split; [reflexivity|].
      split; [now exists v|]. intros j it' Hj. cbn in Hj. lia. }
    specialize (IH (k + 1)).
    destruct (utils.find_from (k + 1) items item_id key)
      as [[[i it1]|]|e].
    + destruct IH as (Hi & Hnth & Hmatch & Hbefore).
      unfold len in *. cbn [length].
      split; [lia|].
      replace (Z.to_nat (i - k)) with (S (Z.to_nat (i - (k + 1)))) by lia.
      split; [exact Hnth|]. split; [exact Hmatch|].
      intros [|j] it' Hj Hn.
      * injection Hn as <-. now exists v.
      * apply (Hbefore j it'); [lia | exact Hn].
    + intros it' [<- | Hin]; [now exists v | now apply IH].
    + destruct IH as (-> & j & it' & Hnth & Hnone & Hbefore).
      split; [reflexivity|]. exists (S j), it'.
      split; [exact Hnth|]. split; [exact Hnone|].
      intros [|j'] it'' Hj Hn.
      * injection Hn as <-. now exists v.
      * apply (Hbefore j' it''); [lia | exact Hn].
Qed.

(** X18. [find] returns the first item whose attribute [key] equals the
    id, with its index in the list; [(None, None)] exactly when every
    item has the attribute and none matches; and it raises [KeyError] at
    the first item without the attribute, provided no item before it
    matches. *)
Theorem find_returns_first_match (items : list utils.item) (item_id : Z)
    (key : string) :
  match utils.find items item_id key with
  | Ok (Some (i, it)) =>
      0 <= i < len items
      /\ nth_error items (Z.to_nat i) = Some it
      /\ (exists v, utils.attr key it = Some v
                    /\ utils.eq_int v item_id = true)
      /\ forall j it', (j < Z.to_nat i)%nat ->
           nth_error items j = Some it' ->
           exists v, utils.attr key it' = Some v
                     /\ utils.eq_int v item_id = false
  | Ok None =>
      forall it, In it items ->
        exists v, utils.attr key it = Some v
                  /\ utils.eq_int v item_id = false
  | Raise e =>
      e = KeyError
      /\ exists j it',
           nth_error items j = Some it' /\ utils.attr key it' = None
           /\ forall j' it'', (j' < j)%nat ->
                nth_error items j' = Some it'' ->
                exists v, utils.attr key it'' = Some v
                          /\ utils.eq_int v item_id = false
  end.
Proof.
  unfold utils.find. pose proof (find_from_spec key item_id items 0) as H.
  destruct (utils.find_from 0 items item_id key) as [[[i it]|]|e];
    [|exact H|exact H].
  rewrite Z.sub_0_r in H. exact H.
Qed.

(** * The runtime without hardware *)

Lemma set_reg_mock_well_formed (a r d : Z) (ps : list (Z * list Z)) :
  well_formed (_Preamps.mk ps false) = true ->
  Z_in a _DEV_ADDRS = true ->
  well_formed (_Preamps.mk (set_reg_mock a r d ps) false) = true.
Proof.
  intros Hwf Ha. unfold set_reg_mock.
  destruct (dict_get a ps) as [regs|] eqn:Hg.
  - destruct (well_formed_entry _ _ _ _ Hwf Hg) as [_ Hl].
    eapply well_formed_set; try eassumption. now rewrite length_replace_nth.
  - apply well_formed_app; try assumption. now rewrite length_replace_nth.
Qed.

Lemma set_reg_mock_keys (a r d : Z) (ps : list (Z * list Z)) :
  incl (dict_keys ps) (dict_keys (set_reg_mock a r d ps)).
Proof.
  unfold set_reg_mock. destruct (dict_get a ps) as [regs|] eqn:Hg.
  - rewrite dict_keys_set_known; [apply incl_refl|].
    unfold dict_mem. now rewrite Hg.
  - unfold dict_keys. rewrite map_app. now apply incl_appl, incl_refl.
Qed.

Section NoHardware.
Context {E : Env}.

(** Without a bus a write only changes the shadow table. *)
Lemma mock_write_exact (ps : list (Z * list Z)) (t : list event) (am : bool)
    (a r d : Z) :
  well_formed (_Preamps.mk ps false) = true ->
  Z_in a _DEV_ADDRS = true ->
  0 <= r < 11 ->
  Rpi.on_bus (_Preamps.write_byte_data a r d)
    (mkst (Rpi.mk (_Preamps.mk ps false) am) t)
  = (Ok tt, mkst (Rpi.mk (_Preamps.mk (set_reg_mock a r d ps) false) am) t).
Proof.
  intros Hwf Ha Hr. apply on_bus_run. unfold set_reg_mock.
  destruct (dict_get a ps) as [regs|] eqn:Hg.
  - destruct (well_formed_entry _ _ _ _ Hwf Hg) as [_ Hl].
    apply write_known_mock; try assumption.
    rewrite Hl. apply (py_pos_in_range 11). lia.
  - apply write_unknown_mock; try assumption.
    + unfold dict_mem. now rewrite Hg.
    + apply (py_pos_in_range 11). lia.
Qed.

Lemma mock_standby_loop (v : Z) (am : bool) (ks : list Z) :
  forall (ps : list (Z * list Z)) (t : list event),
    well_formed (_Preamps.mk ps false) = true ->
    incl ks (dict_keys ps) ->
    exists ps',
      foreach ks (fun p =>
        Rpi.on_bus (_Preamps.write_byte_data p REG.STANDBY v))
        (mkst (Rpi.mk (_Preamps.mk ps false) am) t)
      = (Ok tt, mkst (Rpi.mk (_Preamps.mk ps' false) am) t)
      /\ well_formed (_Preamps.mk ps' false) = true
      /\ incl (dict_keys ps) (dict_keys ps').
Proof.
  induction ks as [|k ks IH]; intros ps t Hwf Hin.
  - exists ps. rewrite foreach_nil. repeat split; [assumption|].
    apply incl_refl.
  - assert (Hk : In k (dict_keys ps)) by (apply Hin; now left).
    pose proof (well_formed_key _ _ _ Hwf Hk) as Ha.
    pose proof (set_reg_mock_well_formed k REG.STANDBY v ps Hwf Ha) as Hwf1.
    pose proof (set_reg_mock_keys k REG.STANDBY v ps) as Hk1.
    destruct (IH (set_reg_mock k REG.STANDBY v ps) t Hwf1) as
      (ps' & Hrun & Hwf' & Hk').
    { intros x Hx. apply Hk1, Hin. now right. }
    exists ps'. rewrite foreach_cons.
    run_ok (mock_write_exact ps t am k REG.STANDBY v Hwf Ha
              ltac:(unfold REG.STANDBY; lia)).
    split; [exact Hrun|]. split; [assumption|].
    intros x Hx. now apply Hk', Hk1.
Qed.

Lemma mock_sync_standby (mutes : list pyval) (ps : list (Z * list Z))
    (t : list event) (am : bool) :
  well_formed (_Preamps.mk ps false) = true ->
  exists ps' t',
    Rpi.sync_standby mutes (mkst (Rpi.mk (_Preamps.mk ps false) am) t)
    = (Ok tt,
       mkst (Rpi.mk (_Preamps.mk ps' false) (aggregate_muted mutes))
            (t ++ t'))
    /\ forallb is_sleep t' = true
    /\ well_formed (_Preamps.mk ps' false) = true
    /\ incl (dict_keys ps) (dict_keys ps').
Proof.
  intros Hwf.
  destruct (Bool.eqb am (aggregate_muted mutes)) eqn:Hflag.
  - apply eqb_prop in Hflag. subst am. exists ps, [].
    rewrite sync_standby_unchanged by reflexivity.
    rewrite app_nil_r. repeat split; [assumption | apply incl_refl].
  - unfold Rpi.sync_standby. cbv zeta. unfold bind at 1.
    cbn [get obj Rpi._all_muted]. fold (aggregate_muted mutes).
    rewrite Hflag. cbn [negb Rpi._bus _Preamps.preamps].
    destruct (aggregate_muted mutes).
    + destruct (mock_standby_loop 0x00 am (dict_keys ps) ps t Hwf
                  (incl_refl _)) as (ps' & Hrun & Hwf' & Hk').
      exists ps', [Sleep 100].
      unfold bind at 1. unfold bind at 1. rewrite Hrun.
      repeat split; assumption.
    + destruct (mock_standby_loop 0x3F am (dict_keys ps) ps t Hwf
                  (incl_refl _)) as (ps' & Hrun & Hwf' & Hk').
      exists ps', [Sleep 300].
      unfold bind at 1. unfold bind at 1. rewrite Hrun.
      repeat split; assumption.
Qed.

(** One call without hardware. *)
Lemma mock_call_step (c : call) (ps : list (Z * list Z)) (t : list event)
    (am : bool) :
  well_formed (_Preamps.mk ps false) = true ->
  exists res ps' am' t',
    run_call c (mkst (Rpi.mk (_Preamps.mk ps false) am) t)
    = (res, mkst (Rpi.mk (_Preamps.mk ps' false) am') (t ++ t'))
    /\ (rpi_validates c = true -> res = Ok true)
    /\ (rpi_validates c = false ->
        (exists e, res = Raise e) /\ ps' = ps /\ am' = am /\ t' = [])
    /\ forallb is_sleep t' = true
    /\ well_formed (_Preamps.mk ps' false) = true
    /\ incl (dict_keys ps) (dict_keys ps').
Proof.
  intros Hwf.
  set (s := mkst (Rpi.mk (_Preamps.mk ps false) am) t).
  destruct (rpi_validates c) eqn:Hv.
  2:{ destruct (rejected_untouched c s Hv) as (e & _ & Hrun).
      exists (Raise e), ps, am, []. rewrite app_nil_r.
      repeat split; try assumption; try discriminate;
        [now exists e | apply incl_refl]. }
  destruct c as [digital | zone mutes | zone sources | zone vol];
    cbn [run_call].
  - destruct (update_sources_accepted digital s Hv) as (output & _ & Hrun).
    rewrite Hrun. unfold s.
    run_ok (mock_write_exact ps t am 8 REG.SRC_AD output Hwf eq_refl
              ltac:(unfold REG.SRC_AD; lia)).
    exists (Ok true), (set_reg_mock 8 REG.SRC_AD output ps), am, [].
    rewrite app_nil_r.
    repeat split; try discriminate;
      [now apply set_reg_mock_well_formed | apply set_reg_mock_keys].
  - destruct (update_zone_mutes_accepted zone mutes s Hv)
      as (addr & cfg & Haddr & _ & Hrun).
    pose proof (getitem_DEV_ADDRS_member _ _ Haddr) as Ha.
    rewrite Hrun. unfold s.
    run_ok (mock_write_exact ps t am addr REG.MUTE cfg Hwf Ha
              ltac:(unfold REG.MUTE; lia)).
    destruct (mock_sync_standby mutes (set_reg_mock addr REG.MUTE cfg ps) t
                am (set_reg_mock_well_formed _ _ _ _ Hwf Ha))
      as (ps' & t' & Hsync & Hsl & Hwf' & Hk').
    run_ok Hsync.
    exists (Ok true), ps', (aggregate_muted mutes), t'.
    repeat split; try assumption; try discriminate.
    intros x Hx. now apply Hk', set_reg_mock_keys.
  - destruct (update_zone_sources_accepted zone sources s Hv)
      as (addr & cfg & Haddr & _ & Hrun).
    pose proof (getitem_DEV_ADDRS_member _ _ Haddr) as Ha.
    rewrite Hrun. unfold s.
    run_ok (mock_write_exact ps t am addr REG.CH123_SRC (fst cfg) Hwf Ha
              ltac:(unfold REG.CH123_SRC; lia)).
    run_ok (mock_write_exact _ t am addr REG.CH456_SRC (snd cfg)
              (set_reg_mock_well_formed addr REG.CH123_SRC (fst cfg) _
                 Hwf Ha) Ha
              ltac:(unfold REG.CH456_SRC; lia)).
    do 2 eexists. exists am, []. rewrite app_nil_r.
    split; [reflexivity|].
    repeat split; try discriminate.
    + apply set_reg_mock_well_formed; [|assumption].
      now apply set_reg_mock_well_formed.
    + intros x Hx. now do 2 apply set_reg_mock_keys.
  - rewrite update_zone_vol_accepted by assumption.
    cbn [rpi_validates] in Hv.
    apply andb_prop in Hv as [Hv _]. apply andb_prop in Hv as [Hz Hp].
    apply Z.leb_le in Hz. apply Z.ltb_lt in Hp.
    rewrite Z.quot_div_nonneg in Hp by lia.
    assert (Hh : 0 <= zone / 6 < 15)
      by (split; [apply Z.div_pos; lia | assumption]).
    pose proof (Z.mod_pos_bound zone 6 ltac:(lia)) as Hm.
    unfold s.
    run_ok (mock_write_exact ps t am ((zone / 6 + 1) * 8)
              (REG.CH1_ATTEN + zone mod 6) (Z.abs vol) Hwf
              (DEV_ADDRS_member _ Hh) ltac:(unfold REG.CH1_ATTEN; lia)).
    do 2 eexists. exists am, []. rewrite app_nil_r.
    split; [reflexivity|].
    repeat split; try discriminate.
    + apply set_reg_mock_well_formed; [assumption|].
      now apply DEV_ADDRS_member.
    + apply set_reg_mock_keys.
Qed.


Lemma mock_session (calls : list call) :
  forall (ps : list (Z * list Z)) (am : bool) (t : list event),
    well_formed (_Preamps.mk ps false) = true ->
    exists ps' am' t',
      run_calls calls (mkst (Rpi.mk (_Preamps.mk ps false) am) t)
      = (Ok tt, mkst (Rpi.mk (_Preamps.mk ps' false) am') (t ++ t'))
      /\ forallb is_sleep t' = true.
Proof.
  unfold run_calls.
  induction calls as [|c calls IH]; intros ps am t Hwf.
  - exists ps, am, []. rewrite foreach_nil, app_nil_r. now split.
  - destruct (mock_call_step c ps t am Hwf)
      as (res & ps1 & am1 & t1 & Hrun & _ & _ & Hs1 & Hwf1 & _).
    destruct (IH ps1 am1 (t ++ t1) Hwf1) as (ps2 & am2 & t2 & Hrest & Hs2).
    exists ps2, am2, (t1 ++ t2). rewrite foreach_cons.
    split; [|now rewrite forallb_app, Hs1, Hs2].
    rewrite app_assoc.
    unfold bind at 1, try_except.
    destruct res as [b|e].
    + run_ok Hrun. exact Hrest.
    + run_raise Hrun. exact Hrest.
Qed.

(** X20. A runtime constructed without hardware never touches any: over
    a whole session of setter calls, accepted or refused, nothing happens
    on the GPIO pins, the UART or the I2C bus, whatever the environment
    would answer; the trace only grows by delays. *)
Theorem session_without_hardware_is_silent (calls : list call)
    (s0 : st Rpi.t) :
  exists ps' am' t',
    (Rpi.__init__ false ;; run_calls calls) s0
    = (Ok tt, mkst (Rpi.mk (_Preamps.mk ps' false) am') (trace s0 ++ t'))
    /\ forallb is_sleep t' = true.
Proof.
  destruct (mock_session calls [] true (trace s0) eq_refl)
    as (ps' & am' & t' & Hrun & Hs).
  exists ps', am', t'. split; [|assumption].
  run_ok (rpi_init_mock_state s0). exact Hrun.
Qed.
End NoHardware.


(** * Printing the whole table *)

Lemma DEV_ADDRS_hop (a : Z) :
  Z_in a _DEV_ADDRS = true -> exists h, 0 <= h < 15 /\ a = (h + 1) * 8.
Proof.
  intros H. apply Z_in_spec in H. unfold _DEV_ADDRS in H. cbn [In] in H.
  assert (Hc : 8 <= a <= 120 /\ a mod 8 = 0).
  { repeat (destruct H as [<- | H]; [split; [lia | reflexivity]|]).
    destruct H. }
  destruct Hc as [Hr Hm]. exists (a / 8 - 1).
  pose proof (Z.div_mod a 8 ltac:(lia)) as Hd. lia.
Qed.

(** A loop whose rounds only print: the output grows by one block of lines
    per round, the table and the trace stay. *)
Lemma foreach_blocks {X} (body : X -> M (_Preamps.t * list _Preamps.line) unit)
    (P : X -> list _Preamps.line -> Prop) (tb : _Preamps.t)
    (tr : list event) (l : list X) :
  (forall x o, In x l ->
     exists blk, body x (mkst (tb, o) tr) = (Ok tt, mkst (tb, o ++ blk) tr)
                 /\ P x blk) ->
  forall o,
    exists blks,
      foreach l body (mkst (tb, o) tr)
      = (Ok tt, mkst (tb, o ++ concat blks) tr)
      /\ Forall2 P l blks.
Proof.
  induction l as [|x l IH]; intros Hbody o.
  - exists []. cbn [concat]. rewrite app_nil_r, foreach_nil.
    split; [reflexivity | constructor].
  - destruct (Hbody x o (or_introl eq_refl)) as (blk & Hrun & Hblk).
    destruct (IH (fun x' o' Hx' => Hbody x' o' (or_intror Hx')) (o ++ blk))
      as (blks & Hrest & Hall).
    exists (blk :: blks). rewrite foreach_cons. run_ok Hrun.
    rewrite Hrest. cbn [concat]. rewrite <- app_assoc.
    split; [reflexivity | now constructor].
Qed.

(** Blocks of one zone line each. *)
Lemma zone_blocks {X} (Q : X -> Z * string * Z * Z * bool -> Prop)
    (l : list X) (blks : list (list _Preamps.line)) :
  Forall2 (fun x blk => exists state,
             blk = [_Preamps.Zone_line state] /\ Q x state) l blks ->
  exists states,
    concat blks = map _Preamps.Zone_line states /\ Forall2 Q l states.
Proof.
  induction 1 as [|x blk l blks (state & -> & Hq) _ (states & Hc & Hall)].
  - exists []. split; [reflexivity | constructor].
  - exists (state :: states). cbn [concat map app]. rewrite Hc.
    split; [reflexivity | now constructor].
Qed.

(** X21. [print] on a well-formed table that holds the master board
    goes through the boards in the order of the table, leaves the table as
    it is and adds to the output, for the board at address [a]: the
    header with the number [a / 8], one line with four source types, and
    six zone lines, the results of [print_zone_state] for the zones
    [6 * (a / 8 - 1)] to [6 * (a / 8 - 1) + 5], which are the channels 0
    to 5 of that same board.  When the table holds boards but not the
    master (possible without hardware), it prints the header of the first
    board and then raises [KeyError]; that header stays on the output.  On
    an empty table it prints nothing. *)
Theorem print_covers_every_board (ps : list (Z * list Z)) (b : bool)
    (out0 : list _Preamps.line) (t : list event) :
  well_formed (_Preamps.mk ps b) = true ->
  let tb := _Preamps.mk ps b in
  if dict_mem 8 ps then
    exists blocks,
      _Preamps.print (mkst (tb, out0) t)
      = (Ok tt, mkst (tb, out0 ++ concat blocks) t)
      /\ Forall2 (fun a block =>
           exists src_cfg states,
             block = _Preamps.Preamp_line (a / 8)
                     :: _Preamps.Sources_line src_cfg
                     :: map _Preamps.Zone_line states
             /\ length src_cfg = 4%nat
             /\ Forall2 (fun z state =>
                  _Preamps.print_zone_state (6 * (a / 8 - 1) + z)
                    (mkst tb t)
                  = (Ok state, mkst tb t)
                  /\ (6 * (a / 8 - 1) + z) / 6 + 1 = a / 8
                  /\ snd (fst (fst state)) = z)
                  (range 6) states)
           (dict_keys ps) blocks
  else
    _Preamps.print (mkst (tb, out0) t)
    = match dict_keys ps with
      | [] => (Ok tt, mkst (tb, out0) t)
      | a :: _ =>
          (Raise KeyError,
           mkst (tb, out0 ++ [_Preamps.Preamp_line (a / 8)]) t)
      end.
Proof.
  intros Hwf tb. unfold _Preamps.print.
  unfold bind at 1. unfold get at 1.
  cbn [obj fst _Preamps.preamps tb].
  destruct (dict_mem 8 ps) eqn:Hmaster.
  - destruct (reg_of_present ps b 8 REG.SRC_AD Hwf Hmaster
                ltac:(unfold REG.SRC_AD; lia)) as [types Hst].
    destruct (dict_mem_get _ _ Hmaster) as [master Hg].
    assert (Hsrc : getitem master REG.SRC_AD = Some types).
    { unfold reg_of in Hst. rewrite Hg in Hst.
      apply getitem_nth_error; [unfold REG.SRC_AD; lia | exact Hst]. }
    apply foreach_blocks.
    intros a o Ha.
    destruct (DEV_ADDRS_hop a (well_formed_key _ _ _ Hwf Ha))
      as (h & Hh & ->).
    assert (Hq : (h + 1) * 8 ÷ 8 = h + 1).
    { rewrite Z.quot_div_nonneg by lia. apply Z.div_mul. lia. }
    assert (Hd : (h + 1) * 8 / 8 = h + 1) by (apply Z.div_mul; lia).
    cbv zeta. rewrite Hq, Hd.
    replace (h + 1 - 1) with h by lia.
    unfold bind at 1. unfold _Preamps.print_line at 1.
    cbn [obj trace fst snd].
    unfold bind at 1. unfold get at 1. cbn [obj fst _Preamps.preamps tb].
    rewrite Hg. unfold bind at 1. cbn [must ret].
    rewrite Hsrc. unfold bind at 1. cbn [must ret].
    unfold bind at 1. unfold _Preamps.print_line at 1.
    cbn [obj trace fst snd].
    destruct (foreach_blocks
                (fun zone =>
                   state <- _Preamps.quiet
                              (_Preamps.print_zone_state (6 * h + zone)) ;;
                   _Preamps.print_line (_Preamps.Zone_line state))
                (fun z blk => exists state,
                   blk = [_Preamps.Zone_line state]
                   /\ (_Preamps.print_zone_state (6 * h + z) (mkst tb t)
                       = (Ok state, mkst tb t)
                       /\ (6 * h + z) / 6 + 1 = h + 1
                       /\ snd (fst (fst state)) = z))
                tb t (range 6)) with
      (o := (o ++ [_Preamps.Preamp_line (h + 1)])
              ++ [_Preamps.Sources_line
                    (map (fun src =>
                            match dict_get
                                    (Z.land (Z.shiftr types src) 1)
                                    _SRC_TYPES
                            with
                            | Some src_type => src_type
                            | None => "None"%string
                            end) (range 4))])
      as (blks & Hzs & Hzall).
    { intros z o' Hz. apply In_range in Hz.
      assert (Hdiv : (6 * h + z) / 6 = h).
      { rewrite Z.mul_comm, Z.div_add_l by lia.
        rewrite Z.div_small by lia. lia. }
      assert (Hmod : (6 * h + z) mod 6 = z).
      { rewrite Z.mul_comm, Z.add_comm, Z.mod_add by lia.
        apply Z.mod_small. lia. }
      assert (Hboard : dict_mem (((6 * h + z) / 6 + 1) * 8) ps = true).
      { rewrite Hdiv. now apply dict_mem_keys. }
      destruct (print_zone_state_pure ps b (6 * h + z) Hwf ltac:(lia)
                  Hboard Hmaster)
        as (types' & r456 & r123 & atten & mute & H0 & H1 & H2 & H3 & H4).
      pose proof (print_zone_state_run ps b t (6 * h + z) types' r456 r123
                    atten mute ltac:(lia) H0 H1 H2 H3 H4) as Hp.
      cbv zeta in Hp. fold tb in Hp.
      eexists. split.
      - unfold bind at 1. unfold _Preamps.quiet at 1.
        cbn [obj trace fst snd]. rewrite Hp.
        unfold _Preamps.print_line. cbn [obj trace fst snd]. reflexivity.
      - eexists. split; [reflexivity|].
        split; [exact Hp|]. split; [lia|]. cbn [fst snd]. exact Hmod. }
    destruct (zone_blocks _ _ _ Hzall) as (states & Hc & Hstates).
    fold tb. rewrite Hzs, Hc. eexists. split.
    + rewrite <- !app_assoc. cbn [app]. reflexivity.
    + eexists. exists states. split; [reflexivity|].
      split; [now rewrite length_map | exact Hstates].
  - destruct ps as [|[a regs] ps]; [reflexivity|].
    assert (Hnone : dict_get 8 ((a, regs) :: ps) = None).
    { unfold dict_mem in Hmaster.
      destruct (dict_get 8 ((a, regs) :: ps)); [discriminate | reflexivity]. }
    cbn [dict_keys map fst].
    destruct (DEV_ADDRS_hop a
                (well_formed_key _ _ _ Hwf (or_introl eq_refl)))
      as (h & Hh & ->).
    unfold bind at 1. unfold get at 1.
    cbn [obj fst _Preamps.preamps tb dict_keys map].
    rewrite foreach_cons. cbv beta zeta.
    rewrite Z.quot_div_nonneg by lia.
    unfold bind at 1. unfold _Preamps.print_line at 1.
    cbn [obj trace fst snd].
    unfold bind at 1. unfold get at 1. cbn [obj fst _Preamps.preamps tb].
    unfold bind at 1. cbn [obj fst snd trace _Preamps.preamps tb].
    rewrite Hnone. reflexivity.
Qed.

Lemma print_covers_every_board_witness :
  exists blocks,
    _Preamps.print (mkst (_Preamps.mk (discovered 2) true, []) [])
    = (Ok tt, mkst (_Preamps.mk (discovered 2) true, concat blocks) [])
    /\ map (@hd_error _) blocks
       = [Some (_Preamps.Preamp_line 1); Some (_Preamps.Preamp_line 2)].
Proof.
  pose proof (print_covers_every_board (discovered 2) true [] []
                (discovered_well_formed 2)) as H.
  cbv zeta in H. change (dict_mem 8 (discovered 2)) with true in H.
  cbv iota in H. destruct H as (blocks & Hrun & Hall).
  exists blocks. split; [exact Hrun|].
  inversion Hall as [|a e ks es (c & zs & -> & _) Hrest]; subst.
  inversion Hrest as [|a' e' ks' es' (c' & zs' & -> & _) Hrest']; subst.
  inversion Hrest'; subst. reflexivity.
Defined.

(** Without hardware a write to zone 6 leaves a table that holds board 16
    alone; [print] then gets as far as the header of that board. *)
Example print_without_master :
  _Preamps.print (mkst (_Preamps.mk [(16, _Preamps.fresh_regs)] false, []) [])
  = (Raise KeyError,
     mkst (_Preamps.mk [(16, _Preamps.fresh_regs)] false,
           [_Preamps.Preamp_line 2]) []).
Proof. reflexivity. Qed.
